(** * Entity rendering engine of the DXF-to-SVG converter (src/index.mjs)

    A shallow embedding of the conversion code, function by function and
    under the names of the source, followed by the properties of the
    specification that were checked against it.

    Layout:
    - [JS]: the fragment of the ECMAScript run time that the source relies
      on (binary64 numbers, ToNumber and ToString, [Math], strings,
      completions);
    - [Dxf]: the data model (group codes, records, documents) and the
      imported accessors;
    - the engine itself, in the order of the source file;
    - the vocabulary of the properties and the sample inputs;
    - the properties, claim by claim, and the further properties of the
      code around them.

    Conventions of the model:
    - a computation is a pair of the diagnostics that it hands to
      [options.warn], in order, and of its completion (a value or a thrown
      error); the two collaborators that the caller configures, the sink
      [warn] and [resolveColorIndex], are taken to return: the sink
      returns nothing, the other one a string;
    - an object used as a map is kept as the list of its own properties.
      The table of interpreters and the block mapping are read through
      [member], which also finds what the object inherits from
      [Object.prototype], as [object[key]] does.  The layer and linetype
      maps are read through [lookup]: the code reads only the properties
      [color], [ltype] and [strokeDasharray] of what it finds there, which
      no inherited member has, so that an inherited member reads like a
      missing one; the keys of the header start with a dollar sign;
    - the text of an error that the engine raises itself is given in the
      wording of V8;
    - the only resource that can run out is the call stack, through the
      nesting of block expansions, whose depth is a parameter;
    - strings are sequences of 8-bit code units (UTF-8 for the one
      non-ASCII literal of the source, the plus-minus sign). *)

From Stdlib Require Import ZArith List String Ascii Bool Lia.
From Stdlib Require Import SpecFloat DecimalString.
From Stdlib Require DecimalFacts DecimalPos.
Import ListNotations.

Local Open Scope string_scope.
Local Open Scope list_scope.
Local Open Scope Z_scope.

(** String concatenation, written apart from the append of lists. *)
Infix "+++" := String.append (right associativity, at level 60).

(* ================================================================== *)
(** * The ECMAScript run time used by the source *)
(* ================================================================== *)

Module JS.

(** ** Numbers

    A JavaScript number is an IEEE-754 binary64 value.  It is modelled by
    the Standard Library's inductive specification of binary floats at
    precision 53 and maximal exponent 1024; every operation below is the
    correctly rounded one of that specification. *)

Definition number : Type := spec_float.

Definition prec : Z := 53.
Definition emax : Z := 1024.

Definition NaN : number := S754_nan.
Definition Infinity : number := S754_infinity false.
Definition negInfinity : number := S754_infinity true.
Definition zero : number := S754_zero false.
Definition negZero : number := S754_zero true.

(** The number denoted by an integer literal. *)
Definition ofZ (z : Z) : number := binary_normalize prec emax z 0 false.

(** The number [m * 2^e] (for dyadic literals such as [1 / 64]). *)
Definition ofDyadic (m e : Z) : number := binary_normalize prec emax m e false.

Definition add : number -> number -> number := SFadd prec emax.
Definition sub : number -> number -> number := SFsub prec emax.
Definition mul : number -> number -> number := SFmul prec emax.
Definition div : number -> number -> number := SFdiv prec emax.
Definition neg : number -> number := SFopp.

(** [x < y], [x > y] and [x === y] on numbers. *)
Definition lt (x y : number) : bool := SFltb x y.
Definition gt (x y : number) : bool := SFltb y x.
Definition strictEq (x y : number) : bool := SFeqb x y.

Definition isNaN (x : number) : bool :=
  match x with S754_nan => true | _ => false end.

Definition isFinite (x : number) : bool :=
  match x with
  | S754_zero _ | S754_finite _ _ _ => true
  | S754_infinity _ | S754_nan => false
  end.

(** ToBoolean on a number: [NaN], [+0] and [-0] are falsy. *)
Definition truthy (x : number) : bool :=
  match x with
  | S754_nan | S754_zero _ => false
  | S754_infinity _ | S754_finite _ _ _ => true
  end.

(** [x || y] on numbers. *)
Definition orElse (x y : number) : number := if truthy x then x else y.

Definition isNegZero (x : number) : bool :=
  match x with S754_zero true => true | _ => false end.

(** ** Math *)

Definition Math_abs : number -> number := SFabs.

(** [Math.PI], the binary64 value 0x400921FB54442D18. *)
Definition Math_PI : number := S754_finite false 7074237752028440 (-51).

(** [Math.round]: the integer nearest to [x], ties towards +Infinity,
    computed exactly; a result of zero keeps the sign of [x]. *)
Definition Math_round (x : number) : number :=
  match x with
  | S754_finite s m e =>
      if 0 <=? e then x
      else
        let d := 2 ^ (- e) in
        let v := if s then Z.neg m else Z.pos m in
        let r := (2 * v + d) / (2 * d) in
        if r =? 0 then S754_zero s else ofZ r
  | _ => x
  end.

(** One step of [Math.min] / [Math.max] (ECMA-262, 21.3.2.25 and .24):
    [-0] counts as smaller than [+0]. *)
Definition min_step (lowest x : number) : number :=
  if isNegZero x && strictEq lowest zero then x
  else if lt x lowest then x else lowest.

Definition max_step (highest x : number) : number :=
  if strictEq x zero && negb (isNegZero x) && isNegZero highest then x
  else if gt x highest then x else highest.

Definition Math_min (args : list number) : number :=
  if existsb isNaN args then NaN else fold_left min_step args Infinity.

Definition Math_max (args : list number) : number :=
  if existsb isNaN args then NaN else fold_left max_step args negInfinity.

(** ** Strings

    Strings are sequences of 8-bit code units.  The white space recognised
    by [trim] and by ToNumber is the ASCII part of ECMAScript's WhiteSpace
    and LineTerminator (TAB, LF, VT, FF, CR, SP). *)

Definition isWhiteSpace (c : ascii) : bool :=
  match nat_of_ascii c with
  | 9%nat | 10%nat | 11%nat | 12%nat | 13%nat | 32%nat => true
  | _ => false
  end.

Fixpoint trimStart (s : string) : string :=
  match s with
  | String c r => if isWhiteSpace c then trimStart r else s
  | EmptyString => EmptyString
  end.

Fixpoint trimEnd (s : string) : string :=
  match s with
  | EmptyString => EmptyString
  | String c r =>
      match trimEnd r with
      | EmptyString => if isWhiteSpace c then EmptyString else String c EmptyString
      | r' => String c r'
      end
  end.

(** [String.prototype.trim]. *)
Definition trim (s : string) : string := trimEnd (trimStart s).

(** [s.startsWith(p)]. *)
Definition startsWith (p s : string) : bool := String.prefix p s.

(** [s.slice(1)]. *)
Definition slice1 (s : string) : string :=
  match s with String _ r => r | EmptyString => EmptyString end.

(** [a.join(sep)] on an array of strings. *)
Fixpoint join (sep : string) (l : list string) : string :=
  match l with
  | [] => ""
  | [x] => x
  | x :: r => x +++ sep +++ join sep r
  end.

(** [s.split(c)] for a one-character separator. *)
Fixpoint split (c : ascii) (s : string) : list string :=
  match s with
  | EmptyString => [EmptyString]
  | String a r =>
      if Ascii.eqb a c then EmptyString :: split c r
      else
        match split c r with
        | x :: l => String a x :: l
        | [] => [String a EmptyString]
        end
  end.

(** ToBoolean on a string: only the empty string is falsy. *)
Definition truthyString (s : string) : bool :=
  match s with EmptyString => false | _ => true end.

(** The decimal numeral of an integer, as ToString prints it. *)
Definition stringOfZ (z : Z) : string := NilZero.string_of_int (Z.to_int z).

(** ** ToNumber on strings (ECMA-262, 7.1.4.1.1 StringToNumber) *)

Definition digitValue (radix : Z) (c : ascii) : option Z :=
  let n := Z.of_nat (nat_of_ascii c) in
  let v :=
    if (48 <=? n) && (n <=? 57) then n - 48
    else if (97 <=? n) && (n <=? 102) then n - 87
    else if (65 <=? n) && (n <=? 70) then n - 55
    else 99 in
  if v <? radix then Some v else None.

(** Reads a maximal run of digits: the accumulated value, the number of
    digits read and the rest of the input. *)
Fixpoint scanDigits (radix : Z) (s : string) (acc count : Z) : Z * Z * string :=
  match s with
  | String c r =>
      match digitValue radix c with
      | Some d => scanDigits radix r (acc * radix + d) (count + 1)
      | None => (acc, count, s)
      end
  | EmptyString => (acc, count, s)
  end.

(** The number nearest to [m * 10^e10] (ties to even), signed by [s].
    Quotients are carried with 70 guard bits and a sticky location, so the
    single rounding of [binary_round_aux] is the correct one. *)
Definition roundDecimal (s : bool) (m e10 : Z) : number :=
  match m with
  | Z.pos p =>
      let bits := Z.log2 m + 1 in
      if 400 <? e10 then S754_infinity s
      else if e10 <? - (400 + bits) then S754_zero s
      else if 0 <=? e10 then binary_round prec emax s (Pos.mul p (Z.to_pos (10 ^ e10))) 0
      else
        let d := 10 ^ (- e10) in
        let k := Z.log2 d + 70 in
        let n := m * 2 ^ k in
        let q := n / d in
        let r := n mod d in
        let l := if r =? 0 then loc_Exact else loc_Inexact (Z.compare (2 * r) d) in
        binary_round_aux prec emax s q (- k) l
  | _ => S754_zero s
  end.

(** StrUnsignedDecimalLiteral, [Infinity] apart: mantissa and decimal
    exponent, or [None] when the text is not a decimal literal. *)
Definition parseUnsignedDecimal (s : string) : option (Z * Z) :=
  let '(i, ni, r1) := scanDigits 10 s 0 0 in
  let '(m, nf, r2) :=
    match r1 with
    | String "." r => scanDigits 10 r i 0
    | _ => (i, 0, r1)
    end in
  if ni + nf =? 0 then None
  else
    match r2 with
    | EmptyString => Some (m, - nf)
    | String c r3 =>
        if Ascii.eqb c "e" || Ascii.eqb c "E" then
          let '(sg, r4) :=
            match r3 with
            | String "+" r => (1, r)
            | String "-" r => (-1, r)
            | _ => (1, r3)
            end in
          let '(x, nx, r5) := scanDigits 10 r4 0 0 in
          if nx =? 0 then None
          else match r5 with EmptyString => Some (m, sg * x - nf) | _ => None end
        else None
    end.

Definition parseSignedDecimal (s : string) : number :=
  let '(sg, r) :=
    match s with
    | String "+" r => (false, r)
    | String "-" r => (true, r)
    | _ => (false, s)
    end in
  if String.eqb r "Infinity" then S754_infinity sg
  else
    match parseUnsignedDecimal r with
    | Some (m, e10) => roundDecimal sg m e10
    | None => NaN
    end.

(** [0x], [0o] and [0b] literals (unsigned, at least one digit). *)
Definition parseRadix (radix : Z) (digits : string) : number :=
  let '(v, n, r) := scanDigits radix digits 0 0 in
  if (n =? 0) || truthyString r then NaN else ofZ v.

Definition stringToNumber (str : string) : number :=
  let s := trim str in
  match s with
  | EmptyString => zero
  | String "0" (String c r) =>
      if Ascii.eqb c "x" || Ascii.eqb c "X" then parseRadix 16 r
      else if Ascii.eqb c "o" || Ascii.eqb c "O" then parseRadix 8 r
      else if Ascii.eqb c "b" || Ascii.eqb c "B" then parseRadix 2 r
      else parseSignedDecimal s
  | _ => parseSignedDecimal s
  end.

(** Unary [+] on a value that is a string or [undefined]. *)
Definition toNumber (v : option string) : number :=
  match v with
  | Some s => stringToNumber s
  | None => NaN
  end.

(** ** ToString on numbers (ECMA-262, 6.1.6.1.20 Number::toString)

    The digits are the shortest decimal numeral that reads back as the
    same number; among several of that length the one nearest to the
    number is taken. *)

(** [10^n <= num / den], for positive [num] and [den]. *)
Definition pow10_le (n num den : Z) : bool :=
  if 0 <=? n then 10 ^ n * den <=? num else den <=? num * 10 ^ (- n).

Fixpoint raiseExponent (fuel : nat) (n num den : Z) : Z :=
  match fuel with
  | O => n
  | S f => if pow10_le n num den then raiseExponent f (n + 1) num den else n
  end.

(** The [n] with [10^(n-1) <= num / den < 10^n]. *)
Definition decimalExponent (num den : Z) : Z :=
  raiseExponent 4 (((Z.log2 num - Z.log2 den) * 30103) / 100000) num den.

(** Tries [k = 18 - fuel, ..., 17] significant digits in turn; the result
    is the pair [(n, s)] of the standard: the number is [s * 10^(n - k)]
    after rounding and [s] has [k] digits.  (Seventeen digits always
    read back as the same binary64 number, so the fuel does not run out.) *)
Fixpoint shortestDigits (fuel : nat) (k : Z) (x : number) (num den n : Z) : Z * Z :=
  match fuel with
  | O => (n, 1)
  | S f =>
      let '(a, b) :=
        if 0 <=? k - n then (num * 10 ^ (k - n), den) else (num, den * 10 ^ (n - k)) in
      let lo := a / b in
      let hi := lo + 1 in
      let okLo := SFeqb (roundDecimal false lo (n - k)) x in
      let okHi := SFeqb (roundDecimal false hi (n - k)) x in
      let pickHi := if hi =? 10 ^ k then (n + 1, 1) else (n, hi) in
      match okLo, okHi with
      | true, true =>
          match Z.compare (2 * (a mod b)) b with
          | Lt => (n, lo)
          | Gt => pickHi
          | Eq => if Z.even lo then (n, lo) else pickHi
          end
      | true, false => (n, lo)
      | false, true => pickHi
      | false, false => shortestDigits f (k + 1) x num den n
      end
  end.

Definition zeros (n : Z) : string :=
  string_of_list_ascii (repeat "0"%char (Z.to_nat n)).

(** The numeral of a positive finite number from its [(n, s)]. *)
Definition formatDigits (n s : Z) : string :=
  let digits := stringOfZ s in
  let k := Z.of_nat (String.length digits) in
  if (k <=? n) && (n <=? 21) then digits +++ zeros (n - k)
  else if (0 <? n) && (n <=? 21) then
    substring 0 (Z.to_nat n) digits +++ "." +++
    substring (Z.to_nat n) (Z.to_nat (k - n)) digits
  else if (-6 <? n) && (n <=? 0) then "0." +++ zeros (- n) +++ digits
  else
    let e := n - 1 in
    let exponent := (if 0 <=? e then "+" else "-") +++ stringOfZ (Z.abs e) in
    if k =? 1 then digits +++ "e" +++ exponent
    else
      substring 0 1 digits +++ "." +++
      substring 1 (Z.to_nat (k - 1)) digits +++ "e" +++ exponent.

Definition numberToString (x : number) : string :=
  match x with
  | S754_nan => "NaN"
  | S754_zero _ => "0"
  | S754_infinity s => if s then "-Infinity" else "Infinity"
  | S754_finite s m e =>
      let '(num, den) := if 0 <=? e then (Z.pos m * 2 ^ e, 1) else (Z.pos m, 2 ^ (- e)) in
      let '(n, d) :=
        shortestDigits 17 1 (S754_finite false m e) num den (decimalExponent num den) in
      (if s then "-" else "") +++ formatDigits n d
  end.

(** ** Completions

    A JavaScript computation either returns a value or throws; the thrown
    value is kept as the text that [`${error}`] gives for it. *)

Inductive completion (A : Type) : Type :=
| Return (a : A)
| Throw (error : string).

Arguments Return {A} a.
Arguments Throw {A} error.

Definition bind {A B : Type} (c : completion A) (k : A -> completion B) : completion B :=
  match c with
  | Return a => k a
  | Throw e => Throw e
  end.

(** [l.map(f)] where [f] may throw: elements are visited in order and the
    first throw ends the traversal. *)
Fixpoint mapM {A B : Type} (f : A -> completion B) (l : list A) : completion (list B) :=
  match l with
  | [] => Return []
  | a :: r => bind (f a) (fun b => bind (mapM f r) (fun bs => Return (b :: bs)))
  end.

End JS.

(* ================================================================== *)
(** * The data model *)
(* ================================================================== *)

Module Dxf.

(** A group code: the pair [[code, value]] of the parsed document. *)
Definition GroupCode : Type := Z * string.

(** A record: the group codes of one drawing object or table entry, in
    file order; a code may repeat. *)
Definition DxfRecord : Type := list GroupCode.

Record Tables : Type := {
  LAYER : option (list DxfRecord);
  LTYPE : option (list DxfRecord);
  DIMSTYLE : option (list DxfRecord)
}.

(** The parsed document.  [HEADER] and [BLOCKS] are objects used as maps
    from names; every member is optional, as the optional chaining of the
    source allows. *)
Record Document : Type := {
  HEADER : option (list (string * DxfRecord));
  TABLES : option Tables;
  BLOCKS : option (list (string * list DxfRecord));
  ENTITIES : option (list DxfRecord)
}.

(** Modelled from the spec: [getGroupCodeValue] is imported from the
    package [@dxfom/dxf], which is not part of src/.  The specification's
    numeric accessor reads the "first value for [code]"; a missing record
    or a missing code gives [undefined]. *)
Fixpoint getGroupCodeValue (record : DxfRecord) (groupCode : Z) : option string :=
  match record with
  | [] => None
  | (code, value) :: rest =>
      if code =? groupCode then Some value else getGroupCodeValue rest groupCode
  end.

(** Modelled from the spec: [getGroupCodeValues] is imported from the
    package [@dxfom/dxf], which is not part of src/.  It gives the values of
    every occurrence of [code] (the "repeatable" attributes of the data
    model), in file order. *)
Definition getGroupCodeValues (record : DxfRecord) (groupCode : Z) : list string :=
  map snd (filter (fun gc => fst gc =? groupCode) record).

(** The accessor on a record that may be [undefined]. *)
Definition getGroupCodeValue_opt (record : option DxfRecord) (groupCode : Z) : option string :=
  match record with
  | Some r => getGroupCodeValue r groupCode
  | None => None
  end.

(** The property key an optional string is coerced to ([undefined] becomes
    the key "undefined"). *)
Definition propertyKey (k : option string) : string :=
  match k with Some s => s | None => "undefined" end.

(** [object[key]] on an object used as a map, kept as an association
    list whose first binding of a key is the current one; a key that is
    not bound gives [undefined]. *)
Fixpoint lookup {A : Type} (object : list (string * A)) (key : string) : option A :=
  match object with
  | [] => None
  | (k, v) :: rest => if String.eqb k key then Some v else lookup rest key
  end.

(** The names of the properties of [Object.prototype] (ECMA-262, sections
    20.1.3 and B.2.2), which an object created by a literal or by the
    parser inherits. *)
Definition objectPrototype : list string :=
  ["constructor"; "__defineGetter__"; "__defineSetter__"; "hasOwnProperty";
   "__lookupGetter__"; "__lookupSetter__"; "isPrototypeOf"; "propertyIsEnumerable";
   "toString"; "valueOf"; "__proto__"; "toLocaleString"].

Definition isInherited (key : string) : bool :=
  existsb (String.eqb key) objectPrototype.

(** What [object[key]] finds: an own property, the member of
    [Object.prototype] of that name, or nothing ([undefined]). *)
Inductive Member (A : Type) : Type :=
| Own (value : A)
| Inherited (name : string)
| Missing.

Arguments Own {A} value.
Arguments Inherited {A} name.
Arguments Missing {A}.

Definition member {A : Type} (object : list (string * A)) (key : string) : Member A :=
  match lookup object key with
  | Some value => Own value
  | None => if isInherited key then Inherited key else Missing
  end.

End Dxf.

Import JS Dxf.

(* ================================================================== *)
(** * Diagnostics and effects *)
(* ================================================================== *)

(** One call [warn(message, ...context)] of the diagnostic sink. *)
Record Diagnostic : Type := {
  message : string;
  context : list DxfRecord
}.

(** A computation that reports diagnostics, in order, and then returns or
    throws. *)
Definition Eff (A : Type) : Type := list Diagnostic * completion A.

Definition ret {A : Type} (a : A) : Eff A := ([], Return a).

Definition lift {A : Type} (c : completion A) : Eff A := ([], c).

(** [options.warn(message, ...context)]. *)
Definition warn (message : string) (context : list DxfRecord) : Eff unit :=
  ([{| message := message; context := context |}], Return tt).

Definition bindE {A B : Type} (m : Eff A) (k : A -> Eff B) : Eff B :=
  match m with
  | (ds, Return a) => let '(ds', r) := k a in (ds ++ ds', r)
  | (ds, Throw e) => (ds, Throw e)
  end.

(** [try { body } catch (error) { handler(error) }]. *)
Definition tryCatch {A : Type} (body : Eff A) (handler : string -> Eff A) : Eff A :=
  match body with
  | (ds, Throw error) => let '(ds', r) := handler error in (ds ++ ds', r)
  | (ds, Return a) => (ds, Return a)
  end.

Notation "x <- c ;; k" := (bind c (fun x => k))
  (at level 61, c at next level, right associativity).
Notation "x <~ c ;; k" := (bindE c (fun x => k))
  (at level 61, c at next level, right associativity).

(** The text that [`${error}`] gives for the TypeError of reading the
    property [name] of [undefined], in the wording of V8. *)
Definition undefinedProperty (name : string) : string :=
  "TypeError: Cannot read properties of undefined (reading '" +++ name +++ "')".

(** The same for the TypeError of calling [callee], an expression whose
    value is not a function. *)
Definition notAFunction (callee : string) : string :=
  "TypeError: " +++ callee +++ " is not a function".

(** The same for the TypeErrors of a method of [Object.prototype] that is
    called without a receiver ([this] is [undefined]). *)
Definition undefinedToObject : string :=
  "TypeError: Cannot convert undefined or null to object".

Definition calledOnUndefined (method : string) : string :=
  "TypeError: " +++ method +++ " called on null or undefined".

(* ================================================================== *)
(** * Numeric accessors (src/index.mjs, lines 6-33) *)
(* ================================================================== *)

Definition smallNumber : number := ofDyadic 1 (-6).

Definition nearlyEqual (a b : number) : bool :=
  lt (Math_abs (sub a b)) smallNumber.

(** [_shift] of [round]: the exponent of the printed number is moved by
    [precision] and the text is read back. *)
Definition _shift (n precision : number) : number :=
  match split "e" (numberToString n) with
  | d :: rest =>
      let exponent :=
        match rest with
        | e :: _ =>
            if truthyString e then add (stringToNumber e) precision else precision
        | [] => precision
        end in
      stringToNumber (d +++ "e" +++ numberToString exponent)
  | [] => NaN
  end.

Definition round (n precision : number) : number :=
  _shift (Math_round (_shift n precision)) (neg precision).

(** [trim = s => s ? s.trim() : s]. *)
Definition trim_opt (s : option string) : option string :=
  match s with
  | Some v => Some (trim v)
  | None => None
  end.

(** [$trim]. *)
Definition dollar_trim (record : DxfRecord) (groupCode : Z) : option string :=
  trim_opt (getGroupCodeValue record groupCode).

(** The text of the error that [$number] throws, as a template literal
    prints it. *)
Definition invalidGroupCode (groupCode : Z) (value : number) : string :=
  "Error: group code " +++ stringOfZ groupCode +++ " is invalid (" +++
  numberToString value +++ ")".

(** The literal [1e-8]. *)
Definition snapDistance : number := roundDecimal false 1 (-8).

(** The literal [1e6]. *)
Definition sanityBound : number := ofZ 1000000.

(** [$number]; [defaultValue] is [None] when the argument is omitted. *)
Definition dollar_number (record : DxfRecord) (groupCode : Z)
    (defaultValue : option number) : completion number :=
  let value := toNumber (getGroupCodeValue record groupCode) in
  if isNaN value then
    Return (match defaultValue with None => NaN | Some d => d end)
  else if gt (Math_abs value) sanityBound then
    Throw (invalidGroupCode groupCode value)
  else
    let rounded := Math_round value in
    Return (if lt (Math_abs (sub rounded value)) snapDistance then rounded else value).

(** [$numbers] and [$negates]. *)
Definition dollar_numbers (record : DxfRecord) (groupCodes : list Z)
    : completion (list number) :=
  mapM (fun groupCode => dollar_number record groupCode None) groupCodes.

Definition dollar_negates (record : DxfRecord) (groupCodes : list Z)
    : completion (list number) :=
  mapM (fun groupCode => v <- dollar_number record groupCode None ;; Return (neg v))
       groupCodes.

(* ================================================================== *)
(** * Dimension text (lines 80-102) *)
(* ================================================================== *)

(** The resolved dimension style variables. *)
Record DimStyles : Type := {
  DIMSCALE : number;
  DIMTP : number;
  DIMTM : number;
  DIMTOL : number;
  DIMTXT : number;
  DIMLFAC : number;
  DIMCLRT : number;
  DIMDEC : number
}.

Definition toleranceString (n : number) : string :=
  if gt n zero then "+" +++ numberToString n
  else if lt n zero then numberToString n
  else " 0".

(** The local [valueWithTolerance] of [dimensionValueToMText], from the
    rounded [value] and the styles. *)
Definition valueWithTolerance (value : number) (styles : DimStyles) : string :=
  if truthy (DIMTOL styles) then
    let p := DIMTP styles in
    let n := DIMTM styles in
    if truthy p || truthy n then
      if strictEq p n then
        numberToString value +++ "  ±" +++ numberToString p
      else
        numberToString value +++ "  {\S" +++ toleranceString p +++ "^" +++
        toleranceString (neg n) +++ ";}"
    else numberToString value
  else numberToString value.

(** [template.replace(/<>/, replacement)]: the first occurrence of the
    placeholder is replaced.  (The replacement never contains a dollar
    sign here, so its special patterns play no part.) *)
Fixpoint replacePlaceholder (template replacement : string) : string :=
  match template with
  | String "<" (String ">" rest) => replacement +++ rest
  | String c rest => String c (replacePlaceholder rest replacement)
  | EmptyString => EmptyString
  end.

Definition dimensionValueToMText (measurement : number) (dimension : DxfRecord)
    (styles : DimStyles) : completion string :=
  savedValue <- dollar_number dimension 42 (Some (ofZ (-1))) ;;
  let value :=
    round (if negb (strictEq savedValue (ofZ (-1))) then savedValue
           else mul measurement (DIMLFAC styles))
          (DIMDEC styles) in
  let text := valueWithTolerance value styles in
  Return
    match getGroupCodeValue dimension 1 with
    | Some template =>
        if truthyString template then replacePlaceholder template text else text
    | None => text
    end.

(* ================================================================== *)
(** * Markup (lines 104-142) *)
(* ================================================================== *)

(** The double quote, built from its code. *)
Definition dq : string := String (ascii_of_nat 34) EmptyString.

(** [s.replace(/c/g, replacement)] for a single character [c]. *)
Fixpoint replaceAll (c : ascii) (replacement s : string) : string :=
  match s with
  | EmptyString => EmptyString
  | String a rest =>
      if Ascii.eqb a c then replacement +++ replaceAll c replacement rest
      else String a (replaceAll c replacement rest)
  end.

Definition escapeHtml (s : string) : string :=
  replaceAll (ascii_of_nat 34) "&quot;"
    (replaceAll ">" "&gt;" (replaceAll "<" "&lt;" (replaceAll "&" "&amp;" s))).

(** The values that the properties of an element take. *)
Inductive PropValue : Type :=
| PUndefined
| PBoolean (b : bool)
| PNumber (n : number)
| PString (s : string)
| PArray (items : list string).

Definition truthyValue (v : PropValue) : bool :=
  match v with
  | PUndefined => false
  | PBoolean b => b
  | PNumber n => truthy n
  | PString s => truthyString s
  | PArray _ => true
  end.

(** ToString on a property value. *)
Definition valueToString (v : PropValue) : string :=
  match v with
  | PUndefined => "undefined"
  | PBoolean b => if b then "true" else "false"
  | PNumber n => numberToString n
  | PString s => s
  | PArray items => join "," items
  end.

Definition ofOptionalString (s : option string) : PropValue :=
  match s with Some v => PString v | None => PUndefined end.

(** The properties of an element in insertion order (the order of
    [Object.entries]); the keys of one list are distinct. *)
Definition Props : Type := list (string * PropValue).

Fixpoint getProp (props : Props) (key : string) : PropValue :=
  match props with
  | [] => PUndefined
  | (k, v) :: rest => if String.eqb k key then v else getProp rest key
  end.

Definition isShape (type : string) : bool :=
  String.eqb type "line" || String.eqb type "polyline" || String.eqb type "polygon"
  || String.eqb type "circle" || String.eqb type "path".

(** The loop of [jsx] over the entries: the opening tag so far and the
    children found. *)
Definition jsx_entry (acc : string * option PropValue) (entry : string * PropValue)
    : string * option PropValue :=
  let '(s, children) := acc in
  let '(key, value) := entry in
  if negb (truthyValue value) then (s, children)
  else if String.eqb key "children" then (s, Some value)
  else
    (s +++ " " +++ key +++ "=" +++ dq +++
       match value with
       | PString v => escapeHtml v
       | _ => valueToString value
       end +++ dq,
     children).

Definition jsx (type : string) (props : Props) : string :=
  let '(s, children) := fold_left jsx_entry props ("<" +++ type, None) in
  let s :=
    if isShape type then
      (if negb (truthyValue (getProp props "fill"))
       then s +++ " fill=" +++ dq +++ "none" +++ dq else s)
      +++ " vector-effect=" +++ dq +++ "non-scaling-stroke" +++ dq
    else s in
  let s :=
    if String.eqb type "text" then
      s +++ " stroke=" +++ dq +++ "none" +++ dq +++ " style=" +++ dq +++
      "white-space:pre" +++ dq
    else s in
  match children with
  | Some c =>
      s +++ ">" +++
      match c with
      | PArray items => join "" items
      | _ => valueToString c
      end +++ "</" +++ type +++ ">"
  | None => s +++ "/>"
  end.

(* ================================================================== *)
(** * Configuration and platform (lines 1-4, 260-263) *)
(* ================================================================== *)

(** The options after the defaults are merged in.  The diagnostic sink is
    not a member of the model: its calls are the diagnostics that a
    computation reports. *)
Record Options : Type := {
  resolveColorIndex : number -> string
}.

(** The options as the caller passes them: every member may be left out. *)
Record UserOptions : Type := {
  user_resolveColorIndex : option (number -> string)
}.

(** A rendered primitive: its markup and the X and Y coordinates that it
    contributes to the bounding box. *)
Definition Primitive : Type := string * list number * list number.

Record BoundingBox : Type := {
  bbox_x : number;
  bbox_y : number;
  bbox_w : number;
  bbox_h : number
}.

(** An entry of the table of interpreters: [(entity, vertices) => ...],
    which returns a primitive or [undefined], or throws. *)
Definition EntitySvg : Type := DxfRecord -> list DxfRecord -> Eff (option Primitive).

(** The record types whose interpreters are not embedded here. *)
Inductive OtherEntity : Type :=
| POLYLINE | LWPOLYLINE | CIRCLE | ARC | LEADER | HATCH | SOLID
| TEXT | MTEXT | DIMENSION | ACAD_TABLE.

(** What the engine takes from its surroundings and the model leaves open:
    every property below is proved for all platforms. *)
Record Platform : Type := {
  (** The implementation-approximated part of [Math.atan2] and of
      [Math.hypot] (ECMA-262 fixes their results only on special
      arguments). *)
  atan2_approx : number -> number -> number;
  hypot_approx : number -> number -> number;
  (** The table [DXF_COLOR_HEX] of the package [@dxfom/color], which is
      not part of src/: the colour of an index, or [None] for an index
      that the table does not map. *)
  DXF_COLOR_HEX : number -> option string;
  (** The interpreters that are not embedded, as arbitrary functions of the
      document, the options, the record and its vertices. *)
  otherEntitySvg : OtherEntity -> Document -> Options -> EntitySvg
}.

Section Engine.

Variable platform : Platform.

(* ================================================================== *)
(** * The approximated functions of [Math] *)
(* ================================================================== *)

(** [Math.atan2(y, x)]: the results that ECMA-262 (21.3.2.8) fixes
    exactly, and the approximation elsewhere. *)
Definition Math_atan2 (y x : number) : number :=
  if isNaN y || isNaN x then NaN
  else
    match y, x with
    | S754_zero s, (S754_zero false | S754_infinity false | S754_finite false _ _) =>
        S754_zero s
    | S754_finite s _ _, S754_infinity false => S754_zero s
    | _, _ => atan2_approx platform y x
    end.

(** [Math.hypot(x, y)] (ECMA-262, 21.3.2.18). *)
Definition Math_hypot (x y : number) : number :=
  match x, y with
  | S754_infinity _, _ | _, S754_infinity _ => Infinity
  | S754_nan, _ | _, S754_nan => NaN
  | S754_zero _, S754_zero _ => zero
  | _, _ => hypot_approx platform x y
  end.

(* ================================================================== *)
(** * Multi-line text rotation (lines 185-202) *)
(* ================================================================== *)

Definition yx2angle (y x : number) : number :=
  orElse
    (round (div (mul (Math_atan2 (orElse y zero) (orElse x zero)) (ofZ 180)) Math_PI)
           (ofZ 5))
    zero.

(** The loop of [MTEXT_angle], which runs from the last group code of the
    record to the first: [codes] is the part still to visit, last first. *)
Fixpoint MTEXT_angle_from (mtext : DxfRecord) (codes : list GroupCode)
    : completion number :=
  match codes with
  | [] => Return zero
  | (code, value) :: before =>
      if code =? 50 then
        Return (orElse (round (stringToNumber value) (ofZ 5)) zero)
      else if code =? 11 then
        y <- dollar_number mtext 12 None ;;
        Return (yx2angle y (stringToNumber value))
      else if code =? 21 then
        x <- dollar_number mtext 11 None ;;
        Return (yx2angle (stringToNumber value) x)
      else MTEXT_angle_from mtext before
  end.

Definition MTEXT_angle (mtext : DxfRecord) : completion number :=
  MTEXT_angle_from mtext (rev mtext).

(* ================================================================== *)
(** * Default options (lines 260-263) *)
(* ================================================================== *)

Definition defaultOptions : Options :=
  {| resolveColorIndex := fun index =>
       match DXF_COLOR_HEX platform index with Some hex => hex | None => "#888" end |}.

(* ================================================================== *)
(** * The table of interpreters (lines 265-267, 294-739) *)
(* ================================================================== *)

Definition commonAttributes (entity : DxfRecord) : Props :=
  [("data-5", ofOptionalString (dollar_trim entity 5))].

Definition optionEqb (v : option string) (s : string) : bool :=
  match v with Some x => String.eqb x s | None => false end.

(** [dxf.TABLES?.LAYER ?? []] and [dxf.TABLES?.LTYPE ?? []]. *)
Definition layerTable (dxf : Document) : list DxfRecord :=
  match TABLES dxf with
  | Some t => match LAYER t with Some l => l | None => [] end
  | None => []
  end.

Definition ltypeTable (dxf : Document) : list DxfRecord :=
  match TABLES dxf with
  | Some t => match LTYPE t with Some l => l | None => [] end
  | None => []
  end.

Record Layer : Type := {
  layer_color : string;
  layer_ltype : option string
}.

(** [_strokeDasharray]: the segment lengths of a linetype record, trimmed
    and without their sign. *)
Definition _strokeDasharray (ltype : DxfRecord) : list string :=
  map (fun s => if startsWith "-" s then slice1 s else s)
      (map trim (getGroupCodeValues ltype 49)).

(** The normalised [strokeDasharray] of a linetype, from its
    [_strokeDasharray]. *)
Definition normalizedDasharray (_strokeDasharray : list string) : list string :=
  let n := Z.of_nat (List.length _strokeDasharray) in
  if (n =? 0) || (n mod 2 =? 1) then _strokeDasharray
  else if optionEqb (hd_error _strokeDasharray) "0" then tl _strokeDasharray
  else _strokeDasharray ++ ["0"].

Section CreateEntitySvgMap.

Variable dxf : Document.
Variable options : Options.

(** The recursive call [entitiesSvg(dxf, block, options)] of [INSERT]. *)
Variable entitiesSvg_block : option (list DxfRecord) -> Eff (string * BoundingBox).

(** [layerMap]; a later layer of the same name replaces an earlier one. *)
Definition layerMap : list (string * Layer) :=
  fold_left
    (fun m layer =>
       if optionEqb (getGroupCodeValue layer 0) "LAYER" then
         (propertyKey (getGroupCodeValue layer 2),
          {| layer_color :=
               resolveColorIndex options (toNumber (getGroupCodeValue layer 62));
             layer_ltype := getGroupCodeValue layer 6 |}) :: m
       else m)
    (layerTable dxf) [].

(** [ltypeMap], from the name of a linetype to its [strokeDasharray]
    joined by blanks; a linetype with no segment is left out. *)
Definition ltypeMap : list (string * string) :=
  fold_left
    (fun m ltype =>
       if optionEqb (getGroupCodeValue ltype 0) "LTYPE" then
         let strokeDasharray := normalizedDasharray (_strokeDasharray ltype) in
         match strokeDasharray with
         | [] => m
         | _ => (propertyKey (getGroupCodeValue ltype 2), join " " strokeDasharray) :: m
         end
       else m)
    (ltypeTable dxf) [].

Definition _color (entity : DxfRecord) : option string :=
  let colorIndex := dollar_trim entity 62 in
  if optionEqb colorIndex "0" then Some "currentColor"
  else
    match colorIndex with
    | Some index =>
        if truthyString index && negb (String.eqb index "256") then
          Some (resolveColorIndex options (stringToNumber index))
        else
          match lookup layerMap (propertyKey (dollar_trim entity 8)) with
          | Some layer => Some (layer_color layer)
          | None => None
          end
    | None =>
        match lookup layerMap (propertyKey (dollar_trim entity 8)) with
        | Some layer => Some (layer_color layer)
        | None => None
        end
    end.

(** [color = entity => _color(entity) || 'currentColor']. *)
Definition color (entity : DxfRecord) : string :=
  match _color entity with
  | Some c => if truthyString c then c else "currentColor"
  | None => "currentColor"
  end.

Definition strokeDasharray (entity : DxfRecord) : option string :=
  let name :=
    match getGroupCodeValue entity 6 with
    | Some ltype => Some ltype
    | None =>
        match lookup layerMap (propertyKey (getGroupCodeValue entity 8)) with
        | Some layer => layer_ltype layer
        | None => None
        end
    end in
  lookup ltypeMap (propertyKey name).

Definition extrusionStyle (entity : DxfRecord) : option string :=
  let extrusionZ := toNumber (dollar_trim entity 230) in
  if truthy extrusionZ && lt (Math_abs (add extrusionZ (ofZ 1))) (ofDyadic 1 (-6))
  then Some "transform:rotateY(180deg)"
  else None.

Definition lineAttributes (entity : DxfRecord) : Props :=
  commonAttributes entity ++
  [("stroke", PString (color entity));
   ("stroke-dasharray", ofOptionalString (strokeDasharray entity));
   ("style", ofOptionalString (extrusionStyle entity))].

Definition POINT : EntitySvg := fun _ _ => ret None.

Definition LINE : EntitySvg := fun entity _ =>
  lift
    (xs <- dollar_numbers entity [10; 11] ;;
     ys <- dollar_negates entity [20; 21] ;;
     Return
       (Some
          (jsx "line"
             (lineAttributes entity ++
              [("x1", PNumber (nth 0 xs NaN));
               ("y1", PNumber (nth 0 ys NaN));
               ("x2", PNumber (nth 1 xs NaN));
               ("y2", PNumber (nth 1 ys NaN))]),
           xs, ys))).

Definition ELLIPSE : EntitySvg := fun entity _ =>
  rad1 <~ lift (dollar_number entity 41 (Some zero)) ;;
  rad2 <~ lift (dollar_number entity 42 (Some (mul (ofZ 2) Math_PI))) ;;
  if nearlyEqual rad1 zero && nearlyEqual rad2 (mul (ofZ 2) Math_PI) then
    lift
      (center <- dollar_numbers entity [10; 20; 11; 21] ;;
       let cx := nth 0 center NaN in
       let cy := nth 1 center NaN in
       let majorX := nth 2 center NaN in
       let majorY := nth 3 center NaN in
       let majorR := Math_hypot majorX majorY in
       ratio <- dollar_number entity 40 None ;;
       let minorR := mul ratio majorR in
       let radAngleOffset := neg (Math_atan2 majorY majorX) in
       let transform :=
         if truthy radAngleOffset then
           PString
             ("rotate(" +++
              numberToString (div (mul radAngleOffset (ofZ 180)) Math_PI) +++ " " +++
              numberToString cx +++ " " +++ numberToString (neg cy) +++ ")")
         else PUndefined in
       Return
         (Some
            (jsx "ellipse"
               (lineAttributes entity ++
                [("cx", PNumber cx);
                 ("cy", PNumber (neg cy));
                 ("rx", PNumber majorR);
                 ("ry", PNumber minorR);
                 ("transform", transform)]),
             [sub cx majorR; add cx majorR],
             [sub (neg cy) minorR; add (neg cy) minorR])))
  else
    _ <~ warn "Elliptical arc cannot be rendered yet." [] ;;
    ret None.

(** The block of an insert without its [BLOCK] and [ENDBLK] delimiters:
    [_block.slice(first is BLOCK ? 1 : 0, last is ENDBLK ? -1 : undefined)]. *)
Definition blockEntities (_block : list DxfRecord) : list DxfRecord :=
  let start :=
    if optionEqb (getGroupCodeValue_opt (hd_error _block) 0) "BLOCK" then 1%nat else 0%nat in
  let stop :=
    if optionEqb (getGroupCodeValue_opt (hd_error (rev _block)) 0) "ENDBLK"
    then (List.length _block - 1)%nat else List.length _block in
  firstn (stop - start) (skipn start _block).

(** The local [transform] of [INSERT]: the parts of the instance
    transform that are not the identity, joined by blanks. *)
Definition INSERT_transform (x y xscale yscale rotate : number) : string :=
  join " "
    (filter truthyString
       [if truthy x || truthy y then
          "translate(" +++ numberToString x +++ "," +++ numberToString y +++ ")"
        else "";
        if negb (strictEq xscale (ofZ 1)) || negb (strictEq yscale (ofZ 1)) then
          "scale(" +++ numberToString xscale +++ "," +++ numberToString yscale +++ ")"
        else "";
        if truthy rotate then "rotate(" +++ numberToString rotate +++ ")" else ""]).

(** The local [block] of [INSERT].  [dxf.BLOCKS?.[name]] finds the block
    of that name, whose entities [_block.slice(...)] gives; or nothing,
    where the optional chain stops at [undefined]; or the member of
    [Object.prototype] of that name: a function, or [Object.prototype]
    itself, neither of which has a method [slice], so that the call
    throws. *)
Definition INSERT_block (entity : DxfRecord) : completion (option (list DxfRecord)) :=
  let _block :=
    match BLOCKS dxf with
    | Some blocks => member blocks (propertyKey (getGroupCodeValue entity 2))
    | None => Missing
    end in
  match _block with
  | Own records => Return (Some (blockEntities records))
  | Inherited _ => Throw (notAFunction "_block?.slice")
  | Missing => Return None
  end.

Definition INSERT : EntitySvg := fun entity _ =>
  x <~ lift (dollar_number entity 10 (Some zero)) ;;
  y <~ lift (v <- dollar_number entity 20 (Some zero) ;; Return (neg v)) ;;
  rotate <~ lift (v <- dollar_number entity 50 None ;; Return (neg v)) ;;
  xscale <~ lift (v <- dollar_number entity 41 (Some (ofZ 1)) ;; Return (orElse v (ofZ 1))) ;;
  yscale <~ lift (v <- dollar_number entity 42 (Some (ofZ 1)) ;; Return (orElse v (ofZ 1))) ;;
  let transform := INSERT_transform x y xscale yscale rotate in
  block <~ lift (INSERT_block entity) ;;
  nested <~ entitiesSvg_block block ;;
  let '(contents, bbox) := nested in
  ret
    (Some
       (jsx "g"
          (commonAttributes entity ++
           [("color", ofOptionalString (_color entity));
            ("transform", PString transform);
            ("children", PString contents)]),
        [add x (mul (bbox_x bbox) xscale);
         add x (mul (add (bbox_x bbox) (bbox_w bbox)) xscale)],
        [add y (mul (bbox_y bbox) yscale);
         add y (mul (add (bbox_y bbox) (bbox_h bbox)) yscale)])).

(** The object that [createEntitySvgMap] returns, in the order of its
    keys. *)
Definition createEntitySvgMap : list (string * EntitySvg) :=
  [("POINT", POINT);
   ("LINE", LINE);
   ("POLYLINE", otherEntitySvg platform POLYLINE dxf options);
   ("LWPOLYLINE", otherEntitySvg platform LWPOLYLINE dxf options);
   ("CIRCLE", otherEntitySvg platform CIRCLE dxf options);
   ("ARC", otherEntitySvg platform ARC dxf options);
   ("ELLIPSE", ELLIPSE);
   ("LEADER", otherEntitySvg platform LEADER dxf options);
   ("HATCH", otherEntitySvg platform HATCH dxf options);
   ("SOLID", otherEntitySvg platform SOLID dxf options);
   ("TEXT", otherEntitySvg platform TEXT dxf options);
   ("MTEXT", otherEntitySvg platform MTEXT dxf options);
   ("DIMENSION", otherEntitySvg platform DIMENSION dxf options);
   ("ACAD_TABLE", otherEntitySvg platform ACAD_TABLE dxf options);
   ("INSERT", INSERT)].

End CreateEntitySvgMap.

(* ================================================================== *)
(** * The scene assembler (lines 741-801) *)
(* ================================================================== *)

(** The variables of [entitiesSvg]: the markup so far and the running
    extents. *)
Record Scene : Type := {
  s : string;
  minX : number;
  maxX : number;
  minY : number;
  maxY : number
}.

Definition emptyScene : Scene :=
  {| s := ""; minX := Infinity; maxX := negInfinity;
     minY := Infinity; maxY := negInfinity |}.

(** A scene with more markup and the same extents. *)
Definition withMarkup (scene : Scene) (markup : string) : Scene :=
  {| s := s scene +++ markup;
     minX := minX scene; maxX := maxX scene;
     minY := minY scene; maxY := maxY scene |}.

(** The statements under [if (svg)] for a primitive, the value that an
    interpreter of the table returns. *)
Definition addPrimitive (scene : Scene) (svg : Primitive) : Scene :=
  let '(markup, svg1, svg2) := svg in
  let xs := filter isFinite svg1 in
  let ys := filter isFinite svg2 in
  {| s := s scene +++ markup;
     minX := Math_min (minX scene :: xs);
     maxX := Math_max (maxX scene :: xs);
     minY := Math_min (minY scene :: ys);
     maxY := Math_max (maxY scene :: ys) |}.

(** The values that [svg] takes.  An interpreter of the table returns a
    primitive or [undefined]; of the members of [Object.prototype],
    [constructor] returns the record itself and [toString] a string. *)
Inductive Svg : Type :=
| SvgPrimitive (primitive : Primitive)
| SvgUndefined
| SvgRecord (record : DxfRecord)
| SvgString (text : string).

Definition ofPrimitive (svg : option Primitive) : Svg :=
  match svg with
  | Some primitive => SvgPrimitive primitive
  | None => SvgUndefined
  end.

(** The call [entitySvg(entity, vertices)] when [entitySvg] is the member
    [name] of [Object.prototype].  It is a plain call, whose [this] is
    [undefined] (the source is a module).  [Object] returns its first
    argument, which is an object; [Object.prototype.toString] names the type
    of [undefined]; the accessor [__proto__] gives [Object.prototype], which
    is not a function; the other methods need an object for [this], and
    throw. *)
Definition callInherited (name : string) (entity : DxfRecord) : completion Svg :=
  if String.eqb name "constructor" then Return (SvgRecord entity)
  else if String.eqb name "toString" then Return (SvgString "[object Undefined]")
  else if String.eqb name "__proto__" then Throw (notAFunction "entitySvg")
  else if String.eqb name "toLocaleString" || String.eqb name "isPrototypeOf" then
    Throw (calledOnUndefined ("Object.prototype." +++ name))
  else Throw undefinedToObject.

(** ToString on a group code, an array of a number and a string. *)
Definition groupCodeToString (gc : GroupCode) : string :=
  numberToString (ofZ (fst gc)) +++ "," +++ snd gc.

(** The numbers that the members of a group code convert to, as the global
    [isFinite], [Math.min] and [Math.max] convert them. *)
Definition groupCodeNumbers (gc : GroupCode) : list number :=
  [ofZ (fst gc); stringToNumber (snd gc)].

(** The statements under [if (svg)]: the variables of the loop as the
    statements leave them, and the completion of the block.  [s] is
    assigned first, so that a fault of a later statement leaves the markup
    written.  A primitive is an array of a string and two arrays of
    numbers, on which no statement faults.  Of a record, [svg[0]], [svg[1]]
    and [svg[2]] are its first three group codes; of a string, its
    first characters, which have no method [filter]. *)
Definition addSvg (scene : Scene) (svg : Svg) : Scene * completion unit :=
  match svg with
  | SvgPrimitive primitive => (addPrimitive scene primitive, Return tt)
  | SvgUndefined => (scene, Return tt)
  | SvgRecord record =>
      let markup :=
        match nth_error record 0 with
        | Some svg0 => groupCodeToString svg0
        | None => "undefined"
        end in
      match nth_error record 1, nth_error record 2 with
      | Some svg1, Some svg2 =>
          (addPrimitive scene (markup, groupCodeNumbers svg1, groupCodeNumbers svg2),
           Return tt)
      | _, _ => (withMarkup scene markup, Throw (undefinedProperty "filter"))
      end
  | SvgString text =>
      match text with
      | EmptyString => (scene, Return tt)
      | String svg0 rest =>
          (withMarkup scene (String svg0 EmptyString),
           Throw
             match rest with
             | EmptyString => undefinedProperty "filter"
             | String _ _ => notAFunction "svg[1].filter"
             end)
      end
  end.

(** The block of the [try] statement of the loop, for one entity and its
    vertices: the diagnostics that it reports, the variables of the loop as
    it leaves them, and its completion.  What the lookup finds is truthy,
    be it an interpreter or an inherited member, and is called; [underIf]
    is the rest of the branch, which a throw of the call skips. *)
Definition tryBlock (entitySvgMap : list (string * EntitySvg))
    (entity : DxfRecord) (entityType : string) (vertices : list DxfRecord)
    (scene : Scene) : list Diagnostic * (Scene * completion unit) :=
  let underIf (call : Eff Svg) :=
    match call with
    | (ds, Return svg) => (ds, addSvg scene svg)
    | (ds, Throw error) => (ds, (scene, Throw error))
    end in
  match member entitySvgMap entityType with
  | Own entitySvg =>
      underIf (svg <~ entitySvg entity vertices ;; ret (ofPrimitive svg))
  | Inherited name => underIf (lift (callInherited name entity))
  | Missing =>
      let '(ds, _) := warn ("Unknown entity type: " +++ entityType) [entity] in
      (ds, (scene, Return tt))
  end.

(** The [try ... catch] statement of the loop. *)
Definition renderEntity (entitySvgMap : list (string * EntitySvg))
    (entity : DxfRecord) (entityType : string) (vertices : list DxfRecord)
    (scene : Scene) : Eff Scene :=
  let '(ds, (scene', completion)) :=
    tryBlock entitySvgMap entity entityType vertices scene in
  match completion with
  | Return _ => (ds, Return scene')
  | Throw error =>
      let '(ds', caught) :=
        (_ <~ warn ("Error occurred: " +++ error) [entity] ;; ret scene') in
      (ds ++ ds', caught)
  end.

Definition isType (type : string) (record : option DxfRecord) : bool :=
  optionEqb (getGroupCodeValue_opt record 0) type.

(** The records that the [while] loop collects: the run of [VERTEX]
    records that follows the entity. *)
Fixpoint collectVertices (following : list DxfRecord) : list DxfRecord :=
  match following with
  | record :: rest =>
      if isType "VERTEX" (Some record) then record :: collectVertices rest else []
  | [] => []
  end.

(** The [for] loop over the entity list.  [skip] counts the records ahead
    that the body of an earlier iteration has already consumed by
    advancing [i] (the vertices and the [SEQEND] marker of an entity). *)
Fixpoint entitiesLoop (entitySvgMap : list (string * EntitySvg)) (skip : nat)
    (entities : list DxfRecord) (scene : Scene) : Eff Scene :=
  match entities with
  | [] => ret scene
  | entity :: following =>
      match skip with
      | S k => entitiesLoop entitySvgMap k following scene
      | O =>
          match getGroupCodeValue entity 0 with
          | Some entityType =>
              if truthyString entityType then
                let vertices := collectVertices following in
                let n := List.length vertices in
                let seqend :=
                  negb (n =? 0)%nat && isType "SEQEND" (nth_error following n) in
                scene' <~ renderEntity entitySvgMap entity entityType vertices scene ;;
                entitiesLoop entitySvgMap (if seqend then S n else n) following scene'
              else entitiesLoop entitySvgMap O following scene
          | None => entitiesLoop entitySvgMap O following scene
          end
      end
  end.

Definition boundingBox (scene : Scene) : BoundingBox :=
  {| bbox_x := minX scene;
     bbox_y := minY scene;
     bbox_w := sub (maxX scene) (minX scene);
     bbox_h := sub (maxY scene) (minY scene) |}.

(** The text of the error that the engine raises when the call stack is
    exhausted. *)
Definition stackOverflow : string := "RangeError: Maximum call stack size exceeded".

(** [entitiesSvg].  [depth] is the number of nested block expansions that
    the call stack still has room for: with none left, the recursive call
    of [INSERT] throws. *)
Fixpoint entitiesSvg (depth : nat) (dxf : Document)
    (entities : option (list DxfRecord)) (options : Options)
    : Eff (string * BoundingBox) :=
  let entitySvgMap :=
    createEntitySvgMap dxf options
      match depth with
      | O => fun _ => lift (Throw stackOverflow)
      | S d => fun block => entitiesSvg d dxf block options
      end in
  scene <~
    match entities with
    | Some list => entitiesLoop entitySvgMap O list emptyScene
    | None => ret emptyScene
    end ;;
  ret (s scene, boundingBox scene).

(** The table of interpreters that [entitiesSvg] builds when [depth]
    nested expansions are left. *)
Definition entitySvgMapAt (depth : nat) (dxf : Document) (options : Options)
    : list (string * EntitySvg) :=
  createEntitySvgMap dxf options
    match depth with
    | O => fun _ => lift (Throw stackOverflow)
    | S d => fun block => entitiesSvg d dxf block options
    end.

(** ** The traversal, entity by entity

    [dispatched skip entities] lists what the loop hands to the table of
    interpreters, in order: each record with a type tag that is not
    consumed as a vertex or as an end marker, with its tag and its
    vertices.  [renderAll] runs the [try ... catch] statement over such a
    list. *)

Definition Dispatch : Type := DxfRecord * string * list DxfRecord.

Fixpoint dispatched (skip : nat) (entities : list DxfRecord) : list Dispatch :=
  match entities with
  | [] => []
  | entity :: following =>
      match skip with
      | S k => dispatched k following
      | O =>
          match getGroupCodeValue entity 0 with
          | Some entityType =>
              if truthyString entityType then
                let vertices := collectVertices following in
                let n := List.length vertices in
                let seqend :=
                  negb (n =? 0)%nat && isType "SEQEND" (nth_error following n) in
                (entity, entityType, vertices)
                  :: dispatched (if seqend then S n else n) following
              else dispatched O following
          | None => dispatched O following
          end
      end
  end.

Fixpoint renderAll (entitySvgMap : list (string * EntitySvg))
    (groups : list Dispatch) (scene : Scene) : Eff Scene :=
  match groups with
  | [] => ret scene
  | (entity, entityType, vertices) :: rest =>
      scene' <~ renderEntity entitySvgMap entity entityType vertices scene ;;
      renderAll entitySvgMap rest scene'
  end.

(** The diagnostic of the [catch] clause. *)
Definition errorOccurred (error : string) (entity : DxfRecord) : Diagnostic :=
  {| message := "Error occurred: " +++ error; context := [entity] |}.

(* ================================================================== *)
(** * Orchestration (lines 803-824) *)
(* ================================================================== *)

(** [options ? { ...defaultOptions, ...options } : defaultOptions]. *)
Definition resolveOptions (options : option UserOptions) : Options :=
  match options with
  | Some o =>
      match user_resolveColorIndex o with
      | Some f => {| resolveColorIndex := f |}
      | None => defaultOptions
      end
  | None => defaultOptions
  end.

Definition createSvgContents (depth : nat) (dxf : Document)
    (options : option UserOptions) : Eff (string * BoundingBox) :=
  entitiesSvg depth dxf (ENTITIES dxf) (resolveOptions options).


End Engine.

(* ================================================================== *)
(** * Further parts of the run time *)
(* ================================================================== *)

(** [s.slice(0, -1)]: the string without its last character. *)
Fixpoint sliceButLast (s : string) : string :=
  match s with
  | EmptyString => EmptyString
  | String c rest =>
      match rest with
      | EmptyString => EmptyString
      | _ => String c (sliceButLast rest)
      end
  end.

(** [a.slice(start, end)] (ECMA-262, 23.1.3.28): a negative index counts
    from the end of the array. *)
Definition slice {A : Type} (start stop : Z) (a : list A) : list A :=
  let len := Z.of_nat (List.length a) in
  let k := if start <? 0 then Z.max (len + start) 0 else Z.min start len in
  let final := if stop <? 0 then Z.max (len + stop) 0 else Z.min stop len in
  firstn (Z.to_nat (final - k)) (skipn (Z.to_nat k) a).

(** The element [a[i]] of an array of numbers inside a template literal:
    an index past the end gives [undefined]. *)
Definition elementToString (a : list number) (i : nat) : string :=
  match nth_error a i with
  | Some x => numberToString x
  | None => "undefined"
  end.

(** [x === y] on values that are numbers or [undefined]. *)
Definition strictEqOptional (x y : option number) : bool :=
  match x, y with
  | Some a, Some b => strictEq a b
  | None, None => true
  | _, _ => false
  end.

(** [x === y] on values that are strings or [undefined]. *)
Definition sameOptionalString (x y : option string) : bool :=
  match x, y with
  | Some a, Some b => String.eqb a b
  | None, None => true
  | _, _ => false
  end.

(** [x ?? y] on values that are strings or [undefined]. *)
Definition orNullish (x y : option string) : option string :=
  match x with Some _ => x | None => y end.

(** The integer part of a number, towards zero; 0 for a number that is
    not finite. *)
Definition truncate (x : number) : Z :=
  match x with
  | S754_finite s m e =>
      let magnitude := if 0 <=? e then Z.pos m * 2 ^ e else Z.pos m / 2 ^ (- e) in
      if s then - magnitude else magnitude
  | _ => 0
  end.

(** ToInt32 (ECMA-262, 7.1.6). *)
Definition toInt32 (x : number) : Z :=
  let int32bit := truncate x mod 2 ^ 32 in
  if 2 ^ 31 <=? int32bit then int32bit - 2 ^ 32 else int32bit.

(** [x & y]. *)
Definition bitAnd (x y : number) : Z := Z.land (toInt32 x) (toInt32 y).

(** [x % y] (ECMA-262, 6.1.6.1.6 Number::remainder): the remainder of the
    truncating division, computed exactly; it has the sign of [x]. *)
Definition remainder (x y : number) : number :=
  match x, y with
  | S754_nan, _ | _, S754_nan => NaN
  | S754_infinity _, _ => NaN
  | _, S754_zero _ => NaN
  | _, S754_infinity _ => x
  | S754_zero _, _ => x
  | S754_finite sx mx ex, S754_finite _ my ey =>
      let e := Z.min ex ey in
      let r := Z.rem (Z.pos mx * 2 ^ (ex - e)) (Z.pos my * 2 ^ (ey - e)) in
      binary_normalize prec emax (if sx then - r else r) e sx
  end.

(* ================================================================== *)
(** * Dimension styles (lines 35-78) *)
(* ================================================================== *)

(** The [Map] of [collectDimensionStyleOverrides], from numbers to the
    values of group codes; the binding set last comes first. *)
Definition StyleOverrides : Type := list (number * string).

(** The comparison of the keys of a [Map] (SameValueZero). *)
Definition sameValueZero (x y : number) : bool :=
  (isNaN x && isNaN y) || strictEq x y.

(** [map.get(key)]. *)
Fixpoint mapGet (map : StyleOverrides) (key : number) : option string :=
  match map with
  | [] => None
  | (k, v) :: rest => if sameValueZero k key then Some v else mapGet rest key
  end.

(** The inner loop of [collectDimensionStyleOverrides], over the group
    codes from [d[j]] on: a group 1070 is a key, and the group after it,
    whatever its code, the value. *)
Fixpoint overridesLoop (rest : DxfRecord) (result : StyleOverrides)
    : completion StyleOverrides :=
  match rest with
  | [] => Return result
  | (code, key) :: rest' =>
      if code =? 1002 then Return result
      else if code =? 1070 then
        match rest' with
        | (_, value) :: rest'' =>
            overridesLoop rest'' ((stringToNumber key, value) :: result)
        | [] => Throw (undefinedProperty "1")
        end
      else overridesLoop rest' result
  end.

(** [collectDimensionStyleOverrides]; [None] is the [undefined] that the
    function returns when it falls off its loop. *)
Fixpoint collectDimensionStyleOverrides (d : DxfRecord)
    : completion (option StyleOverrides) :=
  match d with
  | [] => Return None
  | (code, value) :: rest =>
      if (code =? 1000) && String.eqb (trim value) "DSTYLE" then
        match rest with
        | [] => Throw (undefinedProperty "0")
        | (code', value') :: rest' =>
            if (code' =? 1002) && String.eqb (trim value') "{" then
              result <- overridesLoop rest' [] ;;
              Return (Some result)
            else collectDimensionStyleOverrides rest
        end
      else collectDimensionStyleOverrides rest
  end.

(** [dxf.TABLES?.DIMSTYLE?.find(style => getGroupCodeValue(style, 2) === styleName)]. *)
Definition findDimensionStyle (dxf : Document) (styleName : option string)
    : option DxfRecord :=
  match TABLES dxf with
  | Some t =>
      match DIMSTYLE t with
      | Some styles =>
          find (fun style => sameOptionalString (getGroupCodeValue style 2) styleName) styles
      | None => None
      end
  | None => None
  end.

(** [dxf.HEADER?.['$' + variableName]]. *)
Definition headerVariable (dxf : Document) (variableName : string) : option DxfRecord :=
  match HEADER dxf with
  | Some header => lookup header ("$" +++ variableName)
  | None => None
  end.

(** The body of the loop of [collectDimensionStyles] for one entry
    [variableName: [groupCode, headerGroupCode, defaultValue]] of the table
    [DimStyles]. *)
Definition dimensionStyle (dxf : Document) (style : option DxfRecord)
    (styleOverrides : option StyleOverrides) (variableName : string)
    (groupCode headerGroupCode : Z) (defaultValue : number) : number :=
  let value :=
    orNullish
      match styleOverrides with
      | Some overrides => mapGet overrides (ofZ groupCode)
      | None => None
      end
      (orNullish
         (getGroupCodeValue_opt style groupCode)
         (getGroupCodeValue_opt (headerVariable dxf variableName) headerGroupCode)) in
  match value with
  | Some v => stringToNumber v
  | None => defaultValue
  end.

(** [collectDimensionStyles]: the loop over the eight entries of the table
    [DimStyles] (lines 35-44), entry by entry. *)
Definition collectDimensionStyles (dxf : Document) (dimension : DxfRecord)
    : completion DimStyles :=
  let styleName := getGroupCodeValue dimension 3 in
  let style := findDimensionStyle dxf styleName in
  styleOverrides <- collectDimensionStyleOverrides dimension ;;
  let entry := dimensionStyle dxf style styleOverrides in
  Return
    {| DIMSCALE := entry "DIMSCALE" 40 40 (ofZ 1);
       DIMTP := entry "DIMTP" 47 40 NaN;
       DIMTM := entry "DIMTM" 48 40 NaN;
       DIMTOL := entry "DIMTOL" 71 70 zero;
       DIMTXT := entry "DIMTXT" 140 40 (ofZ 1);
       DIMLFAC := entry "DIMLFAC" 144 40 (ofZ 1);
       DIMCLRT := entry "DIMCLRT" 178 70 NaN;
       DIMDEC := entry "DIMDEC" 271 70 (ofZ 4) |}.

(* ================================================================== *)
(** * Multi-line text: attachment point and contents (lines 144-183, 203-258) *)
(* ================================================================== *)

(** [MTEXT_attachmentPoint]: the pair of [dominantBaseline] and
    [textAnchor]. *)
Definition MTEXT_attachmentPoint (n : option string) : option string * option string :=
  let n := toNumber n in
  let dominantBaseline :=
    if strictEq n (ofZ 1) || strictEq n (ofZ 2) || strictEq n (ofZ 3)
    then Some "text-before-edge"
    else if strictEq n (ofZ 4) || strictEq n (ofZ 5) || strictEq n (ofZ 6)
    then Some "central"
    else if strictEq n (ofZ 7) || strictEq n (ofZ 8) || strictEq n (ofZ 9)
    then Some "text-after-edge"
    else None in
  let textAnchor :=
    let r := remainder n (ofZ 3) in
    if strictEq r (ofZ 2) then Some "middle"
    else if strictEq r zero then Some "end"
    else None in
  (dominantBaseline, textAnchor).

(** A font, as [MTEXT_contents] builds it and as the [resolveFont] hook of
    the options returns it. *)
Record Font : Type := {
  font_family : string;
  font_weight : number;
  font_style : option string;
  font_scale : option number
}.

(** The members that [MTEXT_contents] reads of a token that is an object:
    [S] (a stacked fraction: numerator, separator, denominator), [f], [b]
    and [i] (a font switch) and [Q] (an oblique angle). *)
Record Format : Type := {
  format_S : option (string * string * string);
  format_f : option string;
  format_b : option number;
  format_i : option number;
  format_Q : option number
}.

(** A token of the tree that [parseDxfMTextContent] returns. *)
#[local] Unset Elimination Schemes.
Inductive MTextContent : Type :=
| Text (text : string)
| Sequence (contents : list MTextContent)
| Formatting (format : Format).
#[local] Set Elimination Schemes.

(** The element of a stacked fraction. *)
Definition stackedFraction (numerator denominator : string) : string :=
  jsx "tspan"
    [("children",
      PArray
        [jsx "tspan" [("dy", PString "-.5em"); ("children", PString numerator)];
         jsx "tspan"
           [("dy", PString "1em");
            ("dx",
             PString
               (numberToString
                  (div (ofZ (Z.of_nat (String.length numerator))) (ofZ (-2))) +++ "em"));
            ("children", PString denominator)]])].

(** The span of a font switch around the contents that follow it. *)
Definition fontSpan (resolveFont : option (Font -> option Font)) (format : Format)
    (f restContents : string) : string :=
  let _font :=
    {| font_family := f;
       font_weight :=
         match format_b format with
         | Some b => if truthy b then ofZ 700 else ofZ 400
         | None => ofZ 400
         end;
       font_style :=
         match format_i format with
         | Some i => if truthy i then Some "italic" else None
         | None => None
         end;
       font_scale := None |} in
  let font :=
    match resolveFont with
    | Some resolve => match resolve _font with Some font => font | None => _font end
    | None => _font
    end in
  jsx "tspan"
    [("font-family", PString (font_family font));
     ("font-weight", PNumber (font_weight font));
     ("font-style", ofOptionalString (font_style font));
     ("font-size",
      match font_scale font with
      | Some scale =>
          if truthy scale && negb (strictEq scale (ofZ 1))
          then PString (numberToString scale +++ "em")
          else PUndefined
      | None => PUndefined
      end);
     ("children", PString restContents)].

(** The span of an oblique angle around the contents that follow it. *)
Definition obliqueSpan (Q : number) (restContents : string) : string :=
  jsx "tspan"
    [("font-style", PString ("oblique " +++ numberToString Q +++ "deg"));
     ("children", PString restContents)].

(** The body of [MTEXT_contents] for the token [contents[i]], given the
    markup [restContents] of the tokens after it. *)
Fixpoint MTEXT_content (resolveFont : option (Font -> option Font))
    (content : MTextContent) (restContents : string) : string :=
  match content with
  | Text text => text +++ restContents
  | Sequence contents =>
      (fix all (contents : list MTextContent) : string :=
         match contents with
         | [] => ""
         | content :: rest => MTEXT_content resolveFont content (all rest)
         end) contents +++ restContents
  | Formatting format =>
      match format_S format with
      | Some (numerator, _, denominator) =>
          stackedFraction numerator denominator +++ restContents
      | None =>
          match format_f format with
          | Some (String c f) => fontSpan resolveFont format (String c f) restContents
          | _ =>
              match format_Q format with
              | Some Q => if truthy Q then obliqueSpan Q restContents else restContents
              | None => restContents
              end
          end
      end
  end.

(** [MTEXT_contents(contents, options)], with the one member of the
    options that it reads. *)
Fixpoint MTEXT_contents (contents : list MTextContent)
    (resolveFont : option (Font -> option Font)) : string :=
  match contents with
  | [] => ""
  | content :: rest =>
      MTEXT_content resolveFont content (MTEXT_contents rest resolveFont)
  end.

(* ================================================================== *)
(** * Polylines (lines 284-292) *)
(* ================================================================== *)

Definition polylinePoints (xs ys : list number) : string :=
  sliceButLast
    (fold_left
       (fun points i =>
          points +++ elementToString xs i +++ "," +++ elementToString ys i +++ " ")
       (seq 0 (List.length xs)) "").

(* ================================================================== *)
(** * Further interpreters of the table (lines 371-392, 438-470, 519-643) *)
(* ================================================================== *)

(** The entries POLYLINE, LWPOLYLINE, LEADER, HATCH and DIMENSION of the
    object that [createEntitySvgMap] returns, embedded from the source.
    They stand in a module of their own, under the names of their keys;
    the table above takes the entries of these keys from the platform, so
    that what is proved of the scene assembler holds whatever they do, and
    what is proved below is about these entries themselves. *)
Module Interpreters.

Section Interpreters.

Variable platform : Platform.
Variable dxf : Document.
Variable options : Options.

(** [parseDxfMTextContent(text, options)] of the package [@dxfom/mtext],
    which is not part of src/, and the [resolveFont] member of the
    options. *)
Variable parseDxfMTextContent : string -> list MTextContent.
Variable resolveFont : option (Font -> option Font).

(** [+(getGroupCodeValue(entity, 70) ?? 0)]. *)
Definition flagsOf (entity : DxfRecord) : number :=
  match getGroupCodeValue entity 70 with
  | Some v => stringToNumber v
  | None => zero
  end.

Definition POLYLINE : EntitySvg := fun entity vertices =>
  lift
    (xs <- mapM (fun v => dollar_number v 10 None) vertices ;;
     ys <- mapM (fun v => y <- dollar_number v 20 None ;; Return (neg y)) vertices ;;
     let flags := flagsOf entity in
     let attrs := lineAttributes dxf options entity ++
                  [("points", PString (polylinePoints xs ys))] in
     Return
       (Some
          (if negb (bitAnd flags (ofZ 1) =? 0) then jsx "polygon" attrs
           else jsx "polyline" attrs,
           xs, ys))).

Definition LWPOLYLINE : EntitySvg := fun entity _ =>
  let xs := map stringToNumber (getGroupCodeValues entity 10) in
  let ys := map (fun s => neg (stringToNumber s)) (getGroupCodeValues entity 20) in
  let flags := flagsOf entity in
  let attrs := lineAttributes dxf options entity ++
               [("points", PString (polylinePoints xs ys))] in
  ret
    (Some
       (if negb (bitAnd flags (ofZ 1) =? 0) then jsx "polygon" attrs
        else jsx "polyline" attrs,
        xs, ys)).

Definition LEADER : EntitySvg := fun entity _ =>
  let xs := map stringToNumber (getGroupCodeValues entity 10) in
  let ys := map (fun s => neg (stringToNumber s)) (getGroupCodeValues entity 20) in
  ret
    (Some
       (jsx "polyline"
          (commonAttributes entity ++
           [("points", PString (polylinePoints xs ys));
            ("stroke", PString (color dxf options entity));
            ("stroke-dasharray", ofOptionalString (strokeDasharray dxf options entity))]),
        xs, ys)).

(** [entity.findIndex(groupCode => groupCode[0] === code)]: the index of
    the first group of that code, or -1. *)
Fixpoint findIndex (code : Z) (entity : DxfRecord) : Z :=
  match entity with
  | [] => -1
  | (c, _) :: rest =>
      if c =? code then 0
      else
        let i := findIndex code rest in
        if i <? 0 then -1 else i + 1
  end.

(** The body of the loop of [HATCH] for the index [i]: what it appends to
    the path data [d]. *)
Definition HATCH_edge (x1s y1s x2s y2s : list number) (i : nat) : string :=
  let previous (a : list number) :=
    match i with O => None | S j => nth_error a j end in
  let falsy :=
    match nth_error x2s i with Some x2 => negb (truthy x2) | None => true end in
  if falsy then
    (if (i =? 0)%nat then "M" else "L") +++
    elementToString x1s i +++ " " +++ elementToString y1s i
  else if strictEqOptional (nth_error x1s i) (previous x2s) &&
          strictEqOptional (nth_error y1s i) (previous y2s) then
    "L" +++ elementToString x2s i +++ " " +++ elementToString y2s i
  else
    "M" +++ elementToString x1s i +++ " " +++ elementToString y1s i +++
    "L" +++ elementToString x2s i +++ " " +++ elementToString y2s i.

(** The path data of [HATCH], from the coordinates of its edges. *)
Definition HATCH_d (x1s y1s x2s y2s : list number) : string :=
  fold_left (fun d i => d +++ HATCH_edge x1s y1s x2s y2s i)
            (seq 0 (List.length x1s)) "".

Definition HATCH : EntitySvg := fun entity _ =>
  let paths := slice (findIndex 92 entity) (findIndex 97 entity) entity in
  let x1s := map stringToNumber (getGroupCodeValues paths 10) in
  let y1s := map (fun s => neg (stringToNumber s)) (getGroupCodeValues paths 20) in
  let x2s := map stringToNumber (getGroupCodeValues paths 11) in
  let y2s := map (fun s => neg (stringToNumber s)) (getGroupCodeValues paths 21) in
  ret
    (Some
       (jsx "path"
          (commonAttributes entity ++
           [("d", PString (HATCH_d x1s y1s x2s y2s));
            ("fill", PString (color dxf options entity));
            ("fill-opacity", PString ".3")]),
        x1s ++ x2s, y1s ++ y2s)).

(** A path element of [DIMENSION], from its path data. *)
Definition dimensionLine (d : string) : string :=
  jsx "path" [("stroke", PString "currentColor"); ("d", PString d)].

(** The block of [DIMENSION] after its [switch]: the text element and the
    group that is returned. *)
Definition DIMENSION_group (entity : DxfRecord) (dimStyles : DimStyles)
    (tx ty : number) (lineElements : string) (measurement : number)
    (dominantBaseline textAnchor : string) (angle : option number)
    (xs ys : list number) : Eff (option Primitive) :=
  mtext <~ lift (dimensionValueToMText measurement entity dimStyles) ;;
  let h := mul (DIMTXT dimStyles) (DIMSCALE dimStyles) in
  let textColor := DIMCLRT dimStyles in
  let textElement :=
    jsx "text"
      [("x", PNumber tx);
       ("y", PNumber ty);
       ("fill",
        PString
          (if isNaN textColor then color dxf options entity
           else if strictEq textColor zero then "currentColor"
           else resolveColorIndex options textColor));
       ("font-size", PNumber h);
       ("dominant-baseline", PString dominantBaseline);
       ("text-anchor", PString textAnchor);
       ("transform",
        match angle with
        | Some a =>
            if truthy a then
              PString
                ("rotate(" +++ numberToString a +++ " " +++ numberToString tx +++ " " +++
                 numberToString ty +++ ")")
            else PNumber a
        | None => PUndefined
        end);
       ("children", PString (MTEXT_contents (parseDxfMTextContent mtext) resolveFont))] in
  ret
    (Some
       (jsx "g"
          (commonAttributes entity ++
           [("color", PString (color dxf options entity));
            ("stroke-dasharray", ofOptionalString (strokeDasharray dxf options entity));
            ("style", ofOptionalString (extrusionStyle entity));
            ("children", PString (lineElements +++ textElement))]),
        xs, ys)).

Definition DIMENSION : EntitySvg := fun entity _ =>
  dimStyles <~ lift (collectDimensionStyles dxf entity) ;;
  tx <~ lift (dollar_number entity 11 None) ;;
  ty <~ lift (v <- dollar_number entity 21 None ;; Return (neg v)) ;;
  dimensionType <~ lift (dollar_number entity 70 (Some zero)) ;;
  let kind := bitAnd dimensionType (ofZ 7) in
  let point (x y : number) := numberToString x +++ " " +++ numberToString y in
  if (kind =? 0) || (kind =? 1) then
    p <~ lift (dollar_numbers entity [10; 13; 14]) ;;
    q <~ lift (dollar_negates entity [20; 23; 24]) ;;
    r <~ lift (dollar_number entity 50 (Some zero)) ;;
    let x0 := nth 0 p NaN in
    let x1 := nth 1 p NaN in
    let x2 := nth 2 p NaN in
    let y0 := nth 0 q NaN in
    let y1 := nth 1 q NaN in
    let y2 := nth 2 q NaN in
    let angle := Math_round (orElse (neg r) zero) in
    if strictEq (remainder angle (ofZ 180)) zero then
      DIMENSION_group entity dimStyles tx ty
        (dimensionLine
           ("M" +++ point x1 y1 +++ "L" +++ point x1 y0 +++ "L" +++ point x2 y0 +++
            "L" +++ point x2 y2))
        (Math_abs (sub x1 x2)) "text-after-edge" "middle" (Some zero)
        [tx; x1; x2] [ty; y1; y2]
    else
      DIMENSION_group entity dimStyles tx ty
        (dimensionLine
           ("M" +++ point x1 y1 +++ "L" +++ point x0 y1 +++ "L" +++ point x0 y2 +++
            "L" +++ point x2 y2))
        (Math_abs (sub y1 y2)) "text-after-edge" "middle" (Some angle)
        [tx; x1; x2] [ty; y1; y2]
  else if (kind =? 2) || (kind =? 5) then
    _ <~ warn "Angular dimension cannot be rendered yet." [entity] ;;
    ret None
  else if (kind =? 3) || (kind =? 4) then
    p <~ lift (dollar_numbers entity [10; 15]) ;;
    q <~ lift (dollar_negates entity [20; 25]) ;;
    let x0 := nth 0 p NaN in
    let x1 := nth 1 p NaN in
    let y0 := nth 0 q NaN in
    let y1 := nth 1 q NaN in
    DIMENSION_group entity dimStyles tx ty
      (dimensionLine ("M" +++ point x1 y1 +++ "L" +++ point tx ty))
      (Math_hypot platform (sub x0 x1) (sub y0 y1)) "text-after-edge" "middle" None
      [tx; x0; x1] [ty; y0; y1]
  else if kind =? 6 then
    p <~ lift (dollar_numbers entity [13; 14]) ;;
    q <~ lift (dollar_negates entity [23; 24]) ;;
    let x1 := nth 0 p NaN in
    let x2 := nth 1 p NaN in
    let y1 := nth 0 q NaN in
    let y2 := nth 1 q NaN in
    if negb (bitAnd dimensionType (ofZ 64) =? 0) then
      x0 <~ lift (dollar_number entity 10 None) ;;
      DIMENSION_group entity dimStyles tx ty
        (dimensionLine
           ("M" +++ point x1 y1 +++ "L" +++ point x1 y2 +++ "L" +++ point x2 y2 +++
            "L" +++ point tx ty))
        (Math_abs (sub x0 x1)) "central" "middle" (Some (ofZ (-90)))
        [tx; x1; x2] [ty; y1; y2]
    else
      y0 <~ lift (v <- dollar_number entity 20 None ;; Return (neg v)) ;;
      DIMENSION_group entity dimStyles tx ty
        (dimensionLine
           ("M" +++ point x1 y1 +++ "L" +++ point x2 y1 +++ "L" +++ point x2 y2 +++
            "L" +++ point tx ty))
        (Math_abs (sub y0 y1)) "central" "middle" None
        [tx; x1; x2] [ty; y1; y2]
  else
    _ <~ warn "Unknown dimension type." [entity] ;;
    ret None.

End Interpreters.

End Interpreters.

(* ================================================================== *)
(** * Tables (lines 644-719) *)
(* ================================================================== *)

(** The entry ACAD_TABLE of the table of interpreters, with its loops. *)
Module Table.

Section Table.

Variable dxf : Document.
Variable options : Options.

(** [parseDxfMTextContent(text)], which [ACAD_TABLE] calls without the
    options, and the [resolveFont] member of the options. *)
Variable parseDxfMTextContent : string -> list MTextContent.
Variable resolveFont : option (Font -> option Font).

(** The loop that cuts the record into cells, over the indices [i] still
    to visit: [index] is where the current cell starts. *)
Fixpoint cellsLoop (entity : DxfRecord) (indices : list nat) (index : Z)
    (cells : list DxfRecord) : list DxfRecord :=
  match indices with
  | [] => cells ++ [slice index (Z.of_nat (List.length entity)) entity]
  | i :: rest =>
      match nth_error entity i with
      | Some (code, _) =>
          if code =? 171 then
            cellsLoop entity rest (Z.of_nat i) (cells ++ [slice index (Z.of_nat i) entity])
          else cellsLoop entity rest index cells
      | None => cellsLoop entity rest index cells
      end
  end.

(** The local [cells] of [ACAD_TABLE]. *)
Definition cellsOf (entity : DxfRecord) : list DxfRecord :=
  let index := Interpreters.findIndex 171 entity in
  let first := Z.to_nat (index + 1) in
  cellsLoop entity (seq first (List.length entity - first)) index [].

(** [sizes.reduce((a, size) => (a.push(a[a.length - 1] + size), a), [0])]:
    the grid lines, from the sizes of the rows or of the columns. *)
Definition gridLines (sizes : list number) : list number :=
  fold_left (fun a size => a ++ [add (last a NaN) size]) sizes [zero].

(** A property that holds [a[i]]. *)
Definition element (a : list number) (i : nat) : PropValue :=
  match nth_error a i with
  | Some v => PNumber v
  | None => PUndefined
  end.

(** The text of the diagnostic for a cell that holds a block. *)
Definition blockCellMessage : string :=
  "Table cell type " +++ dq +++ "block" +++ dq +++ " cannot be rendered yet.".

(** The body of the loop over the cells: the markup so far and the column
    and row of the cell. *)
Definition cellSvg (entity : DxfRecord) (xs ys : list number)
    (lineColor textColor : string) (state : string * nat * nat) (cell : DxfRecord)
    : Eff (string * nat * nat) :=
  let '(s, xi, yi) := state in
  let color := toNumber (getGroupCodeValue cell 64) in
  let s :=
    if negb (truthy (toNumber (getGroupCodeValue cell 173))) then
      s +++
      jsx "line"
        [("x1", element xs xi);
         ("y1", element ys yi);
         ("x2", element xs xi);
         ("y2", element ys (S yi));
         ("stroke", PString lineColor)]
    else s in
  s <~ (if optionEqb (dollar_trim cell 171) "2" then
          _ <~ warn blockCellMessage [entity; cell] ;;
          ret s
        else
          ret
            (s +++
             jsx "text"
               [("x", element xs xi);
                ("y", element ys yi);
                ("fill",
                 PString
                   (if negb (isNaN color) then resolveColorIndex options color
                    else textColor));
                ("children",
                 PString
                   (MTEXT_contents
                      (parseDxfMTextContent
                         match getGroupCodeValue cell 1 with
                         | Some text => text
                         | None => ""
                         end)
                      resolveFont))])) ;;
  if (S xi =? List.length xs - 1)%nat then ret (s, O, S yi) else ret (s, S xi, yi).

(** The loop over the cells. *)
Fixpoint cellsSvg (entity : DxfRecord) (xs ys : list number)
    (lineColor textColor : string) (cells : list DxfRecord) (state : string * nat * nat)
    : Eff (string * nat * nat) :=
  match cells with
  | [] => ret state
  | cell :: rest =>
      state' <~ cellSvg entity xs ys lineColor textColor state cell ;;
      cellsSvg entity xs ys lineColor textColor rest state'
  end.

Definition ACAD_TABLE : EntitySvg := fun entity _ =>
  let cells := cellsOf entity in
  let ys := gridLines (map stringToNumber (getGroupCodeValues entity 141)) in
  let xs := gridLines (map stringToNumber (getGroupCodeValues entity 142)) in
  let lineColor := color dxf options entity in
  let textColor := resolveColorIndex options (toNumber (getGroupCodeValue entity 64)) in
  let s :=
    join ""
      (map (fun y =>
              jsx "line"
                [("stroke", PString lineColor);
                 ("x1", PString "0");
                 ("y1", PNumber y);
                 ("x2", PNumber (last xs NaN));
                 ("y2", PNumber y)])
           ys) in
  state <~ cellsSvg entity xs ys lineColor textColor cells (s, O, O) ;;
  let '(s, _, _) := state in
  let s :=
    s +++
    jsx "line"
      [("x1", PNumber (last xs NaN));
       ("y1", PString "0");
       ("x2", PNumber (last xs NaN));
       ("y2", PNumber (last ys NaN));
       ("stroke", PString lineColor)] in
  x <~ lift (dollar_number entity 10 None) ;;
  y <~ lift (v <- dollar_number entity 20 None ;; Return (neg v)) ;;
  ret
    (Some
       (jsx "g"
          (commonAttributes entity ++
           [("font-size", ofOptionalString (dollar_trim entity 140));
            ("dominant-baseline", PString "text-before-edge");
            ("transform",
             PString
               ("translate(" +++ numberToString x +++ "," +++ numberToString y +++ ")"));
            ("children", PString s)]),
        map (fun _x => add _x x) xs,
        map (fun _y => add _y y) ys)).

End Table.

End Table.

(* ================================================================== *)
(** * Vocabulary of the properties *)
(* ================================================================== *)

(** The numeric field [groupCode] of [record] has a magnitude above the
    sanity bound of [$number]. *)
Definition exceedsBound (record : DxfRecord) (groupCode : Z) : bool :=
  gt (Math_abs (toNumber (getGroupCodeValue record groupCode))) sanityBound.

(** The bounding box of a scene to which no coordinate was added. *)
Definition degenerateBox : BoundingBox :=
  {| bbox_x := Infinity; bbox_y := Infinity;
     bbox_w := negInfinity; bbox_h := negInfinity |}.

(** [x || 'currentColor'] on a colour. *)
Definition orCurrentColor (c : string) : string :=
  if truthyString c then c else "currentColor".

(** The group codes that [MTEXT_angle] looks for. *)
Definition isRotationCode (gc : GroupCode) : bool :=
  (fst gc =? 50) || (fst gc =? 11) || (fst gc =? 21).

(** The full turn, [2 * Math.PI]. *)
Definition fullTurn : number := mul (ofZ 2) Math_PI.

(** The test of [ELLIPSE] on the start and end parameters. *)
Definition isFullEllipse (rad1 rad2 : number) : bool :=
  nearlyEqual rad1 zero && nearlyEqual rad2 fullTurn.

(** The diagnostic of [ELLIPSE] for a sweep that it does not support. *)
Definition ellipticalArc : Diagnostic :=
  {| message := "Elliptical arc cannot be rendered yet."; context := [] |}.

(** The markup and the extents of the full ellipse of centre [(cx, cy)],
    major axis [(majorX, majorY)] and axis ratio [ratio], as [ELLIPSE]
    returns them. *)
Definition fullEllipse (platform : Platform) (attributes : Props)
    (cx cy majorX majorY ratio : number) : Primitive :=
  let majorR := Math_hypot platform majorX majorY in
  let minorR := mul ratio majorR in
  let radAngleOffset := neg (Math_atan2 platform majorY majorX) in
  (jsx "ellipse"
     (attributes ++
      [("cx", PNumber cx);
       ("cy", PNumber (neg cy));
       ("rx", PNumber majorR);
       ("ry", PNumber minorR);
       ("transform",
        if truthy radAngleOffset then
          PString
            ("rotate(" +++
             numberToString (div (mul radAngleOffset (ofZ 180)) Math_PI) +++ " " +++
             numberToString cx +++ " " +++ numberToString (neg cy) +++ ")")
        else PUndefined)]),
   [sub cx majorR; add cx majorR],
   [sub (neg cy) minorR; add (neg cy) minorR]).

(** A record without its groups 50 (the rotation of an insert). *)
Definition withoutRotation (entity : DxfRecord) : DxfRecord :=
  filter (fun gc => negb (fst gc =? 50)) entity.

(** The extents that [INSERT] returns along one axis: the nested interval
    from [low] of length [size], scaled and then translated. *)
Definition remapped (origin scale low size : number) : list number :=
  [add origin (mul low scale); add origin (mul (add low size) scale)].

(** The group element of an insert. *)
Definition insertMarkup (dxf : Document) (options : Options) (entity : DxfRecord)
    (transform contents : string) : string :=
  jsx "g"
    (commonAttributes entity ++
     [("color", ofOptionalString (_color dxf options entity));
      ("transform", PString transform);
      ("children", PString contents)]).

(** The type tag of a dispatched entity names a member of
    [Object.prototype]. *)
Definition namesInherited (group : Dispatch) : bool :=
  isInherited (snd (fst group)).




(** The block mapping of a document, an absent one counting as an empty
    one, and the name under which an insert looks its block up. *)
Definition blockMapping (dxf : Document) : list (string * list DxfRecord) :=
  match BLOCKS dxf with Some blocks => blocks | None => [] end.

Definition blockName (entity : DxfRecord) : string :=
  propertyKey (getGroupCodeValue entity 2).

(* ================================================================== *)
(** * Sample inputs *)
(* ================================================================== *)

Module Samples.

(** A platform with an empty colour table, whose other interpreters render
    nothing; it serves to run the engine on concrete documents. *)
Definition barePlatform : Platform :=
  {| atan2_approx := fun _ _ => NaN;
     hypot_approx := fun _ _ => NaN;
     DXF_COLOR_HEX := fun _ => None;
     otherEntitySvg := fun _ _ _ _ _ => ret None |}.

Definition document (blocks : option (list (string * list DxfRecord)))
    (entities : option (list DxfRecord)) : Document :=
  {| HEADER := None; TABLES := None; BLOCKS := blocks; ENTITIES := entities |}.

(** A line from (0,0) to (10,0). *)
Definition line_0_10 : DxfRecord :=
  [(0, "LINE"); (5, "1A"); (10, "0"); (20, "0"); (11, "10"); (21, "0")].

(** A line whose first abscissa exceeds the sanity bound. *)
Definition corruptLine : DxfRecord :=
  [(0, "LINE"); (5, "1B"); (10, "2000000"); (20, "0"); (11, "1"); (21, "0")].

(** A line from (3,4) to (5,8). *)
Definition line_3_5 : DxfRecord :=
  [(0, "LINE"); (5, "1C"); (10, "3"); (20, "4"); (11, "5"); (21, "8")].

Definition threeLines : Document :=
  document None (Some [line_0_10; corruptLine; line_3_5]).

Definition oneCorruptLine : Document := document None (Some [corruptLine]).

(** A linetype whose pattern starts with a gap: the segments 0 and -1. *)
Definition gapFirst : DxfRecord :=
  [(0, "LTYPE"); (2, "DOT"); (49, "0"); (49, "-1")].

(** A dashed linetype: the segments 0.5 and -0.25. *)
Definition dashed : DxfRecord :=
  [(0, "LTYPE"); (2, "DASHED"); (49, "0.5"); (49, "-0.25")].

(** Dimension styles with tolerances enabled and the given plus and minus
    tolerance. *)
Definition tolerances (plus minus : number) : DimStyles :=
  {| DIMSCALE := ofZ 1; DIMTP := plus; DIMTM := minus; DIMTOL := ofZ 1;
     DIMTXT := ofZ 1; DIMLFAC := ofZ 1; DIMCLRT := NaN; DIMDEC := ofZ 4 |}.

(** A configuration whose colour collaborator prints the index after a
    hash sign. *)
Definition hashColors : Options :=
  {| resolveColorIndex := fun index => "#" +++ numberToString index |}.

(** A document with the single layer L of colour index 1. *)
Definition oneLayer : Document :=
  {| HEADER := None;
     TABLES :=
       Some {| LAYER := Some [[(0, "LAYER"); (2, "L"); (62, "1")]];
               LTYPE := None; DIMSTYLE := None |};
     BLOCKS := None;
     ENTITIES := None |}.

(** Entities on layer L with the colour indices 0, 256 and 5. *)
Definition byBlock : DxfRecord := [(0, "LINE"); (8, "L"); (62, "0")].
Definition byLayer : DxfRecord := [(0, "LINE"); (8, "L"); (62, "256")].
Definition ownColor : DxfRecord := [(0, "LINE"); (8, "L"); (62, "5")].

(** A multi-line text with a stored angle of 30 degrees followed by the X
    component of a direction vector along the X axis, and the same groups
    in the other order. *)
Definition angleThenDirection : DxfRecord :=
  [(0, "MTEXT"); (50, "30"); (11, "1")].
Definition directionThenAngle : DxfRecord :=
  [(0, "MTEXT"); (11, "1"); (50, "30")].

(** An ellipse centred at the origin with major axis (2, 0) and ratio 0.5,
    swept from [start] to [stop]. *)
Definition ellipse (start stop : string) : DxfRecord :=
  [(0, "ELLIPSE"); (10, "0"); (20, "0"); (11, "2"); (21, "0"); (40, "0.5");
   (41, start); (42, stop)].

(** The block B, a single line from (0,0) to (1,0) between its
    delimiters, and inserts of it at (100,0) with scale factor 2: plain,
    and rotated by 90 degrees. *)
Definition unitLine : DxfRecord :=
  [(0, "LINE"); (10, "0"); (20, "0"); (11, "1"); (21, "0")].

Definition blockB : list DxfRecord :=
  [[(0, "BLOCK"); (2, "B")]; unitLine; [(0, "ENDBLK")]].

Definition insertB : DxfRecord :=
  [(0, "INSERT"); (2, "B"); (10, "100"); (20, "0"); (41, "2"); (42, "2")].

Definition insertB_rotated : DxfRecord :=
  [(0, "INSERT"); (2, "B"); (10, "100"); (20, "0"); (41, "2"); (42, "2"); (50, "90")].

Definition oneInsert : Document := document (Some [("B", blockB)]) (Some [insertB]).

Definition oneRotatedInsert : Document :=
  document (Some [("B", blockB)]) (Some [insertB_rotated]).

(** The markup of the unit line and of the two inserts. *)
Definition unitLineMarkup : string :=
  jsx "line" [("stroke", PString "currentColor"); ("x2", PNumber (ofZ 1))].

Definition insertB_markup : string :=
  jsx "g" [("transform", PString "translate(100,0) scale(2,2)");
           ("children", PString unitLineMarkup)].

Definition insertB_rotated_markup : string :=
  jsx "g" [("transform", PString "translate(100,0) scale(2,2) rotate(-90)");
           ("children", PString unitLineMarkup)].

(** Inserts of a block that the document does not have: one at (5,7), one
    whose abscissa exceeds the sanity bound. *)
Definition insertMissing : DxfRecord :=
  [(0, "INSERT"); (5, "2F"); (2, "NOWHERE"); (10, "5"); (20, "7")].

Definition insertMissingCorrupt : DxfRecord :=
  [(0, "INSERT"); (2, "NOWHERE"); (10, "2000000"); (20, "7")].


Definition noEntities : Document := document None None.

(** Records whose type tags name members of [Object.prototype]. *)
Definition typeToString : DxfRecord := [(0, "toString")].

Definition typeConstructor : DxfRecord := [(0, "constructor"); (10, "50"); (20, "70")].

Definition oneToString : Document := document None (Some [typeToString]).

Definition oneConstructor : Document := document None (Some [typeConstructor]).

Definition oneMissingInsert : Document := document (Some []) (Some [insertMissing]).

Definition oneCorruptMissingInsert : Document :=
  document (Some []) (Some [insertMissingCorrupt]).

End Samples.

(* ================================================================== *)
(** * Vocabulary of the further properties *)
(* ================================================================== *)

(** The character [c] occurs in [s]. *)
Fixpoint occurs (c : ascii) (s : string) : bool :=
  match s with
  | EmptyString => false
  | String a rest => Ascii.eqb a c || occurs c rest
  end.

(** The entity that stands for a character in escaped text. *)
Definition escapeCharacter (c : ascii) : string :=
  if Ascii.eqb c "&" then "&amp;"
  else if Ascii.eqb c "<" then "&lt;"
  else if Ascii.eqb c ">" then "&gt;"
  else if Ascii.eqb c (ascii_of_nat 34) then "&quot;"
  else String c EmptyString.

(** A text escaped character by character, in one pass. *)
Fixpoint escapeEach (s : string) : string :=
  match s with
  | EmptyString => EmptyString
  | String c rest => escapeCharacter c +++ escapeEach rest
  end.

(** [key in props]. *)
Fixpoint hasKey (props : Props) (key : string) : bool :=
  match props with
  | [] => false
  | (k, _) :: rest => String.eqb k key || hasKey rest key
  end.

(** [s.includes('<>')]. *)
Fixpoint hasPlaceholder (s : string) : bool :=
  match s with
  | String "<" (String ">" _) => true
  | String _ rest => hasPlaceholder rest
  | EmptyString => false
  end.

(** A record of the layer table that defines the layer [name]. *)
Definition isLayerNamed (name : string) (record : DxfRecord) : bool :=
  optionEqb (getGroupCodeValue record 0) "LAYER" &&
  String.eqb (propertyKey (getGroupCodeValue record 2)) name.

(** The layer that a record of the layer table defines. *)
Definition layerOf (options : Options) (record : DxfRecord) : Layer :=
  {| layer_color := resolveColorIndex options (toNumber (getGroupCodeValue record 62));
     layer_ltype := getGroupCodeValue record 6 |}.

(** The normalised dash pattern of a linetype record. *)
Definition dashPattern (ltype : DxfRecord) : list string :=
  normalizedDasharray (_strokeDasharray ltype).

(** A record of the linetype table that defines the linetype [name] with
    at least one segment. *)
Definition isLinetypeNamed (name : string) (record : DxfRecord) : bool :=
  optionEqb (getGroupCodeValue record 0) "LTYPE" &&
  String.eqb (propertyKey (getGroupCodeValue record 2)) name &&
  negb (Nat.eqb (List.length (dashPattern record)) 0).

(** The groups that a block which inserts itself draws: one group per
    level of expansion that the call stack has room for. *)
Fixpoint nestedGroups (dxf : Document) (options : Options) (entity : DxfRecord)
    (transform : string) (levels : nat) : string :=
  match levels with
  | O => ""
  | S l =>
      insertMarkup dxf options entity transform
        (nestedGroups dxf options entity transform l)
  end.

(** The type tags that the table of interpreters has an entry for. *)
Definition recognisedTypes : list string :=
  ["POINT"; "LINE"; "POLYLINE"; "LWPOLYLINE"; "CIRCLE"; "ARC"; "ELLIPSE"; "LEADER";
   "HATCH"; "SOLID"; "TEXT"; "MTEXT"; "DIMENSION"; "ACAD_TABLE"; "INSERT"].

Definition isRecognised (entityType : string) : bool :=
  existsb (String.eqb entityType) recognisedTypes.

(** The diagnostic of the scene assembler for a type tag without an
    interpreter. *)
Definition unknownEntityType (entityType : string) (entity : DxfRecord) : Diagnostic :=
  {| message := "Unknown entity type: " +++ entityType; context := [entity] |}.

(** The concatenation of a list of strings. *)
Definition concatAll (l : list string) : string := fold_right String.append "" l.

(** What the [try ... catch] statement of the scene assembler appends to
    the markup for a dispatched entity, and what it reports, when the type
    tag does not name a member of [Object.prototype]. *)
Definition markupOf (entitySvgMap : list (string * EntitySvg)) (group : Dispatch) : string :=
  let '(entity, entityType, vertices) := group in
  match lookup entitySvgMap entityType with
  | Some entitySvg =>
      match snd (entitySvg entity vertices) with
      | Return (Some (markup, _, _)) => markup
      | _ => ""
      end
  | None => ""
  end.

Definition diagnosticsOf (entitySvgMap : list (string * EntitySvg)) (group : Dispatch)
    : list Diagnostic :=
  let '(entity, entityType, vertices) := group in
  match lookup entitySvgMap entityType with
  | Some entitySvg =>
      match entitySvg entity vertices with
      | (ds, Throw error) => ds ++ [errorOccurred error entity]
      | (ds, Return _) => ds
      end
  | None => [unknownEntityType entityType entity]
  end.

(** [x <= y] on numbers. *)
Definition lessEq (x y : number) : bool := SFleb x y.

(** None of the running extents of a scene is NaN. *)
Definition hasExtents (scene : Scene) : bool :=
  negb (isNaN (minX scene)) && negb (isNaN (maxX scene)) &&
  negb (isNaN (minY scene)) && negb (isNaN (maxY scene)).

(** The extents of [scene'] contain those of [scene]. *)
Definition widens (scene scene' : Scene) : bool :=
  lessEq (minX scene') (minX scene) && lessEq (maxX scene) (maxX scene') &&
  lessEq (minY scene') (minY scene) && lessEq (maxY scene) (maxY scene').

(** A point of the [points] attribute. *)
Definition pointText (p : number * number) : string :=
  numberToString (fst p) +++ "," +++ numberToString (snd p).

(** The coordinates that a record lists under the group codes 10 and 20,
    as [LWPOLYLINE] and [LEADER] read them. *)
Definition listedXs (entity : DxfRecord) : list number :=
  map stringToNumber (getGroupCodeValues entity 10).

Definition listedYs (entity : DxfRecord) : list number :=
  map (fun s => neg (stringToNumber s)) (getGroupCodeValues entity 20).

(** The element name of a polyline whose flags are [flags]. *)
Definition polylineElement (flags : number) : string :=
  if negb (bitAnd flags (ofZ 1) =? 0) then "polygon" else "polyline".

(** No group of [record] has the code [code]. *)
Definition hasNoCode (code : Z) (record : DxfRecord) : bool :=
  forallb (fun gc => negb (fst gc =? code)) record.

(** The groups of a block of style overrides: each key in a group 1070,
    followed by the group of its value. *)
Definition overrideGroups (pairs : list (string * GroupCode)) : DxfRecord :=
  flat_map (fun pair => [(1070, fst pair); snd pair]) pairs.

(** The bindings that a block of style overrides sets, first to last. *)
Definition overrideBindings (pairs : list (string * GroupCode)) : StyleOverrides :=
  map (fun pair => (stringToNumber (fst pair), snd (snd pair))) pairs.

(** The record ends here or goes on with a group 1002. *)
Definition closesBlock (rest : DxfRecord) : bool :=
  match rest with
  | [] => true
  | (code, _) :: _ => code =? 1002
  end.

(** The defaults of the table [DimStyles]. *)
Definition defaultDimStyles : DimStyles :=
  {| DIMSCALE := ofZ 1; DIMTP := NaN; DIMTM := NaN; DIMTOL := zero;
     DIMTXT := ofZ 1; DIMLFAC := ofZ 1; DIMCLRT := NaN; DIMDEC := ofZ 4 |}.

(** The diagnostics of [DIMENSION] for the sub-types that it does not
    render. *)
Definition angularDimension (entity : DxfRecord) : Diagnostic :=
  {| message := "Angular dimension cannot be rendered yet."; context := [entity] |}.

Definition unknownDimension (entity : DxfRecord) : Diagnostic :=
  {| message := "Unknown dimension type."; context := [entity] |}.

(** The sub-type of a dimension is read as the number [t], and its three
    low bits are those of [t]. *)
Definition readsDimensionType (t : Z) : bool :=
  match dollar_number [(70, stringOfZ t)] 70 (Some zero) with
  | Return v => bitAnd v (ofZ 7) =? t mod 8
  | Throw _ => false
  end.

(** A token after which [MTEXT_contents] nests the rest of the text: a font
    switch or an oblique angle. *)
Definition isSwitch (content : MTextContent) : bool :=
  match content with
  | Formatting format =>
      match format_S format with
      | Some _ => false
      | None =>
          match format_f format with
          | Some (String _ _) => true
          | _ =>
              match format_Q format with
              | Some Q => truthy Q
              | None => false
              end
          end
      end
  | _ => false
  end.

(** The baseline and the anchor of the rows and columns of the attachment
    points. *)
Definition attachmentRow (row : Z) : option string :=
  if row =? 0 then Some "text-before-edge"
  else if row =? 1 then Some "central"
  else Some "text-after-edge".

Definition attachmentColumn (column : Z) : option string :=
  if column =? 0 then None
  else if column =? 1 then Some "middle"
  else Some "end".

(** A cell of a table that holds a block, and the diagnostic of
    [ACAD_TABLE] for it. *)
Definition isBlockCell (cell : DxfRecord) : bool :=
  optionEqb (dollar_trim cell 171) "2".

Definition blockCell (entity cell : DxfRecord) : Diagnostic :=
  {| message := Table.blockCellMessage; context := [entity; cell] |}.

(** The groups of a cell of a table: the marker 171 with the type of the
    cell, and the groups that follow it. *)
Definition cellGroups (cell : string * DxfRecord) : DxfRecord :=
  (171, fst cell) :: snd cell.

(** The runs into which the groups [rest] are cut at every group 171,
    [current] being the run so far. *)
Fixpoint runs (current rest : DxfRecord) : list DxfRecord :=
  match rest with
  | [] => [current]
  | (code, value) :: rest' =>
      if code =? 171 then current :: runs [(code, value)] rest'
      else runs (current ++ [(code, value)]) rest'
  end.

(* ================================================================== *)
(** * Further sample inputs *)
(* ================================================================== *)

Module Cases.

(** A record of a type that the table does not know. *)
Definition spline : DxfRecord := [(0, "SPLINE"); (5, "2A")].

(** A closed polyline through (0,0), (4,0) and (4,3), with its vertices
    and its end marker. *)
Definition polyline : DxfRecord := [(0, "POLYLINE"); (70, "1")].

Definition vertex (x y : string) : DxfRecord := [(0, "VERTEX"); (10, x); (20, y)].

Definition triangle : list DxfRecord := [vertex "0" "0"; vertex "4" "0"; vertex "4" "3"].

Definition seqend : DxfRecord := [(0, "SEQEND")].

(** A table of interpreters with one entry, which renders every record as
    an empty group at the point (1,2). *)
Definition marker : list (string * EntitySvg) :=
  [("POLYLINE", fun _ _ => ret (Some ("<g/>", [ofZ 1], [ofZ 2])))].

(** A layer table in which the layer A is defined twice. *)
Definition layerA (index : string) : DxfRecord := [(0, "LAYER"); (2, "A"); (62, index)].

Definition twoLayers : Document :=
  {| HEADER := None;
     TABLES :=
       Some {| LAYER := Some [layerA "1"; [(0, "LAYER"); (2, "B"); (62, "3")]; layerA "2"];
               LTYPE := Some [Samples.dashed; [(0, "LTYPE"); (2, "DASHED")]];
               DIMSTYLE := None |};
     BLOCKS := None;
     ENTITIES := None |}.

(** A block that inserts itself. *)
Definition insertSelf : DxfRecord := [(0, "INSERT"); (2, "LOOP"); (10, "1")].

Definition selfIncluding : Document :=
  Samples.document
    (Some [("LOOP", [[(0, "BLOCK")]; insertSelf; [(0, "ENDBLK")]])])
    (Some [insertSelf]).

(** A lightweight polyline whose second abscissa exceeds the bound of the
    numeric accessor. *)
Definition wideLwpolyline : DxfRecord :=
  [(0, "LWPOLYLINE"); (10, "0"); (20, "0"); (10, "2000000"); (20, "1")].

(** A hatch with an elevation point before its boundary, one edge from
    (1,1) to (5,1), and a seed point after it. *)
Definition hatch : DxfRecord :=
  [(0, "HATCH"); (10, "9"); (20, "9"); (92, "1"); (10, "1"); (20, "1"); (11, "5");
   (21, "1"); (97, "0"); (10, "7"); (20, "7")].

(** A dimension with style overrides: three decimals and a text height of
    2.5. *)
Definition dimension (type : string) : DxfRecord :=
  [(0, "DIMENSION"); (11, "1"); (21, "2"); (70, type); (1000, "DSTYLE"); (1002, "{");
   (1070, "271"); (1070, "3"); (1070, "140"); (1040, "2.5"); (1002, "}")].

(** A parser of multi-line text that returns the text as one leaf. *)
Definition plainText (text : string) : list MTextContent := [Text text].

(** A font switch to Arial, bold. *)
Definition arialBold : MTextContent :=
  Formatting
    {| format_S := None; format_f := Some "Arial"; format_b := Some (ofZ 1);
       format_i := None; format_Q := None |}.

(** The stacked fraction 1/2. *)
Definition half : MTextContent :=
  Formatting
    {| format_S := Some ("1", "/", "2"); format_f := None; format_b := None;
       format_i := None; format_Q := None |}.

(** A table of two rows (heights 2 and 3) and two columns (widths 10 and
    20) at (5,5), with four cells of which the second holds a block. *)
Definition table : DxfRecord :=
  [(0, "ACAD_TABLE"); (10, "5"); (20, "5"); (141, "2"); (141, "3"); (142, "10");
   (142, "20"); (171, "1"); (1, "a"); (171, "2"); (171, "1"); (1, "c"); (173, "1");
   (171, "1"); (1, "d")].

End Cases.

(* ================================================================== *)
(** * Properties *)
(* ================================================================== *)

(** ** Effects *)

Lemma bindE_ext {A B : Type} (m : Eff A) (k1 k2 : A -> Eff B) :
  (forall a, k1 a = k2 a) -> bindE m k1 = bindE m k2.
Proof.
  intros H. destruct m as [ds [a | e]]; simpl; [rewrite H |]; reflexivity.
Qed.

(** ** Property lookup *)

Lemma member_own {A : Type} (object : list (string * A)) key value :
  lookup object key = Some value -> member object key = Own value.
Proof. unfold member. intros ->. reflexivity. Qed.

Lemma member_missing {A : Type} (object : list (string * A)) key :
  lookup object key = None -> isInherited key = false -> member object key = Missing.
Proof. unfold member. intros -> ->. reflexivity. Qed.

(** ** The scene assembler never throws *)

Lemma renderEntity_returns entitySvgMap entity entityType vertices scene :
  exists ds scene',
    renderEntity entitySvgMap entity entityType vertices scene = (ds, Return scene').
Proof.
  unfold renderEntity.
  destruct (tryBlock entitySvgMap entity entityType vertices scene)
    as [ds [scene' [[] | error]]]; eexists; eexists; reflexivity.
Qed.

(** For a type tag that is a key of the table, the statement is the call
    of the interpreter and the update of the scene by its primitive, with
    the scene as it was in the [catch] clause. *)
Lemma renderEntity_own (entitySvgMap : list (string * EntitySvg)) entity entityType
    vertices scene (entitySvg : EntitySvg) :
  lookup entitySvgMap entityType = Some entitySvg ->
  renderEntity entitySvgMap entity entityType vertices scene =
    tryCatch
      (svg <~ entitySvg entity vertices ;;
       match svg with
       | Some primitive => ret (addPrimitive scene primitive)
       | None => ret scene
       end)
      (fun error =>
         _ <~ warn ("Error occurred: " +++ error) [entity] ;;
         ret scene).
Proof.
  intros Hmap. unfold renderEntity, tryBlock. rewrite (member_own _ _ _ Hmap).
  destruct (entitySvg entity vertices) as [ds [[primitive |] | error]]; simpl;
    rewrite ?app_nil_r; reflexivity.
Qed.

(** For a type tag that the table neither has nor inherits, it is the
    report of the unknown type. *)
Lemma renderEntity_missing (entitySvgMap : list (string * EntitySvg)) entity entityType
    vertices scene :
  lookup entitySvgMap entityType = None ->
  isInherited entityType = false ->
  renderEntity entitySvgMap entity entityType vertices scene =
    ([{| message := "Unknown entity type: " +++ entityType; context := [entity] |}],
     Return scene).
Proof.
  intros Hmap Hname. unfold renderEntity, tryBlock.
  rewrite (member_missing _ _ Hmap Hname). reflexivity.
Qed.

(** A fault of the interpreter is caught: one diagnostic with the record
    is added to those of the interpreter, and the scene is as before. *)
Lemma renderEntity_fault (entitySvgMap : list (string * EntitySvg)) entity entityType
    vertices scene (entitySvg : EntitySvg) ds error :
  lookup entitySvgMap entityType = Some entitySvg ->
  entitySvg entity vertices = (ds, Throw error) ->
  renderEntity entitySvgMap entity entityType vertices scene =
    (ds ++ [errorOccurred error entity], Return scene).
Proof.
  intros Hmap Hrun. rewrite (renderEntity_own _ _ _ _ _ _ Hmap). simpl. rewrite Hrun.
  reflexivity.
Qed.

Lemma renderAll_returns entitySvgMap groups :
  forall scene, exists ds scene', renderAll entitySvgMap groups scene = (ds, Return scene').
Proof.
  induction groups as [| [[entity entityType] vertices] rest IH]; intros scene; simpl.
  - eexists; eexists; reflexivity.
  - destruct (renderEntity_returns entitySvgMap entity entityType vertices scene)
      as (ds & scene1 & ->).
    destruct (IH scene1) as (ds' & scene2 & H2).
    simpl. rewrite H2. eexists; eexists; reflexivity.
Qed.

Lemma renderAll_app entitySvgMap groups1 groups2 :
  forall scene,
    renderAll entitySvgMap (groups1 ++ groups2) scene =
    (scene' <~ renderAll entitySvgMap groups1 scene ;;
     renderAll entitySvgMap groups2 scene').
Proof.
  induction groups1 as [| [[entity entityType] vertices] rest IH]; intros scene; simpl.
  - destruct (renderAll entitySvgMap groups2 scene); reflexivity.
  - destruct (renderEntity_returns entitySvgMap entity entityType vertices scene)
      as (ds & scene1 & ->).
    simpl. rewrite IH.
    destruct (renderAll_returns entitySvgMap rest scene1) as (ds1 & scene2 & ->).
    simpl.
    destruct (renderAll entitySvgMap groups2 scene2) as [ds2 r].
    rewrite app_assoc. reflexivity.
Qed.

(** The loop hands every dispatched entity to [renderEntity], in order. *)
Lemma entitiesLoop_renderAll entitySvgMap entities :
  forall skip scene,
    entitiesLoop entitySvgMap skip entities scene =
    renderAll entitySvgMap (dispatched skip entities) scene.
Proof.
  induction entities as [| entity following IH]; intros skip scene; simpl.
  - reflexivity.
  - destruct skip as [| k]; [| apply IH].
    destruct (getGroupCodeValue entity 0) as [entityType |]; [| apply IH].
    destruct (truthyString entityType); [| apply IH].
    simpl. apply bindE_ext. intros scene'. apply IH.
Qed.

Lemma entitiesSvg_unfold platform depth dxf entities options :
  entitiesSvg platform depth dxf entities options =
  (scene <~
     match entities with
     | Some list =>
         renderAll (entitySvgMapAt platform depth dxf options) (dispatched O list) emptyScene
     | None => ret emptyScene
     end ;;
   ret (s scene, boundingBox scene)).
Proof.
  destruct depth; simpl; unfold entitySvgMapAt;
    destruct entities; try rewrite entitiesLoop_renderAll; reflexivity.
Qed.

Lemma entitiesSvg_returns platform depth dxf entities options :
  exists ds scene,
    entitiesSvg platform depth dxf entities options = (ds, Return scene).
Proof.
  rewrite entitiesSvg_unfold. destruct entities as [list |].
  - destruct (renderAll_returns (entitySvgMapAt platform depth dxf options)
                (dispatched O list) emptyScene) as (ds & scene & ->).
    simpl. eexists; eexists; reflexivity.
  - simpl. eexists; eexists; reflexivity.
Qed.

(** ** C1: fault isolation *)

(** The record of type [constructor] is rendered as itself: its first
    group code is written as markup, and the next two give the extents. *)
Lemma constructor_renders_the_record platform depth userOptions :
  createSvgContents platform depth Samples.oneConstructor userOptions =
    ([], Return ("0,constructor",
                 {| bbox_x := ofZ 10; bbox_y := ofZ 20;
                    bbox_w := ofZ 40; bbox_h := ofZ 50 |})).
Proof. destruct depth; vm_compute; reflexivity. Qed.

(** C1.  The claim fails for an entity list that holds one record of type
    [toString].  The table of interpreters has no entry of that name, and
    the lookup finds the method that the table inherits from
    [Object.prototype]; its call returns the string "[object Undefined]",
    of which the scene assembler appends the first character to the markup
    before the next statement faults.  The fault is caught and reported
    with the record, and the record adds no coordinates; but it is not
    omitted, since the markup holds the bracket.  The same happens to every
    record of that type, whatever the document, the other group codes of
    the record and the scene so far. *)
Theorem fault_after_the_call_leaves_markup :
  (forall platform depth userOptions,
     createSvgContents platform depth Samples.oneToString userOptions =
       ([errorOccurred "TypeError: svg[1].filter is not a function" Samples.typeToString],
        Return ("[", degenerateBox))) /\
  (forall platform depth dxf options entity vertices scene,
     renderEntity (entitySvgMapAt platform depth dxf options) entity "toString" vertices
       scene =
       ([errorOccurred "TypeError: svg[1].filter is not a function" entity],
        Return (withMarkup scene "["))).
Proof.
  split.
  - intros platform depth userOptions. destruct depth; vm_compute; reflexivity.
  - intros platform depth dxf options entity vertices scene. destruct depth; reflexivity.
Qed.

(** ** C2: a numeric field beyond the sanity bound *)

Lemma dollar_number_exceeds record groupCode defaultValue :
  exceedsBound record groupCode = true ->
  dollar_number record groupCode defaultValue =
    Throw (invalidGroupCode groupCode (toNumber (getGroupCodeValue record groupCode))).
Proof.
  unfold exceedsBound, dollar_number. intros H.
  destruct (toNumber (getGroupCodeValue record groupCode)) eqn:E.
  - simpl isNaN. cbv iota. rewrite H. reflexivity.
  - simpl isNaN. cbv iota. rewrite H. reflexivity.
  - vm_compute in H. discriminate H.
  - simpl isNaN. cbv iota. rewrite H. reflexivity.
Qed.

Lemma dollar_number_within record groupCode defaultValue :
  exceedsBound record groupCode = false ->
  exists v, dollar_number record groupCode defaultValue = Return v.
Proof.
  unfold exceedsBound, dollar_number. intros H.
  destruct (isNaN (toNumber (getGroupCodeValue record groupCode))).
  - eexists; reflexivity.
  - rewrite H. eexists; reflexivity.
Qed.

Lemma lookup_LINE platform depth dxf options :
  lookup (entitySvgMapAt platform depth dxf options) "LINE" = Some (LINE dxf options).
Proof. reflexivity. Qed.

(** A line with a field beyond the bound throws the error of the first
    such field, in the order in which [LINE] reads them. *)
Lemma LINE_exceeds dxf options entity vertices groupCode :
  In groupCode [10; 11; 20; 21] ->
  exceedsBound entity groupCode = true ->
  exists first,
    In first [10; 11; 20; 21] /\
    exceedsBound entity first = true /\
    LINE dxf options entity vertices =
      ([], Throw (invalidGroupCode first (toNumber (getGroupCodeValue entity first)))).
Proof.
  intros Hin Hbad. unfold LINE, dollar_numbers, dollar_negates, lift. simpl mapM.
  destruct (exceedsBound entity 10) eqn:E10.
  { exists 10. rewrite (dollar_number_exceeds _ _ None E10). simpl. auto. }
  destruct (dollar_number_within entity 10 None E10) as [x1 ->].
  destruct (exceedsBound entity 11) eqn:E11.
  { exists 11. rewrite (dollar_number_exceeds _ _ None E11). simpl. auto. }
  destruct (dollar_number_within entity 11 None E11) as [x2 ->].
  destruct (exceedsBound entity 20) eqn:E20.
  { exists 20. rewrite (dollar_number_exceeds _ _ None E20). simpl. auto 6. }
  destruct (dollar_number_within entity 20 None E20) as [y1 ->].
  destruct (exceedsBound entity 21) eqn:E21.
  { exists 21. rewrite (dollar_number_exceeds _ _ None E21). simpl. auto 7. }
  exfalso. simpl in Hin.
  destruct Hin as [<- | [<- | [<- | [<- | []]]]]; congruence.
Qed.

(** C2, as the code has it.  The numeric accessor throws the input error
    "group code g is invalid (v)" on a field whose magnitude exceeds 1e6,
    but that error does not leave the conversion: for every document the
    conversion returns a scene; an interpreter that lets the error escape
    is reported by one diagnostic, "Error occurred: Error: group code
    ...", that carries the record, while the scene built so far is kept as
    it is; and so is, in particular, every LINE entity with such a field
    among the four that its interpreter reads. *)
Theorem invalid_number_is_reported :
  (forall record groupCode defaultValue,
     exceedsBound record groupCode = true ->
     dollar_number record groupCode defaultValue =
       Throw (invalidGroupCode groupCode (toNumber (getGroupCodeValue record groupCode))))
  /\
  (forall platform depth dxf userOptions,
     exists ds scene,
       createSvgContents platform depth dxf userOptions = (ds, Return scene))
  /\
  (forall (entitySvgMap : list (string * EntitySvg)) entity entityType vertices scene
          (entitySvg : EntitySvg) ds groupCode value,
     lookup entitySvgMap entityType = Some entitySvg ->
     entitySvg entity vertices = (ds, Throw (invalidGroupCode groupCode value)) ->
     renderEntity entitySvgMap entity entityType vertices scene =
       (ds ++ [errorOccurred (invalidGroupCode groupCode value) entity], Return scene))
  /\
  (forall platform depth dxf options entity vertices scene groupCode,
     In groupCode [10; 11; 20; 21] ->
     exceedsBound entity groupCode = true ->
     exists first,
       In first [10; 11; 20; 21] /\
       exceedsBound entity first = true /\
       renderEntity (entitySvgMapAt platform depth dxf options) entity "LINE" vertices scene =
         ([errorOccurred
             (invalidGroupCode first (toNumber (getGroupCodeValue entity first))) entity],
          Return scene)).
Proof.
  split; [exact dollar_number_exceeds |].
  split; [| split].
  - intros platform depth dxf userOptions. apply entitiesSvg_returns.
  - intros entitySvgMap entity entityType vertices scene entitySvg ds groupCode value
           Hmap Hrun.
    exact (renderEntity_fault entitySvgMap entity entityType vertices scene entitySvg ds _
             Hmap Hrun).
  - intros platform depth dxf options entity vertices scene groupCode Hin Hbad.
    destruct (LINE_exceeds dxf options entity vertices groupCode Hin Hbad)
      as (first & Hfirst & Hexceeds & Hline).
    exists first. split; [exact Hfirst |]. split; [exact Hexceeds |].
    exact (renderEntity_fault _ entity "LINE" vertices scene _ [] _
             (lookup_LINE platform depth dxf options) Hline).
Qed.

(** The corrupt line is reported and the conversion returns the empty
    scene. *)
Lemma invalid_number_is_reported_witness :
  exceedsBound Samples.corruptLine 10 = true /\
  dollar_number Samples.corruptLine 10 None =
    Throw "Error: group code 10 is invalid (2000000)" /\
  renderEntity
    (entitySvgMapAt Samples.barePlatform 1 Samples.oneCorruptLine
       (resolveOptions Samples.barePlatform None))
    Samples.corruptLine "LINE" [] emptyScene =
    ([errorOccurred "Error: group code 10 is invalid (2000000)" Samples.corruptLine],
     Return emptyScene).
Proof.
  destruct invalid_number_is_reported as (Hnumber & _ & _ & Hline).
  split; [reflexivity |]. split.
  - rewrite (Hnumber Samples.corruptLine 10 None eq_refl). reflexivity.
  - destruct (Hline Samples.barePlatform 1%nat Samples.oneCorruptLine
                (resolveOptions Samples.barePlatform None)
                Samples.corruptLine [] emptyScene 10 (or_introl eq_refl) eq_refl)
      as (first & Hfirst & Hexceeds & H).
    destruct Hfirst as [<- | [<- | [<- | [<- | []]]]];
      try (vm_compute in Hexceeds; discriminate Hexceeds).
    rewrite H. vm_compute. reflexivity.
Defined.

(** C2 as stated fails: the document holds a line whose group 10 exceeds
    1e6, and the conversion still returns a scene (the empty one), with the
    error as a diagnostic. *)
Lemma invalid_number_does_not_abort :
  exceedsBound Samples.corruptLine 10 = true /\
  forall platform depth userOptions,
    createSvgContents platform depth Samples.oneCorruptLine userOptions =
      ([errorOccurred "Error: group code 10 is invalid (2000000)" Samples.corruptLine],
       Return ("", degenerateBox)).
Proof.
  split; [reflexivity |].
  intros platform depth userOptions. destruct depth; vm_compute; reflexivity.
Qed.

(** ** C3: normalisation of dash patterns *)

Lemma even_or_odd_length {A : Type} (l : list A) :
  let n := Z.of_nat (List.length l) in
  ((n =? 0) || (n mod 2 =? 1) = true -> l = [] \/ Nat.odd (List.length l) = true) /\
  ((n =? 0) || (n mod 2 =? 1) = false -> l <> [] /\ Nat.even (List.length l) = true).
Proof.
  intros n. subst n.
  rewrite <- Nat.negb_even.
  destruct (Nat.even (List.length l)) eqn:E.
  - apply Nat.even_spec in E. destruct E as [k Hk].
    assert (Hmod : Z.of_nat (List.length l) mod 2 = 0).
    { rewrite Hk, Nat2Z.inj_mul, Z.mul_comm. apply Z.mod_mul. lia. }
    rewrite Hmod. simpl.
    destruct l as [| a l'].
    + simpl. split; [auto | discriminate].
    + split.
      * intros H. exfalso. simpl List.length in H.
        rewrite orb_false_r in H. apply Z.eqb_eq in H. lia.
      * intros _. split; [discriminate | reflexivity].
  - assert (Hodd : Nat.odd (List.length l) = true)
      by (rewrite <- Nat.negb_even, E; reflexivity).
    apply Nat.odd_spec in Hodd. destruct Hodd as [k Hk].
    assert (Hmod : Z.of_nat (List.length l) mod 2 = 1).
    { rewrite Hk, Nat2Z.inj_add, Nat2Z.inj_mul, Z.add_comm, Z.mul_comm.
      rewrite Z.mod_add by lia. reflexivity. }
    rewrite Hmod. simpl. rewrite orb_true_r.
    split; [intros _; right; reflexivity | discriminate].
Qed.

(** C3, as the code has it.  The normalised dash pattern of every raw
    pattern is empty or of odd length: an empty or odd-length raw pattern
    is kept; an even-length one that starts with the segment "0" loses
    that segment and gains nothing; any other even-length one gains a
    trailing "0". *)
Theorem dasharray_is_empty_or_odd (raw : list string) :
  let normal := normalizedDasharray raw in
  (normal = [] \/ Nat.odd (List.length normal) = true) /\
  (raw = [] \/ Nat.odd (List.length raw) = true -> normal = raw) /\
  (forall rest, raw = "0" :: rest -> Nat.even (List.length raw) = true -> normal = rest) /\
  (raw <> [] -> Nat.even (List.length raw) = true -> hd_error raw <> Some "0" ->
   normal = raw ++ ["0"]).
Proof.
  intros normal. subst normal. unfold normalizedDasharray.
  destruct (even_or_odd_length raw) as [Hkeep Hchange].
  destruct ((Z.of_nat (List.length raw) =? 0) || (Z.of_nat (List.length raw) mod 2 =? 1))
    eqn:E.
  - specialize (Hkeep eq_refl).
    split; [exact Hkeep |]. split; [reflexivity |]. split.
    + intros rest -> Heven. exfalso.
      destruct Hkeep as [H | H]; [discriminate H |].
      rewrite <- Nat.negb_even, Heven in H. discriminate H.
    + intros Hne Heven _. exfalso.
      destruct Hkeep as [H | H]; [contradiction |].
      rewrite <- Nat.negb_even, Heven in H. discriminate H.
  - destruct (Hchange eq_refl) as [Hne Heven].
    destruct raw as [| first rest]; [contradiction |].
    simpl hd_error. unfold optionEqb.
    destruct (String.eqb first "0") eqn:Efirst.
    + apply String.eqb_eq in Efirst. subst first. simpl tl.
      split.
      * right. simpl List.length in Heven. rewrite Nat.even_succ in Heven. exact Heven.
      * split.
        { intros [H | H]; [discriminate H |].
          rewrite <- Nat.negb_even, Heven in H. discriminate H. }
        split.
        { intros rest' Heq _. injection Heq as <-. reflexivity. }
        { intros _ _ H. exfalso. apply H. reflexivity. }
    + split.
      * right. rewrite length_app, Nat.add_comm. simpl Nat.add.
        rewrite Nat.odd_succ. exact Heven.
      * split.
        { intros [H | H]; [discriminate H |].
          rewrite <- Nat.negb_even, Heven in H. discriminate H. }
        split.
        { intros rest' Heq _. injection Heq as -> _.
          rewrite String.eqb_refl in Efirst. discriminate Efirst. }
        { intros _ _ _. reflexivity. }
Qed.

(** The two even-length samples: the pattern that starts with a gap loses
    its zero, the dashed pattern gains one; both end with odd length. *)
Lemma dasharray_is_empty_or_odd_witness :
  normalizedDasharray (_strokeDasharray Samples.gapFirst) = ["1"] /\
  normalizedDasharray (_strokeDasharray Samples.dashed) = ["0.5"; "0.25"; "0"].
Proof.
  split.
  - destruct (dasharray_is_empty_or_odd (_strokeDasharray Samples.gapFirst))
      as (_ & _ & H & _).
    exact (H ["1"] eq_refl eq_refl).
  - destruct (dasharray_is_empty_or_odd (_strokeDasharray Samples.dashed))
      as (_ & _ & _ & H).
    apply H; [discriminate | reflexivity | discriminate].
Defined.

(** C3 as stated fails: the raw pattern (0, 1) has even length and starts
    with zero; its normal form is the single segment 1, of odd length, and
    not the rotation (1, 0); that is also the dash array that the linetype
    map records for it. *)
Lemma dasharray_of_even_pattern_is_odd :
  _strokeDasharray Samples.gapFirst = ["0"; "1"] /\
  normalizedDasharray ["0"; "1"] = ["1"] /\
  normalizedDasharray ["0"; "1"] <> ["1"; "0"] /\
  Nat.even (List.length (normalizedDasharray ["0"; "1"])) = false /\
  ltypeMap
    {| HEADER := None;
       TABLES := Some {| LAYER := None; LTYPE := Some [Samples.gapFirst]; DIMSTYLE := None |};
       BLOCKS := None; ENTITIES := None |}
    = [("DOT", "1")].
Proof.
  repeat split; try reflexivity. discriminate.
Qed.

(** ** C4: the tolerance suffix of a dimension text *)

(** A decimal numeral that reads back as a positive number is positive. *)
Lemma roundDecimal_positive z e10 m e :
  SFeqb (roundDecimal false z e10) (S754_finite false m e) = true -> 0 < z.
Proof.
  destruct z as [| p | p]; simpl; intros H; [discriminate H | lia | discriminate H].
Qed.

Lemma shortestDigits_positive fuel :
  forall k m e num den n,
    0 < snd (shortestDigits fuel k (S754_finite false m e) num den n).
Proof.
  induction fuel as [| fuel IH]; intros k m e num den n.
  - simpl. lia.
  - cbn [shortestDigits].
    destruct (if 0 <=? k - n then (num * 10 ^ (k - n), den) else (num, den * 10 ^ (n - k)))
      as [a b].
    destruct (SFeqb (roundDecimal false (a / b) (n - k)) (S754_finite false m e)) eqn:Elo;
    destruct (SFeqb (roundDecimal false (a / b + 1) (n - k)) (S754_finite false m e)) eqn:Ehi;
    try apply roundDecimal_positive in Elo; try apply roundDecimal_positive in Ehi.
    + destruct (2 * (a mod b) ?= b); [destruct (Z.even (a / b)) | |];
        try destruct (a / b + 1 =? 10 ^ k); simpl; lia.
    + simpl; lia.
    + destruct (a / b + 1 =? 10 ^ k); simpl; lia.
    + apply IH.
Qed.

(** The numeral of a positive integer starts with a digit other than 0. *)
Lemma stringOfZ_leading_digit p :
  exists c rest, stringOfZ (Z.pos p) = String c rest /\ c <> "0"%char.
Proof.
  unfold stringOfZ. simpl.
  assert (Hnorm : Decimal.unorm (Pos.to_uint p) = Pos.to_uint p).
  { rewrite <- (DecimalPos.Unsigned.to_of (Pos.to_uint p)), DecimalPos.Unsigned.of_to.
    reflexivity. }
  pose proof (DecimalPos.Unsigned.to_uint_nonzero p) as Hnz.
  pose proof (DecimalPos.Unsigned.to_uint_nonnil p) as Hnn.
  assert (Hhead : forall d, Pos.to_uint p <> Decimal.D0 d).
  { intros d Hd.
    destruct (Decimal.nzhead (Pos.to_uint p)) eqn:E;
      unfold Decimal.unorm in Hnorm; rewrite E in Hnorm;
      try (rewrite <- Hnorm in Hd; discriminate Hd).
    - apply Hnz. symmetry. exact Hnorm.
    - apply (DecimalFacts.nzhead_nonzero (Pos.to_uint p) u). exact E. }
  destruct (Pos.to_uint p) as [| d | d | d | d | d | d | d | d | d | d] eqn:E;
    try (eexists; eexists; split; [reflexivity | discriminate]).
  all: exfalso; first [apply Hnn; reflexivity | apply (Hhead d); reflexivity].
Qed.

Lemma formatDigits_not_zero n p : formatDigits n (Z.pos p) <> "0".
Proof.
  unfold formatDigits.
  destruct (stringOfZ_leading_digit p) as (c & rest & -> & Hc).
  set (k := Z.of_nat (String.length (String c rest))).
  assert (headed : forall tail, String c rest +++ tail <> "0").
  { intros tail H. simpl in H. injection H as H _. contradiction. }
  destruct ((k <=? n) && (n <=? 21)); [apply headed |].
  destruct ((0 <? n) && (n <=? 21)) eqn:E.
  - apply andb_prop in E. destruct E as [E _]. apply Z.ltb_lt in E.
    destruct (Z.to_nat n) as [| n'] eqn:En; [lia |].
    change (substring 0 (S n') (String c rest)) with (String c (substring 0 n' rest)).
    simpl. intros H. injection H as H _. contradiction.
  - destruct ((-6 <? n) && (n <=? 0)).
    + simpl. discriminate.
    + destruct (k =? 1); [apply headed |].
      change (substring 0 1 (String c rest)) with (String c (substring 0 0 rest)).
      simpl. intros H. injection H as H _. contradiction.
Qed.

(** The text of a finite number other than zero: a minus sign when it is
    negative, then a numeral that is not "0". *)
Lemma numberToString_finite sg m e :
  exists numeral,
    numberToString (S754_finite sg m e) = (if sg then "-" else "") +++ numeral /\
    numeral <> "0".
Proof.
  unfold numberToString.
  destruct (if 0 <=? e then (Z.pos m * 2 ^ e, 1) else (Z.pos m, 2 ^ (- e))) as [num den].
  pose proof (shortestDigits_positive 17 1 m e num den (decimalExponent num den)) as Hpos.
  destruct (shortestDigits 17 1 (S754_finite false m e) num den (decimalExponent num den))
    as [n d].
  simpl in Hpos. destruct d as [| p | p]; try lia.
  exists (formatDigits n (Z.pos p)). split; [reflexivity | apply formatDigits_not_zero].
Qed.

Lemma toleranceString_never_signed_zero x :
  toleranceString x <> "+0" /\ toleranceString x <> "-0".
Proof.
  unfold toleranceString.
  destruct x as [sg | sg | | sg m e].
  - destruct sg; split; discriminate.
  - destruct sg; split; discriminate.
  - split; discriminate.
  - destruct (numberToString_finite sg m e) as (numeral & -> & Hnumeral).
    destruct sg.
    + change (gt (S754_finite true m e) zero) with false.
      change (lt (S754_finite true m e) zero) with true.
      cbv iota. simpl. split; [discriminate |].
      intros H. injection H as H. contradiction.
    + change (gt (S754_finite false m e) zero) with true.
      cbv iota. simpl. split; [| discriminate].
      intros H. injection H as H. contradiction.
Qed.

(** C4, as the code has it.  For every dimension with tolerance enabled
    (the text of a dimension without a template being the value, rounded,
    with its tolerance):
    when plus and minus are both zero or unset (NaN), the text is the
    value alone; when plus equals minus and is not zero, the value is
    followed by two blanks and "±p"; when they differ and one of them is
    neither zero nor NaN, it is followed by two blanks and the stack
    [{\S a^b;}] of the rendering [a] of plus over the rendering [b] of the
    negated minus.  A component renders as "+v" when it is positive, as
    its own text (which carries the minus sign) when it is negative, and
    as " 0", a blank and a zero, when it is zero or NaN: never as "+0" or
    "-0". *)
Theorem tolerance_suffix (value : number) (styles : DimStyles) :
  truthy (DIMTOL styles) = true ->
  let p := DIMTP styles in
  let n := DIMTM styles in
  let text := valueWithTolerance value styles in
  (truthy p = false -> truthy n = false -> text = numberToString value) /\
  (strictEq p n = true -> strictEq p zero = false ->
   text = numberToString value +++ "  ±" +++ numberToString p) /\
  (strictEq p n = false -> truthy p || truthy n = true ->
   text = numberToString value +++ "  {\S" +++ toleranceString p +++ "^" +++
          toleranceString (neg n) +++ ";}") /\
  (forall x,
     (gt x zero = true -> toleranceString x = "+" +++ numberToString x) /\
     (lt x zero = true ->
      exists numeral, toleranceString x = "-" +++ numeral /\ numeral <> "0") /\
     (truthy x = false -> toleranceString x = " 0") /\
     toleranceString x <> "+0" /\ toleranceString x <> "-0") /\
  (forall measurement dimension savedValue,
     dollar_number dimension 42 (Some (ofZ (-1))) = Return savedValue ->
     getGroupCodeValue dimension 1 = None ->
     dimensionValueToMText measurement dimension styles =
       Return
         (valueWithTolerance
            (round (if negb (strictEq savedValue (ofZ (-1))) then savedValue
                    else mul measurement (DIMLFAC styles))
                   (DIMDEC styles))
            styles)).
Proof.
  intros Htol p n text.
  assert (Htext :
    text =
      if truthy p || truthy n then
        if strictEq p n then numberToString value +++ "  ±" +++ numberToString p
        else numberToString value +++ "  {\S" +++ toleranceString p +++ "^" +++
             toleranceString (neg n) +++ ";}"
      else numberToString value).
  { subst text. unfold valueWithTolerance. rewrite Htol. reflexivity. }
  split; [| split; [| split; [| split]]].
  - intros Hp Hn. rewrite Htext, Hp, Hn. reflexivity.
  - intros Heq Hnz.
    assert (Hp : truthy p = true).
    { destruct p as [sg | sg | | sg m e]; try reflexivity.
      - destruct sg; discriminate Hnz.
      - destruct n; discriminate Heq. }
    rewrite Htext, Hp, Heq. reflexivity.
  - intros Hneq Hsome. rewrite Htext, Hsome, Hneq. reflexivity.
  - intros x. split; [| split; [| split]].
    + intros H. unfold toleranceString. rewrite H. reflexivity.
    + intros H. unfold toleranceString.
      destruct x as [sg | sg | | sg m e]; try (destruct sg; discriminate H).
      * destruct sg; [| discriminate H]. exists "Infinity". split; [reflexivity | discriminate].
      * discriminate H.
      * destruct sg; [| discriminate H].
        destruct (numberToString_finite true m e) as (numeral & -> & Hnumeral).
        exists numeral. split; [reflexivity | exact Hnumeral].
    + intros H. destruct x as [sg | sg | | sg m e]; try discriminate H.
      * destruct sg; reflexivity.
      * reflexivity.
    + apply toleranceString_never_signed_zero.
  - intros measurement dimension savedValue Hsaved Htemplate.
    unfold dimensionValueToMText. rewrite Hsaved, Htemplate. reflexivity.
Qed.

(** Plus 0.1 over minus 0.2, equal tolerances of 0.1, and no tolerance. *)
Lemma tolerance_suffix_witness :
  valueWithTolerance (ofZ 5) (Samples.tolerances (stringToNumber "0.1") (stringToNumber "0.2"))
    = "5  {\S+0.1^-0.2;}" /\
  valueWithTolerance (ofZ 5) (Samples.tolerances (stringToNumber "0.1") (stringToNumber "0.1"))
    = "5  ±0.1" /\
  valueWithTolerance (ofZ 5) (Samples.tolerances zero NaN) = "5".
Proof.
  split; [| split].
  - destruct (tolerance_suffix (ofZ 5)
                (Samples.tolerances (stringToNumber "0.1") (stringToNumber "0.2")) eq_refl)
      as (_ & _ & H & _).
    rewrite (H eq_refl eq_refl). vm_compute. reflexivity.
  - destruct (tolerance_suffix (ofZ 5)
                (Samples.tolerances (stringToNumber "0.1") (stringToNumber "0.1")) eq_refl)
      as (_ & H & _).
    rewrite (H eq_refl eq_refl). vm_compute. reflexivity.
  - destruct (tolerance_suffix (ofZ 5) (Samples.tolerances zero NaN) eq_refl)
      as (H & _).
    rewrite (H eq_refl eq_refl). vm_compute. reflexivity.
Defined.

(** C4 as stated fails.  With plus 1 and minus 0 the zero component is
    rendered " 0", with a leading blank, and not "0"; with plus 0.1 and
    minus -0.2 the lower component is rendered "+0.2" and carries no minus
    sign; with plus 0 and minus unset (NaN) the two differ and the text
    has no suffix at all. *)
Lemma tolerance_zero_is_padded :
  dimensionValueToMText (ofZ 5) [] (Samples.tolerances (ofZ 1) zero)
    = Return "5  {\S+1^ 0;}" /\
  toleranceString zero = " 0" /\
  toleranceString zero <> "0" /\
  dimensionValueToMText (ofZ 5) []
    (Samples.tolerances (stringToNumber "0.1") (stringToNumber "-0.2"))
    = Return "5  {\S+0.1^+0.2;}" /\
  strictEq zero NaN = false /\
  dimensionValueToMText (ofZ 5) [] (Samples.tolerances zero NaN) = Return "5".
Proof.
  repeat split; try (vm_compute; reflexivity). discriminate.
Qed.

(** ** C5: colour resolution *)

(** C5, as the code has it.  The colour of an entity is: the
    inherit-from-context colour when its trimmed colour index is "0",
    whatever its layer; the colour that the configuration resolves its
    index to when the index is present, not empty and neither "0" nor
    "256"; and otherwise (index absent, empty or "256") the resolved
    colour of its layer when the layer map has that layer.  An empty
    result, or no layer, gives the inherit-from-context colour. *)
Theorem color_resolution (dxf : Document) (options : Options) (entity : DxfRecord) :
  let index := dollar_trim entity 62 in
  let layer := lookup (layerMap dxf options) (propertyKey (dollar_trim entity 8)) in
  (index = Some "0" -> color dxf options entity = "currentColor") /\
  (forall i, index = Some i -> i <> "" -> i <> "0" -> i <> "256" ->
     color dxf options entity =
       orCurrentColor (resolveColorIndex options (stringToNumber i))) /\
  (index = None \/ index = Some "" \/ index = Some "256" ->
   forall l, layer = Some l ->
     color dxf options entity = orCurrentColor (layer_color l)) /\
  (index = None \/ index = Some "" \/ index = Some "256" ->
   layer = None -> color dxf options entity = "currentColor").
Proof.
  intros index layer. unfold color, _color. fold index. fold layer.
  split; [| split; [| split]].
  - intros ->. reflexivity.
  - intros i -> Hempty Hzero Hlayer. simpl optionEqb.
    destruct (String.eqb i "0") eqn:E0; [apply String.eqb_eq in E0; contradiction |].
    destruct (String.eqb i "256") eqn:E256; [apply String.eqb_eq in E256; contradiction |].
    destruct i; [contradiction |]. reflexivity.
  - intros [-> | [-> | ->]] l ->; reflexivity.
  - intros [-> | [-> | ->]] ->; reflexivity.
Qed.

(** On layer L of colour index 1: index 5 gives the colour of 5, index 256
    the colour of the layer, index 0 the inherit-from-context colour. *)
Lemma color_resolution_witness :
  color Samples.oneLayer Samples.hashColors Samples.ownColor = "#5" /\
  color Samples.oneLayer Samples.hashColors Samples.byLayer = "#1" /\
  color Samples.oneLayer Samples.hashColors Samples.byBlock = "currentColor".
Proof.
  destruct (color_resolution Samples.oneLayer Samples.hashColors Samples.ownColor)
    as (_ & Hown & _).
  destruct (color_resolution Samples.oneLayer Samples.hashColors Samples.byLayer)
    as (_ & _ & Hlayer & _).
  destruct (color_resolution Samples.oneLayer Samples.hashColors Samples.byBlock)
    as (Hblock & _).
  split; [| split].
  - rewrite (Hown "5" eq_refl); [vm_compute; reflexivity | discriminate ..].
  - rewrite (Hlayer (or_intror (or_intror eq_refl))
               {| layer_color := "#1"; layer_ltype := None |} eq_refl).
    reflexivity.
  - exact (Hblock eq_refl).
Defined.

(** C5 as stated fails: the entity is on layer L, whose resolved colour is
    "#1", and carries the colour index 0; its colour is the
    inherit-from-context colour and not the colour of its layer. *)
Lemma color_index_zero_ignores_layer :
  dollar_trim Samples.byBlock 62 = Some "0" /\
  lookup (layerMap Samples.oneLayer Samples.hashColors)
         (propertyKey (dollar_trim Samples.byBlock 8))
    = Some {| layer_color := "#1"; layer_ltype := None |} /\
  color Samples.oneLayer Samples.hashColors Samples.byBlock = "currentColor" /\
  color Samples.oneLayer Samples.hashColors Samples.byBlock <> "#1".
Proof.
  repeat split; try (vm_compute; reflexivity). discriminate.
Qed.

(** ** C6: the rotation of a multi-line text *)

Lemma MTEXT_angle_from_skip platform mtext skipped codes :
  existsb isRotationCode skipped = false ->
  MTEXT_angle_from platform mtext (skipped ++ codes) =
  MTEXT_angle_from platform mtext codes.
Proof.
  induction skipped as [| [code value] rest IH]; intros H.
  - reflexivity.
  - cbn [existsb] in H. apply orb_false_elim in H. destruct H as [Hhead Hrest].
    unfold isRotationCode in Hhead. cbn [fst] in Hhead.
    apply orb_false_elim in Hhead. destruct Hhead as [Hhead H21].
    apply orb_false_elim in Hhead. destruct Hhead as [H50 H11].
    cbn [app MTEXT_angle_from].
    rewrite H50, H11, H21. apply IH. exact Hrest.
Qed.

Lemma existsb_rev_false {A : Type} (f : A -> bool) (l : list A) :
  existsb f l = false -> existsb f (rev l) = false.
Proof.
  intros H. destruct (existsb f (rev l)) eqn:E; [| reflexivity].
  apply existsb_exists in E. destruct E as (x & Hin & Hx).
  apply in_rev in Hin.
  assert (Ht : existsb f l = true) by (apply existsb_exists; exists x; auto).
  congruence.
Qed.

(** C6, as the code has it.  The rotation of a multi-line text is decided
    by the last group of the record whose code is 50, 11 or 21: a group 50
    gives its value rounded to five decimals; a group 11 gives the angle
    of the vector whose X is its value and whose Y is the first group 12
    of the record; a group 21 gives the angle of the vector whose Y is its
    value and whose X is the first group 11; a record with none of them
    has angle 0.  A group 50 decides the rotation only when no group 11 or
    21 follows it. *)
Theorem rotation_last_group_wins (platform : Platform) (mtext : DxfRecord) :
  (forall before code value after,
     mtext = before ++ (code, value) :: after ->
     existsb isRotationCode after = false ->
     (code = 50 ->
      MTEXT_angle platform mtext =
        Return (orElse (round (stringToNumber value) (ofZ 5)) zero)) /\
     (code = 11 ->
      MTEXT_angle platform mtext =
        (y <- dollar_number mtext 12 None ;;
         Return (yx2angle platform y (stringToNumber value)))) /\
     (code = 21 ->
      MTEXT_angle platform mtext =
        (x <- dollar_number mtext 11 None ;;
         Return (yx2angle platform (stringToNumber value) x)))) /\
  (existsb isRotationCode mtext = false -> MTEXT_angle platform mtext = Return zero).
Proof.
  split.
  - intros before code value after Hsplit Hafter.
    unfold MTEXT_angle.
    assert (Hrev : rev mtext = rev after ++ (code, value) :: rev before).
    { rewrite Hsplit, rev_app_distr. simpl. rewrite <- app_assoc. reflexivity. }
    rewrite Hrev, (MTEXT_angle_from_skip platform mtext _ _ (existsb_rev_false _ _ Hafter)).
    split; [| split]; intros ->; reflexivity.
  - intros Hnone. unfold MTEXT_angle.
    rewrite <- (app_nil_r (rev mtext)).
    rewrite (MTEXT_angle_from_skip platform mtext _ _ (existsb_rev_false _ _ Hnone)).
    reflexivity.
Qed.

(** The stored angle after the direction vector gives 30 degrees; before
    it, the direction along the X axis decides and gives 0. *)
Lemma rotation_last_group_wins_witness :
  MTEXT_angle Samples.barePlatform Samples.directionThenAngle = Return (ofZ 30) /\
  MTEXT_angle Samples.barePlatform Samples.angleThenDirection = Return zero.
Proof.
  destruct (rotation_last_group_wins Samples.barePlatform Samples.directionThenAngle)
    as (Hlast & _).
  destruct (Hlast [(0, "MTEXT"); (11, "1")] 50 "30" [] eq_refl eq_refl) as (H50 & _).
  destruct (rotation_last_group_wins Samples.barePlatform Samples.angleThenDirection)
    as (Hlast' & _).
  destruct (Hlast' [(0, "MTEXT"); (50, "30")] 11 "1" [] eq_refl eq_refl) as (_ & H11 & _).
  split.
  - rewrite (H50 eq_refl). vm_compute. reflexivity.
  - rewrite (H11 eq_refl). vm_compute. reflexivity.
Defined.

(** C6 as stated fails: the record stores the angle 30 in group 50, and a
    group 11 follows it; on every platform the rotation is 0, the angle of
    the direction (1, 0), and not the stored 30.  With the two groups in
    the other order the rotation is 30. *)
Lemma stored_angle_does_not_always_win :
  getGroupCodeValue Samples.angleThenDirection 50 = Some "30" /\
  orElse (round (stringToNumber "30") (ofZ 5)) zero = ofZ 30 /\
  (forall platform, MTEXT_angle platform Samples.angleThenDirection = Return zero) /\
  (forall platform, MTEXT_angle platform Samples.directionThenAngle = Return (ofZ 30)).
Proof.
  repeat split; intros; vm_compute; reflexivity.
Qed.

(** ** C7: ellipses *)

Lemma ELLIPSE_partial platform dxf options entity vertices rad1 rad2 :
  dollar_number entity 41 (Some zero) = Return rad1 ->
  dollar_number entity 42 (Some fullTurn) = Return rad2 ->
  isFullEllipse rad1 rad2 = false ->
  ELLIPSE platform dxf options entity vertices = ([ellipticalArc], Return None).
Proof.
  unfold isFullEllipse, fullTurn. intros H41 H42 Htest.
  unfold ELLIPSE. rewrite H41. cbn [lift bindE]. rewrite H42. cbn [lift bindE].
  rewrite Htest. reflexivity.
Qed.

Lemma ELLIPSE_full platform dxf options entity vertices rad1 rad2 :
  dollar_number entity 41 (Some zero) = Return rad1 ->
  dollar_number entity 42 (Some fullTurn) = Return rad2 ->
  isFullEllipse rad1 rad2 = true ->
  (forall groupCode, In groupCode [10; 20; 11; 21; 40] ->
                     exceedsBound entity groupCode = false) ->
  exists cx cy majorX majorY ratio,
    dollar_numbers entity [10; 20; 11; 21] = Return [cx; cy; majorX; majorY] /\
    dollar_number entity 40 None = Return ratio /\
    ELLIPSE platform dxf options entity vertices =
      ([], Return (Some (fullEllipse platform (lineAttributes dxf options entity)
                           cx cy majorX majorY ratio))).
Proof.
  unfold isFullEllipse, fullTurn. intros H41 H42 Htest Hbound.
  destruct (dollar_number_within entity 10 None (Hbound 10 ltac:(simpl; auto))) as [cx Hcx].
  destruct (dollar_number_within entity 20 None (Hbound 20 ltac:(simpl; auto))) as [cy Hcy].
  destruct (dollar_number_within entity 11 None (Hbound 11 ltac:(simpl; auto))) as [majorX HmX].
  destruct (dollar_number_within entity 21 None (Hbound 21 ltac:(simpl; auto))) as [majorY HmY].
  destruct (dollar_number_within entity 40 None (Hbound 40 ltac:(simpl; auto 6))) as [ratio Hratio].
  assert (Hcenter : dollar_numbers entity [10; 20; 11; 21] = Return [cx; cy; majorX; majorY]).
  { unfold dollar_numbers. cbn [mapM]. rewrite Hcx, Hcy, HmX, HmY. reflexivity. }
  exists cx, cy, majorX, majorY, ratio.
  split; [exact Hcenter |]. split; [exact Hratio |].
  unfold ELLIPSE. rewrite H41. cbn [lift bindE]. rewrite H42. cbn [lift bindE].
  rewrite Htest, Hcenter. cbn [bind]. rewrite Hratio. reflexivity.
Qed.

(** C7, as the code has it.  For every ellipse record whose start and end
    parameters (groups 41 and 42, by default 0 and 2 pi) pass the numeric
    accessor: when the start is within 1/64 of 0 and the end within 1/64 of
    2 pi, and the centre, the major axis and the ratio pass the accessor
    too, the full ellipse is produced, without a diagnostic; for every
    other start and end, the interpreter reports "Elliptical arc cannot be
    rendered yet." once and returns nothing: no primitive, no coordinate,
    no error. *)
Theorem ellipse_rendered_iff_full (platform : Platform) (dxf : Document)
    (options : Options) (entity : DxfRecord) (vertices : list DxfRecord)
    (rad1 rad2 : number) :
  dollar_number entity 41 (Some zero) = Return rad1 ->
  dollar_number entity 42 (Some fullTurn) = Return rad2 ->
  (isFullEllipse rad1 rad2 = true ->
   (forall groupCode, In groupCode [10; 20; 11; 21; 40] ->
                      exceedsBound entity groupCode = false) ->
   exists cx cy majorX majorY ratio,
     dollar_numbers entity [10; 20; 11; 21] = Return [cx; cy; majorX; majorY] /\
     dollar_number entity 40 None = Return ratio /\
     ELLIPSE platform dxf options entity vertices =
       ([], Return (Some (fullEllipse platform (lineAttributes dxf options entity)
                            cx cy majorX majorY ratio)))) /\
  (isFullEllipse rad1 rad2 = false ->
   ELLIPSE platform dxf options entity vertices = ([ellipticalArc], Return None)).
Proof.
  intros H41 H42. split.
  - intros Htest Hbound.
    exact (ELLIPSE_full platform dxf options entity vertices rad1 rad2 H41 H42 Htest Hbound).
  - intros Htest.
    exact (ELLIPSE_partial platform dxf options entity vertices rad1 rad2 H41 H42 Htest).
Qed.

(** The ellipse swept from 0 to 2 pi is rendered; the one swept from 0 to
    pi is reported. *)
Lemma ellipse_rendered_iff_full_witness :
  (exists primitive,
     ELLIPSE Samples.barePlatform (Samples.document None None)
       (resolveOptions Samples.barePlatform None)
       (Samples.ellipse "0" "6.283185307179586") [] = ([], Return (Some primitive))) /\
  ELLIPSE Samples.barePlatform (Samples.document None None)
    (resolveOptions Samples.barePlatform None)
    (Samples.ellipse "0" "3.141592653589793") [] = ([ellipticalArc], Return None).
Proof.
  split.
  - destruct (ellipse_rendered_iff_full Samples.barePlatform (Samples.document None None)
                (resolveOptions Samples.barePlatform None)
                (Samples.ellipse "0" "6.283185307179586") [] zero fullTurn
                eq_refl eq_refl) as (Hfull & _).
    destruct (Hfull eq_refl) as (cx & cy & majorX & majorY & ratio & _ & _ & H).
    + intros groupCode Hin. simpl in Hin.
      destruct Hin as [<- | [<- | [<- | [<- | [<- | []]]]]]; reflexivity.
    + eexists. exact H.
  - destruct (ellipse_rendered_iff_full Samples.barePlatform (Samples.document None None)
                (resolveOptions Samples.barePlatform None)
                (Samples.ellipse "0" "3.141592653589793") [] zero Math_PI
                eq_refl eq_refl) as (_ & Hpartial).
    exact (Hpartial eq_refl).
Defined.

(** C7 as stated fails.  The sweep from 2 pi to 4 pi spans exactly one
    full turn, and the ellipse is reported as unsupported; the sweep from
    0 to 6.27 is partial (2 pi is more than 6.28), and the ellipse is
    rendered as a full one, without a diagnostic; and the ellipse whose
    start parameter exceeds the sanity bound is not reported as
    unsupported: its interpreter throws. *)
Lemma ellipse_sweep_is_not_the_test :
  sub (stringToNumber "12.566370614359172") (stringToNumber "6.283185307179586") = fullTurn /\
  (forall platform dxf options,
     ELLIPSE platform dxf options
       (Samples.ellipse "6.283185307179586" "12.566370614359172") []
       = ([ellipticalArc], Return None)) /\
  lt (stringToNumber "6.27") fullTurn = true /\
  (forall platform dxf options,
     exists primitive,
       ELLIPSE platform dxf options (Samples.ellipse "0" "6.27") []
         = ([], Return (Some primitive))) /\
  (forall platform dxf options,
     ELLIPSE platform dxf options (Samples.ellipse "2000000" "3") []
       = ([], Throw "Error: group code 41 is invalid (2000000)")).
Proof.
  split; [vm_compute; reflexivity |].
  split; [intros; vm_compute; reflexivity |].
  split; [vm_compute; reflexivity |].
  split; [| intros; vm_compute; reflexivity].
  intros platform dxf options.
  destruct (ELLIPSE_full platform dxf options (Samples.ellipse "0" "6.27") []
              zero (stringToNumber "6.27")) as (cx & cy & majorX & majorY & ratio & _ & _ & H).
  - vm_compute. reflexivity.
  - vm_compute. reflexivity.
  - vm_compute. reflexivity.
  - intros groupCode Hin. simpl in Hin.
    destruct Hin as [<- | [<- | [<- | [<- | [<- | []]]]]]; vm_compute; reflexivity.
  - eexists. exact H.
Qed.

(** ** C8: the extents of a block instance *)

(** What [INSERT] returns when it returns a primitive. *)
Lemma INSERT_returns dxf options nested entity vertices ds markup xs ys :
  INSERT dxf options nested entity vertices = (ds, Return (Some (markup, xs, ys))) ->
  exists x y0 r0 sx sy contents bbox,
    dollar_number entity 10 (Some zero) = Return x /\
    dollar_number entity 20 (Some zero) = Return y0 /\
    dollar_number entity 50 None = Return r0 /\
    dollar_number entity 41 (Some (ofZ 1)) = Return sx /\
    dollar_number entity 42 (Some (ofZ 1)) = Return sy /\
    (exists block,
       INSERT_block dxf entity = Return block /\
       nested block = (ds, Return (contents, bbox))) /\
    markup =
      insertMarkup dxf options entity
        (INSERT_transform x (neg y0) (orElse sx (ofZ 1)) (orElse sy (ofZ 1)) (neg r0))
        contents /\
    xs = remapped x (orElse sx (ofZ 1)) (bbox_x bbox) (bbox_w bbox) /\
    ys = remapped (neg y0) (orElse sy (ofZ 1)) (bbox_y bbox) (bbox_h bbox).
Proof.
  unfold INSERT. intros H.
  destruct (dollar_number entity 10 (Some zero)) as [x | e]; [| discriminate H].
  destruct (dollar_number entity 20 (Some zero)) as [y0 | e]; [| discriminate H].
  destruct (dollar_number entity 50 None) as [r0 | e]; [| discriminate H].
  destruct (dollar_number entity 41 (Some (ofZ 1))) as [sx | e]; [| discriminate H].
  destruct (dollar_number entity 42 (Some (ofZ 1))) as [sy | e]; [| discriminate H].
  cbn [lift bind bindE app] in H.
  destruct (INSERT_block dxf entity) as [block | e]; [| discriminate H].
  cbn [lift bind bindE app] in H.
  destruct (nested block) as [ds' [[contents bbox] | e]] eqn:Hnested;
    [| discriminate H].
  cbn [lift bind bindE app ret] in H. rewrite app_nil_r in H.
  injection H as <- <- <- <-.
  exists x, y0, r0, sx, sy, contents, bbox.
  repeat split; try reflexivity. exists block. split; [reflexivity | exact Hnested].
Qed.

Lemma getGroupCodeValue_withoutRotation entity groupCode :
  groupCode <> 50 ->
  getGroupCodeValue (withoutRotation entity) groupCode = getGroupCodeValue entity groupCode.
Proof.
  intros Hcode. induction entity as [| [code value] rest IH]; [reflexivity |].
  unfold withoutRotation in *. cbn [filter fst].
  destruct (code =? 50) eqn:E50; cbn [negb getGroupCodeValue].
  - apply Z.eqb_eq in E50. subst code.
    destruct (50 =? groupCode) eqn:E; [apply Z.eqb_eq in E; congruence | exact IH].
  - rewrite IH. reflexivity.
Qed.

Lemma same_but_rotation e1 e2 groupCode :
  withoutRotation e1 = withoutRotation e2 ->
  groupCode <> 50 ->
  getGroupCodeValue e1 groupCode = getGroupCodeValue e2 groupCode.
Proof.
  intros Hsame Hcode.
  rewrite <- (getGroupCodeValue_withoutRotation e1 groupCode Hcode),
          <- (getGroupCodeValue_withoutRotation e2 groupCode Hcode), Hsame.
  reflexivity.
Qed.

Lemma dollar_number_same e1 e2 groupCode defaultValue :
  getGroupCodeValue e1 groupCode = getGroupCodeValue e2 groupCode ->
  dollar_number e1 groupCode defaultValue = dollar_number e2 groupCode defaultValue.
Proof. unfold dollar_number. intros ->. reflexivity. Qed.

Lemma INSERT_ignores_rotation dxf options nested e1 e2 v1 v2
    ds1 markup1 xs1 ys1 ds2 markup2 xs2 ys2 :
  withoutRotation e1 = withoutRotation e2 ->
  INSERT dxf options nested e1 v1 = (ds1, Return (Some (markup1, xs1, ys1))) ->
  INSERT dxf options nested e2 v2 = (ds2, Return (Some (markup2, xs2, ys2))) ->
  xs1 = xs2 /\ ys1 = ys2.
Proof.
  intros Hsame H1 H2.
  apply INSERT_returns in H1.
  destruct H1 as (x & y0 & r0 & sx & sy & contents & bbox &
                  Hx & Hy & _ & Hsx & Hsy & Hnested & _ & -> & ->).
  apply INSERT_returns in H2.
  destruct H2 as (x' & y0' & r0' & sx' & sy' & contents' & bbox' &
                  Hx' & Hy' & _ & Hsx' & Hsy' & Hnested' & _ & -> & ->).
  assert (Hcode : forall c, c <> 50 -> getGroupCodeValue e1 c = getGroupCodeValue e2 c)
    by (intros c Hc; exact (same_but_rotation e1 e2 c Hsame Hc)).
  rewrite (dollar_number_same e1 e2 10 _ (Hcode 10 ltac:(discriminate))) in Hx.
  rewrite (dollar_number_same e1 e2 20 _ (Hcode 20 ltac:(discriminate))) in Hy.
  rewrite (dollar_number_same e1 e2 41 _ (Hcode 41 ltac:(discriminate))) in Hsx.
  rewrite (dollar_number_same e1 e2 42 _ (Hcode 42 ltac:(discriminate))) in Hsy.
  assert (Hblock : INSERT_block dxf e1 = INSERT_block dxf e2)
    by (unfold INSERT_block; rewrite (Hcode 2 ltac:(discriminate)); reflexivity).
  destruct Hnested as (block & Hfound & Hnested).
  destruct Hnested' as (block' & Hfound' & Hnested').
  rewrite Hblock in Hfound.
  assert (block = block') by congruence. subst block'.
  assert (x = x') by congruence. assert (y0 = y0') by congruence.
  assert (sx = sx') by congruence. assert (sy = sy') by congruence.
  assert (bbox = bbox') by congruence.
  subst. split; reflexivity.
Qed.

(** C8.  The block B holds the single line from (0,0) to (1,0) and is
    inserted at (100,0) with scale factor 2.  On every platform and
    configuration, the insert finds the line between the delimiters of the
    block; the nested scene has the extents of the line, x from 0 to 1 and
    y = 0; the insert returns the coordinates 100 and 102 in x,
    and -0 and 0 in y, so that the nested line spans (100,0) to (102,0);
    and the scene of the document has the bounding box x = 100, y = -0
    (which is equal to 0 as a number), w = 2, h = 0.  The same holds of the
    insert rotated by 90 degrees.  More generally, whenever an insert
    returns a primitive, its coordinates are those of the nested bounding
    box scaled by the X and Y factors and translated by the insertion
    point, and two inserts that differ only in their groups 50 (the
    rotation) return the same coordinates. *)
Theorem insert_extents_ignore_rotation :
  (forall platform depth userOptions,
     let options := resolveOptions platform userOptions in
     let nested := fun block =>
       entitiesSvg platform depth Samples.oneInsert block options in
     INSERT_block Samples.oneInsert Samples.insertB = Return (Some [Samples.unitLine]) /\
     nested (Some [Samples.unitLine]) =
       ([], Return (Samples.unitLineMarkup,
                    {| bbox_x := zero; bbox_y := negZero;
                       bbox_w := ofZ 1; bbox_h := zero |})) /\
     INSERT Samples.oneInsert options nested Samples.insertB [] =
       ([], Return (Some (Samples.insertB_markup, [ofZ 100; ofZ 102], [negZero; zero]))) /\
     createSvgContents platform (S depth) Samples.oneInsert userOptions =
       ([], Return (Samples.insertB_markup,
                    {| bbox_x := ofZ 100; bbox_y := negZero;
                       bbox_w := ofZ 2; bbox_h := zero |})) /\
     createSvgContents platform (S depth) Samples.oneRotatedInsert userOptions =
       ([], Return (Samples.insertB_rotated_markup,
                    {| bbox_x := ofZ 100; bbox_y := negZero;
                       bbox_w := ofZ 2; bbox_h := zero |}))) /\
  strictEq negZero (ofZ 0) = true /\
  numberToString negZero = "0" /\
  (forall dxf options nested entity vertices ds markup xs ys,
     INSERT dxf options nested entity vertices = (ds, Return (Some (markup, xs, ys))) ->
     exists x y0 sx sy contents bbox,
       dollar_number entity 10 (Some zero) = Return x /\
       dollar_number entity 20 (Some zero) = Return y0 /\
       dollar_number entity 41 (Some (ofZ 1)) = Return sx /\
       dollar_number entity 42 (Some (ofZ 1)) = Return sy /\
       (exists block,
          INSERT_block dxf entity = Return block /\
          nested block = (ds, Return (contents, bbox))) /\
       xs = remapped x (orElse sx (ofZ 1)) (bbox_x bbox) (bbox_w bbox) /\
       ys = remapped (neg y0) (orElse sy (ofZ 1)) (bbox_y bbox) (bbox_h bbox)) /\
  (forall dxf options nested e1 e2 v1 v2 ds1 markup1 xs1 ys1 ds2 markup2 xs2 ys2,
     withoutRotation e1 = withoutRotation e2 ->
     INSERT dxf options nested e1 v1 = (ds1, Return (Some (markup1, xs1, ys1))) ->
     INSERT dxf options nested e2 v2 = (ds2, Return (Some (markup2, xs2, ys2))) ->
     xs1 = xs2 /\ ys1 = ys2).
Proof.
  split; [| split; [| split; [| split]]].
  - intros platform depth userOptions options nested. subst options nested.
    split; [reflexivity |].
    split; [| split; [| split]]; destruct depth; vm_compute; reflexivity.
  - reflexivity.
  - reflexivity.
  - intros dxf options nested entity vertices ds markup xs ys H.
    apply INSERT_returns in H.
    destruct H as (x & y0 & r0 & sx & sy & contents & bbox &
                   Hx & Hy & _ & Hsx & Hsy & Hnested & _ & Hxs & Hys).
    exists x, y0, sx, sy, contents, bbox. repeat split; assumption.
  - exact INSERT_ignores_rotation.
Qed.

(** The plain and the rotated insert of B return the same coordinates. *)
Lemma insert_extents_ignore_rotation_witness :
  withoutRotation Samples.insertB = withoutRotation Samples.insertB_rotated /\
  INSERT Samples.oneInsert Samples.hashColors
    (fun block => entitiesSvg Samples.barePlatform 0 Samples.oneInsert block Samples.hashColors)
    Samples.insertB []
  = ([], Return (Some (Samples.insertB_markup, [ofZ 100; ofZ 102], [negZero; zero]))) /\
  INSERT Samples.oneInsert Samples.hashColors
    (fun block => entitiesSvg Samples.barePlatform 0 Samples.oneInsert block Samples.hashColors)
    Samples.insertB_rotated []
  = ([], Return (Some (Samples.insertB_rotated_markup, [ofZ 100; ofZ 102], [negZero; zero]))) /\
  [ofZ 100; ofZ 102] = [ofZ 100; ofZ 102] /\ [negZero; zero] = [negZero; zero].
Proof.
  destruct insert_extents_ignore_rotation as (_ & _ & _ & _ & Hrotation).
  assert (Hsame : withoutRotation Samples.insertB = withoutRotation Samples.insertB_rotated)
    by reflexivity.
  assert (H1 : INSERT Samples.oneInsert Samples.hashColors
      (fun block => entitiesSvg Samples.barePlatform 0 Samples.oneInsert block Samples.hashColors)
      Samples.insertB [] =
      ([], Return (Some (Samples.insertB_markup, [ofZ 100; ofZ 102], [negZero; zero]))))
    by (vm_compute; reflexivity).
  assert (H2 : INSERT Samples.oneInsert Samples.hashColors
      (fun block => entitiesSvg Samples.barePlatform 0 Samples.oneInsert block Samples.hashColors)
      Samples.insertB_rotated [] =
      ([], Return (Some (Samples.insertB_rotated_markup, [ofZ 100; ofZ 102], [negZero; zero]))))
    by (vm_compute; reflexivity).
  split; [exact Hsame |]. split; [exact H1 |]. split; [exact H2 |].
  exact (Hrotation Samples.oneInsert Samples.hashColors
           (fun block =>
              entitiesSvg Samples.barePlatform 0 Samples.oneInsert block Samples.hashColors)
           Samples.insertB Samples.insertB_rotated [] []
           [] Samples.insertB_markup [ofZ 100; ofZ 102] [negZero; zero]
           [] Samples.insertB_rotated_markup [ofZ 100; ofZ 102] [negZero; zero]
           Hsame H1 H2).
Defined.

(** ** C9: the bounding box of a scene with nothing rendered *)

Lemma string_app_assoc (a b c : string) : (a +++ b) +++ c = a +++ (b +++ c).
Proof. induction a as [| ch a IH]; simpl; [| rewrite IH]; reflexivity. Qed.

Lemma string_app_empty_r (a : string) : a +++ "" = a.
Proof. induction a as [| ch a IH]; simpl; [| rewrite IH]; reflexivity. Qed.








(** ** C10: the insert of a block that the document does not have *)

(** A number within a finite distance of a finite number is finite. *)
Lemma close_is_finite r v c :
  lt (Math_abs (sub r v)) c = true -> isFinite v = true -> isFinite r = true.
Proof.
  destruct r as [sr | sr | | sr mr er]; try reflexivity;
    destruct v as [sv | sv | | sv mv ev]; intros H Hv; try discriminate Hv;
    unfold lt, Math_abs, sub in H; cbn [SFsub SFabs] in H;
    destruct c as [sc | sc | | sc mc ec]; try destruct sc; discriminate H.
Qed.

(** What [$number] returns is finite, unless it is the default value. *)
Lemma dollar_number_finite record groupCode defaultValue v :
  dollar_number record groupCode defaultValue = Return v ->
  isFinite v = true \/
  (isNaN (toNumber (getGroupCodeValue record groupCode)) = true /\
   v = match defaultValue with None => NaN | Some d => d end).
Proof.
  unfold dollar_number. cbv zeta.
  generalize (Math_round (toNumber (getGroupCodeValue record groupCode))) as rounded.
  generalize snapDistance as distance.
  generalize (toNumber (getGroupCodeValue record groupCode)) as value.
  intros value distance rounded.
  destruct (isNaN value) eqn:Enan.
  - intros H. injection H as <-. right. split; reflexivity.
  - destruct (gt (Math_abs value) sanityBound) eqn:Egt; [intros H; discriminate H |].
    intros H. injection H as <-. left.
    assert (Hvalue : isFinite value = true).
    { destruct value as [sg | sg | | sg m e]; try reflexivity.
      - destruct sg; vm_compute in Egt; discriminate Egt.
      - discriminate Enan. }
    destruct (lt (Math_abs (sub rounded value)) distance) eqn:Hclose.
    + exact (close_is_finite rounded value _ Hclose Hvalue).
    + exact Hvalue.
Qed.

Lemma scale_is_finite sx :
  isFinite sx = true ->
  isFinite (orElse sx (ofZ 1)) = true /\ truthy (orElse sx (ofZ 1)) = true.
Proof.
  destruct sx as [sg | sg | | sg m e]; intros H; try discriminate H;
    split; reflexivity.
Qed.

(** The degenerate interval is remapped to no finite coordinate. *)
Lemma remapped_degenerate origin scale :
  isFinite origin = true ->
  isFinite scale = true ->
  truthy scale = true ->
  filter isFinite (remapped origin scale Infinity negInfinity) = [].
Proof.
  unfold remapped.
  destruct origin as [so | so | | so mo eo]; intros Ho; try discriminate Ho;
    destruct scale as [ss | ss | | ss ms es]; intros Hs Ht;
      try discriminate Hs; try discriminate Ht;
      destruct ss; reflexivity.
Qed.

Lemma Math_min_single m : Math_min [m] = m.
Proof.
  destruct m as [sg | sg | | sg mm e]; try reflexivity; destruct sg; reflexivity.
Qed.

Lemma Math_max_single m : Math_max [m] = m.
Proof.
  destruct m as [sg | sg | | sg mm e]; try reflexivity; destruct sg; reflexivity.
Qed.

Lemma entitiesSvg_undefined platform depth dxf options :
  entitiesSvg platform depth dxf None options = ([], Return ("", degenerateBox)).
Proof. destruct depth; reflexivity. Qed.

Lemma lookup_INSERT platform depth dxf options :
  lookup (entitySvgMapAt platform (S depth) dxf options) "INSERT" =
    Some (INSERT dxf options (fun block => entitiesSvg platform depth dxf block options)).
Proof. reflexivity. Qed.

(** The lookup of the block of an insert: nothing is found when the name
    is neither a key of the block mapping nor the name of an inherited
    member; an inherited member is found when the name is one and no block
    has it, and the call of its [slice] throws. *)
Lemma INSERT_block_missing dxf entity :
  lookup (blockMapping dxf) (blockName entity) = None ->
  isInherited (blockName entity) = false ->
  INSERT_block dxf entity = Return None.
Proof.
  unfold INSERT_block, blockMapping, blockName.
  destruct (BLOCKS dxf) as [blocks |]; intros Hmap Hname; [| reflexivity].
  rewrite (member_missing _ _ Hmap Hname). reflexivity.
Qed.

Lemma INSERT_block_inherited dxf blocks entity :
  BLOCKS dxf = Some blocks ->
  lookup blocks (blockName entity) = None ->
  isInherited (blockName entity) = true ->
  INSERT_block dxf entity = Throw "TypeError: _block?.slice is not a function".
Proof.
  unfold INSERT_block, blockName, member. intros -> -> ->. reflexivity.
Qed.

Lemma INSERT_missing platform depth dxf options entity vertices x y0 r0 sx sy :
  INSERT_block dxf entity = Return None ->
  dollar_number entity 10 (Some zero) = Return x ->
  dollar_number entity 20 (Some zero) = Return y0 ->
  dollar_number entity 50 None = Return r0 ->
  dollar_number entity 41 (Some (ofZ 1)) = Return sx ->
  dollar_number entity 42 (Some (ofZ 1)) = Return sy ->
  INSERT dxf options (fun block => entitiesSvg platform depth dxf block options)
         entity vertices =
    ([], Return (Some
       (insertMarkup dxf options entity
          (INSERT_transform x (neg y0) (orElse sx (ofZ 1)) (orElse sy (ofZ 1)) (neg r0)) "",
        remapped x (orElse sx (ofZ 1)) Infinity negInfinity,
        remapped (neg y0) (orElse sy (ofZ 1)) Infinity negInfinity))).
Proof.
  intros Hblock Hx Hy Hr Hsx Hsy.
  unfold INSERT. rewrite Hx, Hy, Hr, Hsx, Hsy, Hblock.
  cbn [lift bind bindE app]. rewrite entitiesSvg_undefined. reflexivity.
Qed.

(** C10, as the code has it.  For every insert record whose block name is
    neither a key of the block mapping nor the name of a member of
    [Object.prototype], and whose numeric fields (groups 10, 20, 50, 41 and
    42) pass the numeric accessor, when the call stack has room for the
    nested call: the interpreter reports nothing and returns a group with
    empty contents; its coordinates, remapped from the degenerate nested
    bounding box, are all infinite or NaN; and the scene assembler appends
    the group to the markup and leaves the running extents as they
    were. *)
Theorem insert_of_missing_block (platform : Platform) (depth : nat) (dxf : Document)
    (options : Options) (entity : DxfRecord) (vertices : list DxfRecord)
    (scene : Scene) (x y0 r0 sx sy : number) :
  lookup (blockMapping dxf) (blockName entity) = None ->
  isInherited (blockName entity) = false ->
  dollar_number entity 10 (Some zero) = Return x ->
  dollar_number entity 20 (Some zero) = Return y0 ->
  dollar_number entity 50 None = Return r0 ->
  dollar_number entity 41 (Some (ofZ 1)) = Return sx ->
  dollar_number entity 42 (Some (ofZ 1)) = Return sy ->
  let markup :=
    insertMarkup dxf options entity
      (INSERT_transform x (neg y0) (orElse sx (ofZ 1)) (orElse sy (ofZ 1)) (neg r0)) "" in
  let xs := remapped x (orElse sx (ofZ 1)) Infinity negInfinity in
  let ys := remapped (neg y0) (orElse sy (ofZ 1)) Infinity negInfinity in
  INSERT dxf options (fun block => entitiesSvg platform depth dxf block options)
         entity vertices = ([], Return (Some (markup, xs, ys))) /\
  filter isFinite xs = [] /\
  filter isFinite ys = [] /\
  renderEntity (entitySvgMapAt platform (S depth) dxf options) entity "INSERT" vertices scene
    = ([], Return (withMarkup scene markup)).
Proof.
  intros Hmap Hname Hx Hy Hr Hsx Hsy markup xs ys.
  pose proof (INSERT_missing platform depth dxf options entity vertices
                x y0 r0 sx sy (INSERT_block_missing dxf entity Hmap Hname)
                Hx Hy Hr Hsx Hsy) as Hinsert.
  fold markup xs ys in Hinsert.
  assert (Hfx : isFinite x = true).
  { destruct (dollar_number_finite _ _ _ _ Hx) as [H | [_ ->]]; [exact H | reflexivity]. }
  assert (Hfy : isFinite (neg y0) = true).
  { destruct (dollar_number_finite _ _ _ _ Hy) as [H | [_ ->]]; [| reflexivity].
    destruct y0; try discriminate H; reflexivity. }
  assert (Hfsx : isFinite sx = true).
  { destruct (dollar_number_finite _ _ _ _ Hsx) as [H | [_ ->]]; [exact H | reflexivity]. }
  assert (Hfsy : isFinite sy = true).
  { destruct (dollar_number_finite _ _ _ _ Hsy) as [H | [_ ->]]; [exact H | reflexivity]. }
  destruct (scale_is_finite sx Hfsx) as [Hsxf Hsxt].
  destruct (scale_is_finite sy Hfsy) as [Hsyf Hsyt].
  assert (Hxs : filter isFinite xs = [])
    by (exact (remapped_degenerate x _ Hfx Hsxf Hsxt)).
  assert (Hys : filter isFinite ys = [])
    by (exact (remapped_degenerate (neg y0) _ Hfy Hsyf Hsyt)).
  split; [exact Hinsert |]. split; [exact Hxs |]. split; [exact Hys |].
  rewrite (renderEntity_own _ _ _ _ _ _ (lookup_INSERT platform depth dxf options)).
  rewrite Hinsert.
  cbn [bindE tryCatch ret app]. unfold addPrimitive, withMarkup.
  rewrite Hxs, Hys, !Math_min_single, !Math_max_single. reflexivity.
Qed.

(** The insert of the block NOWHERE at (5,7) gives an empty group and the
    degenerate bounding box, without a diagnostic. *)
Lemma insert_of_missing_block_witness :
  renderEntity
    (entitySvgMapAt Samples.barePlatform 1 Samples.oneMissingInsert
       (resolveOptions Samples.barePlatform None))
    Samples.insertMissing "INSERT" [] emptyScene =
    ([], Return (withMarkup emptyScene
                   (jsx "g" [("data-5", PString "2F");
                             ("transform", PString "translate(5,-7)")]))) /\
  createSvgContents Samples.barePlatform 1 Samples.oneMissingInsert None =
    ([], Return (jsx "g" [("data-5", PString "2F"); ("transform", PString "translate(5,-7)")],
                 degenerateBox)).
Proof.
  destruct (insert_of_missing_block Samples.barePlatform 0 Samples.oneMissingInsert
              (resolveOptions Samples.barePlatform None) Samples.insertMissing []
              emptyScene (ofZ 5) (ofZ 7) NaN (ofZ 1) (ofZ 1)
              eq_refl eq_refl eq_refl eq_refl eq_refl eq_refl eq_refl)
    as (_ & _ & _ & H).
  split.
  - rewrite H. vm_compute. reflexivity.
  - vm_compute. reflexivity.
Defined.

(** C10 as stated fails: the block NOWHERE is not in the block mapping,
    and the insert, whose group 10 exceeds the sanity bound, is reported
    by a diagnostic and returns no group. *)
Lemma insert_of_missing_block_may_be_reported :
  lookup (blockMapping Samples.oneCorruptMissingInsert)
    (blockName Samples.insertMissingCorrupt) = None /\
  forall platform depth userOptions,
    createSvgContents platform depth Samples.oneCorruptMissingInsert userOptions =
      ([errorOccurred "Error: group code 10 is invalid (2000000)"
          Samples.insertMissingCorrupt],
       Return ("", degenerateBox)).
Proof.
  split; [reflexivity |].
  intros platform depth userOptions. destruct depth; vm_compute; reflexivity.
Qed.

(* ================================================================== *)
(** * Further properties *)
(* ================================================================== *)

(** ** Markup: escaping *)

Lemma replaceAll_app c replacement a b :
  replaceAll c replacement (a +++ b) =
  replaceAll c replacement a +++ replaceAll c replacement b.
Proof.
  induction a as [| x a IH]; simpl; [reflexivity |].
  destruct (Ascii.eqb x c); rewrite IH; [rewrite string_app_assoc |]; reflexivity.
Qed.

(** The four replacements of [escapeHtml] do not interfere: the entity
    that one of them writes is left alone by the later ones. *)
Lemma escapeHtml_cons c rest :
  escapeHtml (String c rest) = escapeCharacter c +++ escapeHtml rest.
Proof.
  unfold escapeHtml, escapeCharacter.
  cbn [replaceAll].
  destruct (Ascii.eqb_spec c "&") as [-> | Hamp].
  { rewrite !replaceAll_app. reflexivity. }
  cbn [replaceAll].
  destruct (Ascii.eqb_spec c "<") as [-> | Hlt].
  { rewrite !replaceAll_app. reflexivity. }
  cbn [replaceAll].
  destruct (Ascii.eqb_spec c ">") as [-> | Hgt].
  { rewrite !replaceAll_app. reflexivity. }
  cbn [replaceAll].
  destruct (Ascii.eqb_spec c (ascii_of_nat 34)) as [-> | Hq]; reflexivity.
Qed.

(** X1.  [escapeHtml], which runs four global replacements one after the
    other, escapes a text character by character: every ampersand, angle
    bracket and double quote of the text becomes its entity, every other
    character is kept, and no entity is escaped a second time. *)
Theorem escapeHtml_character_by_character (s : string) :
  escapeHtml s = escapeEach s.
Proof.
  induction s as [| c rest IH]; [reflexivity |].
  rewrite escapeHtml_cons, IH. reflexivity.
Qed.

Lemma occurs_app c a b : occurs c (a +++ b) = occurs c a || occurs c b.
Proof.
  induction a as [| x a IH]; simpl; [reflexivity |].
  rewrite IH, orb_assoc. reflexivity.
Qed.

Lemma escapeCharacter_clean c :
  occurs "<" (escapeCharacter c) = false /\
  occurs ">" (escapeCharacter c) = false /\
  occurs (ascii_of_nat 34) (escapeCharacter c) = false.
Proof.
  unfold escapeCharacter.
  destruct (Ascii.eqb_spec c "&"); [repeat split; reflexivity |].
  destruct (Ascii.eqb_spec c "<") as [| Hlt]; [repeat split; reflexivity |].
  destruct (Ascii.eqb_spec c ">") as [| Hgt]; [repeat split; reflexivity |].
  destruct (Ascii.eqb_spec c (ascii_of_nat 34)) as [| Hq]; [repeat split; reflexivity |].
  simpl. rewrite !orb_false_r.
  repeat split; apply Ascii.eqb_neq; assumption.
Qed.

(** The text that [escapeHtml] returns holds no angle bracket and no
    double quote, whatever the input. *)
Lemma escapeHtml_clean (s : string) :
  occurs "<" (escapeHtml s) = false /\
  occurs ">" (escapeHtml s) = false /\
  occurs (ascii_of_nat 34) (escapeHtml s) = false.
Proof.
  induction s as [| c rest IH]; [repeat split; reflexivity |].
  rewrite escapeHtml_cons, !occurs_app.
  destruct (escapeCharacter_clean c) as (-> & -> & ->).
  exact IH.
Qed.

(** X2.  A string-valued attribute cannot end its attribute or its
    element.  For a property other than [children] whose value is a
    non-empty string, the loop of [jsx] appends a blank, the key, an equals
    sign and a text between double quotes, and that text holds no angle
    bracket and no double quote, whatever the value. *)
Theorem string_attribute_is_written_escaped (s : string) (children : option PropValue)
    (key value : string) :
  truthyString value = true ->
  String.eqb key "children" = false ->
  exists text,
    jsx_entry (s, children) (key, PString value) =
      (s +++ " " +++ key +++ "=" +++ dq +++ text +++ dq, children) /\
    occurs "<" text = false /\
    occurs ">" text = false /\
    occurs (ascii_of_nat 34) text = false.
Proof.
  intros Hvalue Hkey. exists (escapeHtml value).
  split; [| apply escapeHtml_clean].
  unfold jsx_entry. cbn [truthyValue]. rewrite Hvalue, Hkey. reflexivity.
Qed.

(** A font name that holds a quote and an angle bracket. *)
Lemma string_attribute_is_written_escaped_witness :
  jsx_entry ("<text", None) ("font-family", PString ("A" +++ dq +++ "<B")) =
    ("<text font-family=" +++ dq +++ "A&quot;&lt;B" +++ dq, None).
Proof.
  destruct (string_attribute_is_written_escaped "<text" None "font-family"
              ("A" +++ dq +++ "<B") eq_refl eq_refl) as (text & H & _).
  rewrite H.
  assert (Hrun : jsx_entry ("<text", None) ("font-family", PString ("A" +++ dq +++ "<B")) =
                 ("<text font-family=" +++ dq +++ "A&quot;&lt;B" +++ dq, None))
    by reflexivity.
  rewrite H in Hrun. exact Hrun.
Defined.

(** ** Markup: elements *)

Lemma jsx_entry_falsy acc key value :
  truthyValue value = false -> jsx_entry acc (key, value) = acc.
Proof. intros H. destruct acc as [s children]. simpl. rewrite H. reflexivity. Qed.

Lemma getProp_app before after key :
  getProp (before ++ after) key =
  if hasKey before key then getProp before key else getProp after key.
Proof.
  induction before as [| [k v] before IH]; simpl; [reflexivity |].
  destruct (String.eqb k key); simpl; [reflexivity | exact IH].
Qed.

Lemma getProp_absent props key : hasKey props key = false -> getProp props key = PUndefined.
Proof.
  induction props as [| [k v] props IH]; simpl; [reflexivity |].
  destruct (String.eqb k key); simpl; [discriminate | exact IH].
Qed.

(** X3.  A property whose value is falsy ([undefined], [false], [0], [-0],
    [NaN] or the empty string) leaves no trace in the element that [jsx]
    writes: the markup is that of the properties without it.  (The key is
    taken not to occur again later in the list, as in an object.) *)
Theorem falsy_attribute_is_omitted (type : string) (before after : Props)
    (key : string) (value : PropValue) :
  truthyValue value = false ->
  hasKey after key = false ->
  jsx type (before ++ (key, value) :: after) = jsx type (before ++ after).
Proof.
  intros Hfalsy Hlater. unfold jsx.
  rewrite !fold_left_app. cbn [fold_left]. rewrite (jsx_entry_falsy _ _ _ Hfalsy).
  assert (Hfill : truthyValue (getProp (before ++ (key, value) :: after) "fill") =
                  truthyValue (getProp (before ++ after) "fill")).
  { rewrite !getProp_app. destruct (hasKey before "fill"); [reflexivity |].
    cbn [getProp]. destruct (String.eqb_spec key "fill") as [-> | Hkey]; [| reflexivity].
    rewrite (getProp_absent _ _ Hlater). exact Hfalsy. }
  rewrite Hfill. reflexivity.
Qed.

(** A line that starts at the abscissa 0 is written without [x1]. *)
Lemma falsy_attribute_is_omitted_witness :
  jsx "line" [("stroke", PString "red"); ("x1", PNumber zero); ("x2", PNumber (ofZ 1))] =
  jsx "line" [("stroke", PString "red"); ("x2", PNumber (ofZ 1))].
Proof.
  apply (falsy_attribute_is_omitted "line" [("stroke", PString "red")]
           [("x2", PNumber (ofZ 1))] "x1" (PNumber zero)); reflexivity.
Defined.

(** ** Numeric accessors *)

Lemma sub_diag_finite x : isFinite x = true -> sub x x = zero.
Proof.
  destruct x as [sx | sx | | sx mx ex]; intros H; try discriminate H.
  - destruct sx; reflexivity.
  - unfold sub, SFsub. rewrite Z.sub_diag. reflexivity.
Qed.

(** X4.  When the text of the field that [$number] reads converts to a
    number, what the accessor returns is finite, that number is within the
    sanity bound, and the result passes the test of the accessor itself
    against it: their difference, computed in binary64, is below the
    binary64 number nearest to 1e-8.  The snap to an integer is the only
    change that the accessor makes.  (The test compares binary64 numbers,
    as the code does; it does not bound the distance to the decimal numeral
    of the file: the field 2.00000001 is read as 2.) *)
Theorem number_accessor_stays_near_the_field (record : DxfRecord) (groupCode : Z)
    (defaultValue : option number) (v : number) :
  let value := toNumber (getGroupCodeValue record groupCode) in
  isNaN value = false ->
  dollar_number record groupCode defaultValue = Return v ->
  isFinite v = true /\
  gt (Math_abs value) sanityBound = false /\
  lt (Math_abs (sub v value)) snapDistance = true.
Proof.
  intros value Hnan Hrun.
  assert (Hv : isFinite v = true).
  { destruct (dollar_number_finite _ _ _ _ Hrun) as [H | [H _]]; [exact H |].
    fold value in H. rewrite H in Hnan. discriminate Hnan. }
  split; [exact Hv |].
  unfold dollar_number in Hrun. fold value in Hrun. cbv zeta in Hrun. rewrite Hnan in Hrun.
  destruct (gt (Math_abs value) sanityBound); [discriminate Hrun |].
  split; [reflexivity |].
  destruct (lt (Math_abs (sub (Math_round value) value)) snapDistance) eqn:Hclose;
    injection Hrun as <-; [exact Hclose |].
  rewrite (sub_diag_finite value Hv). reflexivity.
Qed.

(** The field 2.000000001 is read as 2, and so is the field 2.00000001. *)
Lemma number_accessor_stays_near_the_field_witness :
  dollar_number [(10, "2.000000001")] 10 None = Return (ofZ 2) /\
  lt (Math_abs (sub (ofZ 2) (stringToNumber "2.000000001"))) snapDistance = true /\
  dollar_number [(10, "2.00000001")] 10 None = Return (ofZ 2) /\
  lt (Math_abs (sub (ofZ 2) (stringToNumber "2.00000001"))) snapDistance = true.
Proof.
  destruct (number_accessor_stays_near_the_field [(10, "2.000000001")] 10 None (ofZ 2)
              eq_refl eq_refl) as (_ & _ & H).
  destruct (number_accessor_stays_near_the_field [(10, "2.00000001")] 10 None (ofZ 2)
              eq_refl eq_refl) as (_ & _ & H').
  split; [reflexivity |]. split; [exact H |]. split; [reflexivity | exact H'].
Defined.

Lemma trimEnd_cons c rest :
  isWhiteSpace c = false -> trimEnd (String c rest) = String c (trimEnd rest).
Proof.
  intros H. cbn [trimEnd]. rewrite H. destruct (trimEnd rest); reflexivity.
Qed.

(** The texts that [_shift] builds from a number that is not finite are no
    numerals, whatever exponent follows. *)
Lemma not_a_numeral_Infinity t : stringToNumber ("Infinitye" +++ t) = NaN.
Proof.
  unfold stringToNumber, trim.
  change (trimStart ("Infinitye" +++ t)) with ("Infinitye" +++ t).
  cbn [append]. rewrite !trimEnd_cons by reflexivity. reflexivity.
Qed.

Lemma not_a_numeral_negInfinity t : stringToNumber ("-Infinitye" +++ t) = NaN.
Proof.
  unfold stringToNumber, trim.
  change (trimStart ("-Infinitye" +++ t)) with ("-Infinitye" +++ t).
  cbn [append]. rewrite !trimEnd_cons by reflexivity. reflexivity.
Qed.

Lemma not_a_numeral_NaN t : stringToNumber ("NaNe" +++ t) = NaN.
Proof.
  unfold stringToNumber, trim.
  change (trimStart ("NaNe" +++ t)) with ("NaNe" +++ t).
  cbn [append]. rewrite !trimEnd_cons by reflexivity. reflexivity.
Qed.

Lemma shift_of_non_finite n precision : isFinite n = false -> _shift n precision = NaN.
Proof.
  destruct n as [sn | [|] | | sn mn en]; intros H; try discriminate H; unfold _shift.
  - apply not_a_numeral_negInfinity.
  - apply not_a_numeral_Infinity.
  - apply not_a_numeral_NaN.
Qed.

(** X5.  [round] maps every number that is not finite to NaN, at every
    precision: an infinite number is not kept, because its decimal text
    with an exponent appended is not a numeral. *)
Theorem round_of_non_finite_is_NaN (n precision : number) :
  isFinite n = false -> round n precision = NaN.
Proof.
  intros H. unfold round. rewrite (shift_of_non_finite n precision H).
  apply shift_of_non_finite. reflexivity.
Qed.

Lemma round_of_non_finite_is_NaN_witness :
  round Infinity (ofZ 5) = NaN /\ round negInfinity (ofZ 5) = NaN /\
  round NaN (ofZ 5) = NaN.
Proof.
  split; [| split].
  - exact (round_of_non_finite_is_NaN Infinity (ofZ 5) eq_refl).
  - exact (round_of_non_finite_is_NaN negInfinity (ofZ 5) eq_refl).
  - exact (round_of_non_finite_is_NaN NaN (ofZ 5) eq_refl).
Defined.

(** ** Dimension text *)

Lemma placeholder_other c rest replacement :
  c <> "<"%char ->
  replacePlaceholder (String c rest) replacement =
    String c (replacePlaceholder rest replacement) /\
  hasPlaceholder (String c rest) = hasPlaceholder rest.
Proof.
  intros Hc.
  destruct c as [[|] [|] [|] [|] [|] [|] [|] [|]];
    try (split; reflexivity); contradiction Hc; reflexivity.
Qed.

Lemma placeholder_open d rest replacement :
  d <> ">"%char ->
  replacePlaceholder (String "<" (String d rest)) replacement =
    String "<" (replacePlaceholder (String d rest) replacement) /\
  hasPlaceholder (String "<" (String d rest)) = hasPlaceholder (String d rest).
Proof.
  intros Hd.
  destruct d as [[|] [|] [|] [|] [|] [|] [|] [|]];
    try (split; reflexivity); contradiction Hd; reflexivity.
Qed.

Lemma replacePlaceholder_first prefix suffix replacement :
  hasPlaceholder prefix = false ->
  replacePlaceholder (prefix +++ "<>" +++ suffix) replacement =
    prefix +++ replacement +++ suffix.
Proof.
  induction prefix as [| c rest IH]; intros H; [reflexivity |].
  destruct (Ascii.eqb_spec c "<") as [-> | Hc].
  - destruct rest as [| d rest'].
    + change (replacePlaceholder (String "<" (String "<" (String ">" suffix))) replacement =
              String "<" (replacement +++ suffix)).
      destruct (placeholder_open "<" (String ">" suffix) replacement) as [-> _];
        [discriminate | reflexivity].
    + destruct (Ascii.eqb_spec d ">") as [-> | Hd]; [discriminate H |].
      destruct (placeholder_open d rest' replacement Hd) as [_ Hhas].
      rewrite Hhas in H.
      change (replacePlaceholder
                (String "<" (String d (rest' +++ "<>" +++ suffix))) replacement =
              String "<" (String d rest' +++ replacement +++ suffix)).
      destruct (placeholder_open d (rest' +++ "<>" +++ suffix) replacement Hd) as [-> _].
      f_equal. exact (IH H).
  - destruct (placeholder_other c rest replacement Hc) as [_ Hhas].
    rewrite Hhas in H.
    change (replacePlaceholder (String c (rest +++ "<>" +++ suffix)) replacement =
            String c (rest +++ replacement +++ suffix)).
    destruct (placeholder_other c (rest +++ "<>" +++ suffix) replacement Hc) as [-> _].
    f_equal. exact (IH H).
Qed.

(** X6.  In the text template of a dimension, the first placeholder is
    replaced by the measured value with its tolerance; what precedes it
    and what follows it, later placeholders included, is kept as it is. *)
Theorem placeholder_is_replaced_once (measurement : number) (dimension : DxfRecord)
    (styles : DimStyles) (prefix suffix : string) (savedValue : number) :
  getGroupCodeValue dimension 1 = Some (prefix +++ "<>" +++ suffix) ->
  hasPlaceholder prefix = false ->
  dollar_number dimension 42 (Some (ofZ (-1))) = Return savedValue ->
  let value :=
    round (if negb (strictEq savedValue (ofZ (-1))) then savedValue
           else mul measurement (DIMLFAC styles))
          (DIMDEC styles) in
  dimensionValueToMText measurement dimension styles =
    Return (prefix +++ valueWithTolerance value styles +++ suffix).
Proof.
  intros Htemplate Hprefix Hsaved value.
  unfold dimensionValueToMText. rewrite Hsaved, Htemplate. cbn [bind]. fold value.
  assert (Htruthy : truthyString (prefix +++ "<>" +++ suffix) = true)
    by (destruct prefix; reflexivity).
  rewrite Htruthy, (replacePlaceholder_first _ _ _ Hprefix). reflexivity.
Qed.

(** A template with two placeholders, for the measurement 7. *)
Lemma placeholder_is_replaced_once_witness :
  dimensionValueToMText (ofZ 7) [(1, "L=<> (<>)")]
    (Samples.tolerances zero zero) = Return "L=7 (<>)".
Proof.
  rewrite (placeholder_is_replaced_once (ofZ 7) [(1, "L=<> (<>)")]
             (Samples.tolerances zero zero) "L=" " (<>)" (ofZ (-1))
             eq_refl eq_refl eq_refl).
  vm_compute. reflexivity.
Defined.

(** ** The layer and linetype maps *)

Lemma layerMap_later (options : Options) name later :
  forallb (fun record => negb (isLayerNamed name record)) later = true ->
  forall m,
    lookup
      (fold_left
         (fun m layer =>
            if optionEqb (getGroupCodeValue layer 0) "LAYER" then
              (propertyKey (getGroupCodeValue layer 2),
               {| layer_color :=
                    resolveColorIndex options (toNumber (getGroupCodeValue layer 62));
                  layer_ltype := getGroupCodeValue layer 6 |}) :: m
            else m)
         later m) name =
    lookup m name.
Proof.
  induction later as [| record later IH]; intros Hnone m; [reflexivity |].
  cbn [forallb] in Hnone. apply andb_true_iff in Hnone as [Hrecord Hnone].
  cbn [fold_left]. rewrite (IH Hnone).
  unfold isLayerNamed in Hrecord.
  destruct (optionEqb (getGroupCodeValue record 0) "LAYER"); [| reflexivity].
  cbn [andb] in Hrecord. cbn [lookup].
  destruct (String.eqb (propertyKey (getGroupCodeValue record 2)) name);
    [discriminate | reflexivity].
Qed.

(** X7.  The layer map gives for a name the colour and the linetype of the
    last record of the layer table that defines a layer of that name:
    a later definition replaces an earlier one, and the records around it
    that are no layers or bear other names play no part. *)
Theorem later_layer_replaces_earlier (dxf : Document) (options : Options)
    (name : string) (before : list DxfRecord) (layer : DxfRecord)
    (after : list DxfRecord) :
  layerTable dxf = before ++ layer :: after ->
  isLayerNamed name layer = true ->
  forallb (fun record => negb (isLayerNamed name record)) after = true ->
  lookup (layerMap dxf options) name = Some (layerOf options layer).
Proof.
  intros Htable Hlayer Hafter. unfold layerMap. rewrite Htable, fold_left_app.
  cbn [fold_left]. rewrite (layerMap_later options name after Hafter).
  unfold isLayerNamed in Hlayer. apply andb_true_iff in Hlayer as [Htype Hname].
  rewrite Htype. cbn [lookup]. rewrite Hname. reflexivity.
Qed.

(** The layer A, defined with the colour indices 1 and then 2, has the
    colour of the index 2. *)
Lemma later_layer_replaces_earlier_witness :
  lookup (layerMap Cases.twoLayers Samples.hashColors) "A" =
    Some {| layer_color := "#2"; layer_ltype := None |}.
Proof.
  rewrite (later_layer_replaces_earlier Cases.twoLayers Samples.hashColors "A"
             [Cases.layerA "1"; [(0, "LAYER"); (2, "B"); (62, "3")]] (Cases.layerA "2") []
             eq_refl eq_refl eq_refl).
  vm_compute. reflexivity.
Defined.

Lemma ltypeMap_later name later :
  forallb (fun record => negb (isLinetypeNamed name record)) later = true ->
  forall m,
    lookup
      (fold_left
         (fun m ltype =>
            if optionEqb (getGroupCodeValue ltype 0) "LTYPE" then
              let strokeDasharray := normalizedDasharray (_strokeDasharray ltype) in
              match strokeDasharray with
              | [] => m
              | _ => (propertyKey (getGroupCodeValue ltype 2), join " " strokeDasharray) :: m
              end
            else m)
         later m) name =
    lookup m name.
Proof.
  induction later as [| record later IH]; intros Hnone m; [reflexivity |].
  cbn [forallb] in Hnone. apply andb_true_iff in Hnone as [Hrecord Hnone].
  cbn [fold_left]. rewrite (IH Hnone).
  unfold isLinetypeNamed, dashPattern in Hrecord.
  destruct (optionEqb (getGroupCodeValue record 0) "LTYPE"); [| reflexivity].
  cbn [andb] in Hrecord. cbv zeta.
  destruct (normalizedDasharray (_strokeDasharray record)) as [| segment segments];
    [reflexivity |].
  cbn [lookup].
  destruct (String.eqb (propertyKey (getGroupCodeValue record 2)) name);
    [discriminate | reflexivity].
Qed.

(** X8.  The linetype map gives for a name the dash pattern, joined by
    blanks, of the last record of the linetype table that defines a
    linetype of that name with at least one segment.  A later record of
    the same name without segments is passed over: it does not turn the
    linetype into a continuous one. *)
Theorem linetype_is_the_last_with_segments (dxf : Document)
    (name : string) (before : list DxfRecord) (ltype : DxfRecord)
    (after : list DxfRecord) :
  ltypeTable dxf = before ++ ltype :: after ->
  isLinetypeNamed name ltype = true ->
  forallb (fun record => negb (isLinetypeNamed name record)) after = true ->
  lookup (ltypeMap dxf) name = Some (join " " (dashPattern ltype)).
Proof.
  intros Htable Hltype Hafter. unfold ltypeMap. rewrite Htable, fold_left_app.
  cbn [fold_left]. rewrite (ltypeMap_later name after Hafter).
  unfold isLinetypeNamed in Hltype.
  apply andb_true_iff in Hltype as [Hltype Hsegments].
  apply andb_true_iff in Hltype as [Htype Hname].
  rewrite Htype. cbv zeta. unfold dashPattern in *.
  destruct (normalizedDasharray (_strokeDasharray ltype)) as [| segment segments];
    [discriminate |].
  cbn [lookup]. rewrite Hname. reflexivity.
Qed.

(** The linetype DASHED keeps its pattern although a record without
    segments defines it again. *)
Lemma linetype_is_the_last_with_segments_witness :
  lookup (ltypeMap Cases.twoLayers) "DASHED" = Some "0.5 0.25 0".
Proof.
  rewrite (linetype_is_the_last_with_segments Cases.twoLayers "DASHED"
             [] Samples.dashed [[(0, "LTYPE"); (2, "DASHED")]]
             eq_refl eq_refl eq_refl).
  vm_compute. reflexivity.
Defined.

(** ** The block instancer *)

(** X9.  The entities that [INSERT] expands are those of the block between
    its delimiters: when the list of the named block starts with a BLOCK
    record and ends with an ENDBLK record, both are left out and nothing
    else is. *)
Theorem block_delimiters_are_stripped (dxf : Document)
    (blocks : list (string * list DxfRecord)) (entity first last : DxfRecord)
    (body : list DxfRecord) :
  BLOCKS dxf = Some blocks ->
  lookup blocks (propertyKey (getGroupCodeValue entity 2)) = Some (first :: body ++ [last]) ->
  isType "BLOCK" (Some first) = true ->
  isType "ENDBLK" (Some last) = true ->
  INSERT_block dxf entity = Return (Some body).
Proof.
  intros Hblocks Hblock Hfirst Hlast.
  unfold INSERT_block. rewrite Hblocks, (member_own _ _ _ Hblock). do 2 f_equal.
  unfold blockEntities.
  assert (Hrev : hd_error (rev (first :: body ++ [last])) = Some last).
  { cbn [rev]. rewrite rev_app_distr. reflexivity. }
  rewrite Hrev. cbn [hd_error].
  unfold isType in Hfirst, Hlast. rewrite Hfirst, Hlast.
  cbn [List.length skipn]. rewrite length_app. cbn [List.length].
  replace (S (List.length body + 1) - 1 - 1)%nat with (List.length body + 0)%nat by lia.
  rewrite firstn_app_2. cbn [firstn]. apply app_nil_r.
Qed.

Lemma block_delimiters_are_stripped_witness :
  INSERT_block Samples.oneInsert Samples.insertB = Return (Some [Samples.unitLine]).
Proof.
  exact (block_delimiters_are_stripped Samples.oneInsert [("B", Samples.blockB)]
           Samples.insertB [(0, "BLOCK"); (2, "B")] [(0, "ENDBLK")] [Samples.unitLine]
           eq_refl eq_refl eq_refl eq_refl).
Defined.

Lemma INSERT_nested dxf options
    (nested : option (list DxfRecord) -> Eff (string * BoundingBox))
    entity vertices x y0 r0 sx sy :
  dollar_number entity 10 (Some zero) = Return x ->
  dollar_number entity 20 (Some zero) = Return y0 ->
  dollar_number entity 50 None = Return r0 ->
  dollar_number entity 41 (Some (ofZ 1)) = Return sx ->
  dollar_number entity 42 (Some (ofZ 1)) = Return sy ->
  INSERT dxf options nested entity vertices =
    match INSERT_block dxf entity with
    | Return block =>
        match nested block with
        | (ds, Return (contents, bbox)) =>
            (ds, Return (Some
               (insertMarkup dxf options entity
                  (INSERT_transform x (neg y0) (orElse sx (ofZ 1)) (orElse sy (ofZ 1))
                     (neg r0))
                  contents,
                remapped x (orElse sx (ofZ 1)) (bbox_x bbox) (bbox_w bbox),
                remapped (neg y0) (orElse sy (ofZ 1)) (bbox_y bbox) (bbox_h bbox))))
        | (ds, Throw error) => (ds, Throw error)
        end
    | Throw error => ([], Throw error)
    end.
Proof.
  intros Hx Hy Hr Hsx Hsy. unfold INSERT. rewrite Hx, Hy, Hr, Hsx, Hsy.
  cbn [lift bind bindE app].
  destruct (INSERT_block dxf entity) as [block | error]; [| reflexivity].
  cbn [lift bind bindE app].
  destruct (nested block) as [ds [[contents bbox] | error]]; [| reflexivity].
  cbn [bindE ret]. rewrite app_nil_r. reflexivity.
Qed.

(** X10.  A block that inserts itself does not hang the conversion and
    does not abort it.  When the entity list is one insert whose block
    consists of that same insert, every level of expansion that the call
    stack has room for draws one group around the next; the innermost
    level fails with the stack exhausted, which is caught and reported
    once, with the insert; and no level contributes coordinates, so the
    bounding box is the degenerate one. *)
Theorem self_including_block_is_cut_off (platform : Platform) (depth : nat)
    (dxf : Document) (options : Options) (entity : DxfRecord) (x y0 r0 sx sy : number) :
  getGroupCodeValue entity 0 = Some "INSERT" ->
  INSERT_block dxf entity = Return (Some [entity]) ->
  dollar_number entity 10 (Some zero) = Return x ->
  dollar_number entity 20 (Some zero) = Return y0 ->
  dollar_number entity 50 None = Return r0 ->
  dollar_number entity 41 (Some (ofZ 1)) = Return sx ->
  dollar_number entity 42 (Some (ofZ 1)) = Return sy ->
  entitiesSvg platform depth dxf (Some [entity]) options =
    ([errorOccurred stackOverflow entity],
     Return
       (nestedGroups dxf options entity
          (INSERT_transform x (neg y0) (orElse sx (ofZ 1)) (orElse sy (ofZ 1)) (neg r0))
          depth,
        degenerateBox)).
Proof.
  intros Htype Hblock Hx Hy Hr Hsx Hsy.
  induction depth as [| depth IH].
  - cbn [entitiesSvg entitiesLoop]. rewrite Htype.
    cbn [truthyString collectVertices List.length Nat.eqb negb andb].
    erewrite renderEntity_own by reflexivity.
    rewrite (INSERT_nested _ _ _ _ _ _ _ _ _ _ Hx Hy Hr Hsx Hsy), Hblock.
    reflexivity.
  - cbn [entitiesSvg entitiesLoop]. rewrite Htype.
    cbn [truthyString collectVertices List.length Nat.eqb negb andb].
    erewrite renderEntity_own by reflexivity.
    rewrite (INSERT_nested _ _ _ _ _ _ _ _ _ _ Hx Hy Hr Hsx Hsy).
    rewrite Hblock, IH.
    assert (Hfx : isFinite x = true).
    { destruct (dollar_number_finite _ _ _ _ Hx) as [H | [_ ->]]; [exact H | reflexivity]. }
    assert (Hfy : isFinite (neg y0) = true).
    { destruct (dollar_number_finite _ _ _ _ Hy) as [H | [_ ->]]; [| reflexivity].
      destruct y0; try discriminate H; reflexivity. }
    assert (Hfsx : isFinite sx = true).
    { destruct (dollar_number_finite _ _ _ _ Hsx) as [H | [_ ->]]; [exact H | reflexivity]. }
    assert (Hfsy : isFinite sy = true).
    { destruct (dollar_number_finite _ _ _ _ Hsy) as [H | [_ ->]]; [exact H | reflexivity]. }
    destruct (scale_is_finite sx Hfsx) as [Hsxf Hsxt].
    destruct (scale_is_finite sy Hfsy) as [Hsyf Hsyt].
    cbn [bindE tryCatch ret app entitiesLoop]. unfold addPrimitive.
    cbn [degenerateBox bbox_x bbox_y bbox_w bbox_h].
    rewrite (remapped_degenerate x _ Hfx Hsxf Hsxt).
    rewrite (remapped_degenerate (neg y0) _ Hfy Hsyf Hsyt).
    reflexivity.
Qed.

(** With room for two nested expansions, the block LOOP is drawn as a
    group in a group, and the fault is reported once. *)
Lemma self_including_block_is_cut_off_witness :
  createSvgContents Samples.barePlatform 2 Cases.selfIncluding None =
    ([errorOccurred stackOverflow Cases.insertSelf],
     Return
       (jsx "g" [("transform", PString "translate(1,0)");
                 ("children",
                  PString (jsx "g" [("transform", PString "translate(1,0)")]))],
        degenerateBox)).
Proof.
  unfold createSvgContents.
  change (ENTITIES Cases.selfIncluding) with (Some [Cases.insertSelf]).
  rewrite (self_including_block_is_cut_off Samples.barePlatform 2 Cases.selfIncluding
             (resolveOptions Samples.barePlatform None) Cases.insertSelf
             (ofZ 1) zero NaN (ofZ 1) (ofZ 1)
             eq_refl eq_refl eq_refl eq_refl eq_refl eq_refl eq_refl).
  vm_compute. reflexivity.
Defined.

(** ** The scene assembler: what it returns *)

(** Fault isolation at any level of nesting. *)
Lemma entitiesSvg_fault_isolation platform depth dxf options entities
    before entity entityType vertices after (entitySvg : EntitySvg) ds error :
  dispatched O entities = before ++ (entity, entityType, vertices) :: after ->
  lookup (entitySvgMapAt platform depth dxf options) entityType = Some entitySvg ->
  entitySvg entity vertices = (ds, Throw error) ->
  exists ds1 scene1 ds2 scene2,
    renderAll (entitySvgMapAt platform depth dxf options) before emptyScene
      = (ds1, Return scene1) /\
    renderAll (entitySvgMapAt platform depth dxf options) after scene1
      = (ds2, Return scene2) /\
    entitiesSvg platform depth dxf (Some entities) options =
      (ds1 ++ (ds ++ [errorOccurred error entity]) ++ ds2,
       Return (s scene2, boundingBox scene2)).
Proof.
  intros Hgroups Hmap Hrun.
  set (table := entitySvgMapAt platform depth dxf options) in *.
  destruct (renderAll_returns table before emptyScene) as (ds1 & scene1 & H1).
  destruct (renderAll_returns table after scene1) as (ds2 & scene2 & H2).
  exists ds1, scene1, ds2, scene2. split; [exact H1 |]. split; [exact H2 |].
  rewrite entitiesSvg_unfold. fold table. rewrite Hgroups, renderAll_app, H1.
  simpl.
  rewrite (renderEntity_fault table entity entityType vertices scene1 entitySvg ds error Hmap Hrun).
  simpl. rewrite H2. simpl. rewrite app_nil_r. reflexivity.
Qed.

(** X29.  Fault isolation.  For every document and configuration: when the
    interpreter that the table holds for the type of a dispatched entity
    throws, the scene assembler catches the fault and reports it, after the
    diagnostics of the interpreter itself, as one diagnostic that carries
    the offending record; the conversion returns the scene that rendering
    the entities before it and then the entities after it gives, so that
    every other entity is still dispatched and the faulty one adds neither
    markup nor coordinates. *)
Theorem fault_isolation platform depth dxf userOptions entities
    before entity entityType vertices after (entitySvg : EntitySvg) ds error :
  let options := resolveOptions platform userOptions in
  let table := entitySvgMapAt platform depth dxf options in
  ENTITIES dxf = Some entities ->
  dispatched O entities = before ++ (entity, entityType, vertices) :: after ->
  lookup table entityType = Some entitySvg ->
  entitySvg entity vertices = (ds, Throw error) ->
  exists ds1 scene1 ds2 scene2,
    renderAll table before emptyScene = (ds1, Return scene1) /\
    renderAll table after scene1 = (ds2, Return scene2) /\
    createSvgContents platform depth dxf userOptions =
      (ds1 ++ (ds ++ [errorOccurred error entity]) ++ ds2,
       Return (s scene2, boundingBox scene2)).
Proof.
  intros options table Hentities Hgroups Hmap Hrun.
  unfold createSvgContents. rewrite Hentities.
  exact (entitiesSvg_fault_isolation platform depth dxf options entities
           before entity entityType vertices after entitySvg ds error
           Hgroups Hmap Hrun).
Qed.

(** Three lines of which the second is corrupt: the first and the third
    are rendered, the second is reported. *)
Lemma fault_isolation_witness :
  createSvgContents Samples.barePlatform 1 Samples.threeLines None =
    ([errorOccurred "Error: group code 10 is invalid (2000000)" Samples.corruptLine],
     Return
       (jsx "line"
          [("data-5", PString "1A"); ("stroke", PString "currentColor");
           ("x2", PNumber (ofZ 10))] +++
        jsx "line"
          [("data-5", PString "1C"); ("stroke", PString "currentColor");
           ("x1", PNumber (ofZ 3)); ("y1", PNumber (ofZ (-4)));
           ("x2", PNumber (ofZ 5)); ("y2", PNumber (ofZ (-8)))],
        {| bbox_x := ofZ 0; bbox_y := ofZ (-8); bbox_w := ofZ 10; bbox_h := ofZ 8 |})).
Proof.
  destruct (fault_isolation Samples.barePlatform 1 Samples.threeLines None
              [Samples.line_0_10; Samples.corruptLine; Samples.line_3_5]
              [(Samples.line_0_10, "LINE", [])] Samples.corruptLine "LINE" []
              [(Samples.line_3_5, "LINE", [])]
              (LINE Samples.threeLines (resolveOptions Samples.barePlatform None))
              [] "Error: group code 10 is invalid (2000000)"
              eq_refl eq_refl eq_refl eq_refl)
    as (ds1 & scene1 & ds2 & scene2 & H1 & H2 & H3).
  vm_compute in H1. injection H1 as <- <-.
  vm_compute in H2. injection H2 as <- <-.
  rewrite H3. vm_compute. reflexivity.
Defined.

Lemma renderEntity_appends (entitySvgMap : list (string * EntitySvg)) entity entityType
    vertices scene :
  isInherited entityType = false ->
  exists scene',
    renderEntity entitySvgMap entity entityType vertices scene =
      (diagnosticsOf entitySvgMap (entity, entityType, vertices), Return scene') /\
    s scene' = s scene +++ markupOf entitySvgMap (entity, entityType, vertices).
Proof.
  intros Hname. unfold diagnosticsOf, markupOf.
  destruct (lookup entitySvgMap entityType) as [entitySvg |] eqn:Hmap.
  - rewrite (renderEntity_own _ _ _ _ _ _ Hmap).
    destruct (entitySvg entity vertices) as [ds [[[[markup xs] ys] |] | error]];
      cbn [bindE tryCatch ret warn snd app].
    + eexists. split; [rewrite app_nil_r; reflexivity | reflexivity].
    + eexists. split; [rewrite app_nil_r; reflexivity | symmetry; apply string_app_empty_r].
    + eexists. split; [reflexivity | symmetry; apply string_app_empty_r].
  - rewrite (renderEntity_missing _ _ _ _ _ Hmap Hname).
    eexists. split; [reflexivity | symmetry; apply string_app_empty_r].
Qed.

Lemma renderAll_appends (entitySvgMap : list (string * EntitySvg)) groups :
  forall scene,
    existsb namesInherited groups = false ->
    exists scene',
      renderAll entitySvgMap groups scene =
        (flat_map (diagnosticsOf entitySvgMap) groups, Return scene') /\
      s scene' = s scene +++ concatAll (map (markupOf entitySvgMap) groups).
Proof.
  induction groups as [| [[entity entityType] vertices] rest IH]; intros scene Hnames.
  - exists scene. split; [reflexivity | symmetry; apply string_app_empty_r].
  - cbn [existsb] in Hnames. apply orb_false_elim in Hnames.
    destruct Hnames as [Hname Hnames].
    destruct (renderEntity_appends entitySvgMap entity entityType vertices scene Hname)
      as (scene1 & H1 & M1).
    destruct (IH scene1 Hnames) as (scene2 & H2 & M2).
    exists scene2. cbn [renderAll flat_map map concatAll fold_right].
    rewrite H1. cbn [bindE]. rewrite H2. split; [reflexivity |].
    rewrite M2, M1. apply string_app_assoc.
Qed.

(** X12.  The output follows the order of the document.  When no type tag
    of the entity list names a member of [Object.prototype], the markup
    that [entitiesSvg] returns is the concatenation, in the order of
    dispatch, of the markup of the entities whose interpreter returns a
    primitive; the diagnostics are, in the same order, those of each
    interpreter, followed by the report of its fault if it throws, and the
    report of each type tag without an interpreter. *)
Theorem output_follows_document_order (platform : Platform) (depth : nat)
    (dxf : Document) (options : Options) (entities : list DxfRecord) :
  let table := entitySvgMapAt platform depth dxf options in
  let groups := dispatched O entities in
  existsb namesInherited groups = false ->
  exists bbox,
    entitiesSvg platform depth dxf (Some entities) options =
      (flat_map (diagnosticsOf table) groups,
       Return (concatAll (map (markupOf table) groups), bbox)).
Proof.
  intros table groups Hnames. rewrite entitiesSvg_unfold. fold table. fold groups.
  destruct (renderAll_appends table groups emptyScene Hnames) as (scene & H & M).
  rewrite H. cbn [bindE ret]. rewrite app_nil_r, M.
  exists (boundingBox scene). reflexivity.
Qed.

(** A line, a spline and a corrupt line: the markup of the line alone, and
    the reports of the spline and of the corrupt line, in that order. *)
Lemma output_follows_document_order_witness :
  entitiesSvg Samples.barePlatform 0 Samples.noEntities
    (Some [Samples.line_0_10; Cases.spline; Samples.corruptLine]) Samples.hashColors =
  ([unknownEntityType "SPLINE" Cases.spline;
    errorOccurred "Error: group code 10 is invalid (2000000)" Samples.corruptLine],
   Return
     (jsx "line"
        [("data-5", PString "1A"); ("stroke", PString "currentColor");
         ("x2", PNumber (ofZ 10))],
      {| bbox_x := ofZ 0; bbox_y := negZero; bbox_w := ofZ 10; bbox_h := zero |})).
Proof.
  destruct (output_follows_document_order Samples.barePlatform 0 Samples.noEntities
              Samples.hashColors
              [Samples.line_0_10; Cases.spline; Samples.corruptLine] eq_refl)
    as (bbox & H).
  assert (Hrun : snd (entitiesSvg Samples.barePlatform 0 Samples.noEntities
                        (Some [Samples.line_0_10; Cases.spline; Samples.corruptLine])
                        Samples.hashColors) =
                 Return
                   (jsx "line"
                      [("data-5", PString "1A"); ("stroke", PString "currentColor");
                       ("x2", PNumber (ofZ 10))],
                    {| bbox_x := ofZ 0; bbox_y := negZero;
                       bbox_w := ofZ 10; bbox_h := zero |}))
    by (vm_compute; reflexivity).
  rewrite H in Hrun. cbn [snd] in Hrun. rewrite H, Hrun.
  vm_compute. reflexivity.
Defined.

(** ** The scene assembler: type tags without an interpreter *)

Lemma lookup_unrecognised platform depth dxf options entityType :
  isRecognised entityType = false ->
  lookup (entitySvgMapAt platform depth dxf options) entityType = None.
Proof.
  unfold isRecognised, recognisedTypes. cbn [existsb].
  rewrite !orb_false_iff. intros H.
  unfold entitySvgMapAt, createEntitySvgMap. cbn [lookup].
  repeat match goal with
         | |- context [String.eqb ?k entityType] => rewrite (String.eqb_sym k entityType)
         end.
  repeat match goal with
         | H : _ /\ _ |- _ => let E := fresh in destruct H as [E H]; rewrite E
         end.
  reflexivity.
Qed.

(** X13.  An entity whose type tag is none of the fifteen that the table of
    interpreters knows, nor the name of a member of [Object.prototype], is
    reported once, as "Unknown entity type" with the tag and the record,
    and changes nothing else: the conversion returns the scene that
    rendering the entities before it and then the entities after it
    gives. *)
Theorem unknown_entity_type_is_reported (platform : Platform) (depth : nat)
    (dxf : Document) (options : Options) (entities : list DxfRecord)
    (before : list Dispatch) (entity : DxfRecord) (entityType : string)
    (vertices : list DxfRecord) (after : list Dispatch) :
  let table := entitySvgMapAt platform depth dxf options in
  dispatched O entities = before ++ (entity, entityType, vertices) :: after ->
  isRecognised entityType = false ->
  isInherited entityType = false ->
  exists ds1 scene1 ds2 scene2,
    renderAll table before emptyScene = (ds1, Return scene1) /\
    renderAll table after scene1 = (ds2, Return scene2) /\
    entitiesSvg platform depth dxf (Some entities) options =
      (ds1 ++ [unknownEntityType entityType entity] ++ ds2,
       Return (s scene2, boundingBox scene2)).
Proof.
  intros table Hgroups Hunknown Hname.
  destruct (renderAll_returns table before emptyScene) as (ds1 & scene1 & H1).
  destruct (renderAll_returns table after scene1) as (ds2 & scene2 & H2).
  exists ds1, scene1, ds2, scene2. split; [exact H1 |]. split; [exact H2 |].
  rewrite entitiesSvg_unfold. fold table. rewrite Hgroups, renderAll_app, H1.
  cbn [bindE renderAll].
  rewrite (renderEntity_missing table entity entityType vertices scene1
             (lookup_unrecognised _ _ _ _ _ Hunknown) Hname).
  cbn [bindE]. rewrite H2. cbn. rewrite app_nil_r. reflexivity.
Qed.

(** A spline between two lines is reported, and the result is otherwise
    that of the two lines alone. *)
Lemma unknown_entity_type_is_reported_witness :
  entitiesSvg Samples.barePlatform 0 Samples.noEntities
    (Some [Samples.line_0_10; Cases.spline; Samples.line_3_5]) Samples.hashColors =
  ([unknownEntityType "SPLINE" Cases.spline],
   snd (entitiesSvg Samples.barePlatform 0 Samples.noEntities
          (Some [Samples.line_0_10; Samples.line_3_5]) Samples.hashColors)).
Proof.
  destruct (unknown_entity_type_is_reported Samples.barePlatform 0 Samples.noEntities
              Samples.hashColors
              [Samples.line_0_10; Cases.spline; Samples.line_3_5]
              [(Samples.line_0_10, "LINE", [])] Cases.spline "SPLINE" []
              [(Samples.line_3_5, "LINE", [])] eq_refl eq_refl eq_refl)
    as (ds1 & scene1 & ds2 & scene2 & H1 & H2 & H).
  rewrite H.
  vm_compute in H1. injection H1 as <- <-.
  vm_compute in H2. injection H2 as <- <-.
  vm_compute. reflexivity.
Defined.

(** ** The scene assembler: vertices *)

Lemma isType_value type record :
  isType type (Some record) = true -> getGroupCodeValue record 0 = Some type.
Proof.
  unfold isType, optionEqb. cbn [getGroupCodeValue_opt].
  destruct (getGroupCodeValue record 0) as [v |]; [| discriminate].
  intros H. apply String.eqb_eq in H. subst. reflexivity.
Qed.

Lemma collectVertices_run vertices following :
  forallb (fun v => isType "VERTEX" (Some v)) vertices = true ->
  isType "VERTEX" (hd_error following) = false ->
  collectVertices (vertices ++ following) = vertices.
Proof.
  intros Hrun Hstop. induction vertices as [| v vertices IH]; cbn [app].
  - destruct following as [| record rest]; [reflexivity |].
    cbn [collectVertices hd_error] in *. rewrite Hstop. reflexivity.
  - cbn [forallb] in Hrun. apply andb_true_iff in Hrun as [Hv Hrun].
    cbn [collectVertices]. rewrite Hv, (IH Hrun). reflexivity.
Qed.

Lemma entitiesLoop_skip entitySvgMap consumed rest scene :
  entitiesLoop entitySvgMap (List.length consumed) (consumed ++ rest) scene =
  entitiesLoop entitySvgMap O rest scene.
Proof.
  induction consumed as [| record consumed IH]; [| exact IH].
  destruct rest; reflexivity.
Qed.

(** X14.  A record with a type tag, followed by a non-empty run of VERTEX
    records and a SEQEND record, is rendered once, with exactly that run
    as its vertices; neither the vertices nor the end marker are
    dispatched as entities of their own, and the loop goes on with the
    record after the marker. *)
Theorem vertices_are_grouped_with_their_entity
    (entitySvgMap : list (string * EntitySvg)) (entity : DxfRecord)
    (entityType : string) (vertices : list DxfRecord) (seqend : DxfRecord)
    (rest : list DxfRecord) (scene : Scene) :
  getGroupCodeValue entity 0 = Some entityType ->
  truthyString entityType = true ->
  vertices <> [] ->
  forallb (fun v => isType "VERTEX" (Some v)) vertices = true ->
  isType "SEQEND" (Some seqend) = true ->
  entitiesLoop entitySvgMap O (entity :: vertices ++ seqend :: rest) scene =
  (scene' <~ renderEntity entitySvgMap entity entityType vertices scene ;;
   entitiesLoop entitySvgMap O rest scene').
Proof.
  intros Htype Htruthy Hsome Hrun Hend.
  assert (Hstop : isType "VERTEX" (hd_error (seqend :: rest)) = false).
  { cbn [hd_error]. unfold isType. cbn [getGroupCodeValue_opt].
    rewrite (isType_value _ _ Hend). reflexivity. }
  cbn [entitiesLoop]. rewrite Htype, Htruthy.
  rewrite (collectVertices_run vertices (seqend :: rest) Hrun Hstop).
  assert (Hnth : nth_error (vertices ++ seqend :: rest) (List.length vertices) = Some seqend).
  { rewrite nth_error_app2, Nat.sub_diag by apply Nat.le_refl. reflexivity. }
  rewrite Hnth, Hend.
  assert (Hlen : (List.length vertices =? 0)%nat = false).
  { destruct vertices; [contradiction | reflexivity]. }
  rewrite Hlen. cbn [negb andb].
  apply bindE_ext. intros scene'.
  replace (S (List.length vertices)) with (List.length (vertices ++ [seqend]))
    by (rewrite length_app, Nat.add_comm; reflexivity).
  replace (vertices ++ seqend :: rest) with ((vertices ++ [seqend]) ++ rest)
    by (rewrite <- app_assoc; reflexivity).
  apply entitiesLoop_skip.
Qed.

(** Two polylines, the first with three vertices and an end marker: the
    table is asked twice, and never for a vertex or for the marker. *)
Lemma vertices_are_grouped_with_their_entity_witness :
  entitiesLoop Cases.marker O
    (Cases.polyline :: Cases.triangle ++ Cases.seqend :: [Cases.polyline]) emptyScene =
  ([], Return {| s := "<g/><g/>"; minX := ofZ 1; maxX := ofZ 1;
                 minY := ofZ 2; maxY := ofZ 2 |}).
Proof.
  rewrite (vertices_are_grouped_with_their_entity Cases.marker Cases.polyline "POLYLINE"
             Cases.triangle Cases.seqend [Cases.polyline] emptyScene
             eq_refl eq_refl ltac:(discriminate) eq_refl eq_refl).
  vm_compute. reflexivity.
Defined.

(** ** The scene assembler: the running extents *)

Ltac order_cases :=
  repeat match goal with
         | |- context [Z.compare ?a ?b] =>
             destruct (Z.compare_spec a b); subst
         | H : context [Z.compare ?a ?b] |- _ =>
             destruct (Z.compare_spec a b); subst
         | |- context [Pos.compare ?a ?b] =>
             destruct (Pos.compare_spec a b); subst
         | H : context [Pos.compare ?a ?b] |- _ =>
             destruct (Pos.compare_spec a b); subst
         end;
  cbn in *; try reflexivity; try discriminate; try lia.

Lemma lessEq_refl x : isNaN x = false -> lessEq x x = true.
Proof.
  unfold lessEq, SFleb, SFcompare.
  destruct x as [sx | sx | | sx mx ex]; try destruct sx; intros H;
    try reflexivity; try discriminate;
    change (PosDef.Pos.compare_cont Eq mx mx) with (Pos.compare mx mx);
    order_cases.
Qed.

Lemma lessEq_trans x y z : lessEq x y = true -> lessEq y z = true -> lessEq x z = true.
Proof.
  unfold lessEq, SFleb, SFcompare.
  destruct x as [sx | sx | | sx mx ex]; try destruct sx;
    destruct y as [sy | sy | | sy my ey]; try destruct sy;
    destruct z as [sz | sz | | sz mz ez]; try destruct sz;
    intros Hxy Hyz; try reflexivity; try discriminate;
    change (PosDef.Pos.compare_cont Eq) with Pos.compare in *;
    order_cases.
Qed.

Lemma lt_false_lessEq x y :
  isNaN x = false -> isNaN y = false -> lt x y = false -> lessEq y x = true.
Proof.
  unfold lessEq, lt, SFleb, SFltb, SFcompare.
  destruct x as [sx | sx | | sx mx ex]; try destruct sx;
    destruct y as [sy | sy | | sy my ey]; try destruct sy;
    intros Hx Hy H; try reflexivity; try discriminate;
    change (PosDef.Pos.compare_cont Eq) with Pos.compare in *;
    order_cases.
Qed.

Lemma lt_lessEq x y : lt x y = true -> lessEq x y = true.
Proof.
  unfold lessEq, lt, SFleb, SFltb. destruct (SFcompare x y) as [[| |] |];
    try discriminate; reflexivity.
Qed.

Lemma min_step_spec lowest x :
  isNaN lowest = false -> isNaN x = false ->
  isNaN (min_step lowest x) = false /\
  lessEq (min_step lowest x) lowest = true /\
  lessEq (min_step lowest x) x = true.
Proof.
  intros Hlowest Hx. unfold min_step.
  destruct (isNegZero x && strictEq lowest zero) eqn:Hzero.
  - apply andb_true_iff in Hzero as [Hneg Heq].
    destruct x as [[|] | | |]; try discriminate.
    destruct lowest as [sl | [|] | | [|] ml el]; try discriminate;
      repeat split; reflexivity.
  - destruct (lt x lowest) eqn:Hlt.
    + repeat split; [exact Hx | apply lt_lessEq; exact Hlt | apply lessEq_refl; exact Hx].
    + repeat split;
        [exact Hlowest | apply lessEq_refl; exact Hlowest
         | apply lt_false_lessEq; assumption].
Qed.

Lemma max_step_spec highest x :
  isNaN highest = false -> isNaN x = false ->
  isNaN (max_step highest x) = false /\
  lessEq highest (max_step highest x) = true /\
  lessEq x (max_step highest x) = true.
Proof.
  intros Hhighest Hx. unfold max_step.
  destruct (strictEq x zero && negb (isNegZero x) && isNegZero highest) eqn:Hzero.
  - apply andb_true_iff in Hzero as [Hzero Hneg].
    destruct highest as [[|] | | |]; try discriminate.
    destruct x as [sx | [|] | | [|] mx ex]; try discriminate;
      repeat split; reflexivity.
  - unfold gt. destruct (SFltb highest x) eqn:Hlt.
    + repeat split; [exact Hx | apply lt_lessEq; exact Hlt | apply lessEq_refl; exact Hx].
    + repeat split;
        [exact Hhighest | apply lessEq_refl; exact Hhighest
         | apply lt_false_lessEq; assumption].
Qed.

Lemma fold_min_spec args :
  existsb isNaN args = false ->
  forall lowest, isNaN lowest = false ->
    isNaN (fold_left min_step args lowest) = false /\
    lessEq (fold_left min_step args lowest) lowest = true /\
    (forall x, In x args -> lessEq (fold_left min_step args lowest) x = true).
Proof.
  induction args as [| a args IH]; intros Hargs lowest Hlowest; cbn [fold_left].
  - repeat split; [exact Hlowest | apply lessEq_refl; exact Hlowest | intros x []].
  - cbn [existsb] in Hargs. apply orb_false_iff in Hargs as [Ha Hargs].
    destruct (min_step_spec lowest a Hlowest Ha) as (Hnan & Hlow & Hle).
    destruct (IH Hargs (min_step lowest a) Hnan) as (Hnan' & Hlow' & Hall).
    repeat split; [exact Hnan' | exact (lessEq_trans _ _ _ Hlow' Hlow) |].
    intros x [<- | Hin]; [exact (lessEq_trans _ _ _ Hlow' Hle) | exact (Hall x Hin)].
Qed.

Lemma fold_max_spec args :
  existsb isNaN args = false ->
  forall highest, isNaN highest = false ->
    isNaN (fold_left max_step args highest) = false /\
    lessEq highest (fold_left max_step args highest) = true /\
    (forall x, In x args -> lessEq x (fold_left max_step args highest) = true).
Proof.
  induction args as [| a args IH]; intros Hargs highest Hhighest; cbn [fold_left].
  - repeat split; [exact Hhighest | apply lessEq_refl; exact Hhighest | intros x []].
  - cbn [existsb] in Hargs. apply orb_false_iff in Hargs as [Ha Hargs].
    destruct (max_step_spec highest a Hhighest Ha) as (Hnan & Hhigh & Hle).
    destruct (IH Hargs (max_step highest a) Hnan) as (Hnan' & Hhigh' & Hall).
    repeat split; [exact Hnan' | exact (lessEq_trans _ _ _ Hhigh Hhigh') |].
    intros x [<- | Hin]; [exact (lessEq_trans _ _ _ Hle Hhigh') | exact (Hall x Hin)].
Qed.

(** [Math.min] and [Math.max] of numbers none of which is NaN bound each
    of them. *)
Lemma Math_min_spec args :
  existsb isNaN args = false ->
  isNaN (Math_min args) = false /\
  forall x, In x args -> lessEq (Math_min args) x = true.
Proof.
  intros Hargs. unfold Math_min. rewrite Hargs.
  destruct (fold_min_spec args Hargs Infinity eq_refl) as (Hnan & _ & Hall).
  split; assumption.
Qed.

Lemma Math_max_spec args :
  existsb isNaN args = false ->
  isNaN (Math_max args) = false /\
  forall x, In x args -> lessEq x (Math_max args) = true.
Proof.
  intros Hargs. unfold Math_max. rewrite Hargs.
  destruct (fold_max_spec args Hargs negInfinity eq_refl) as (Hnan & _ & Hall).
  split; assumption.
Qed.

Lemma finite_not_NaN coordinates : existsb isNaN (filter isFinite coordinates) = false.
Proof.
  induction coordinates as [| x coordinates IH]; [reflexivity |].
  cbn [filter]. destruct x; cbn; exact IH.
Qed.

(** One axis of [addPrimitive]. *)
Lemma axis_spec lowest highest coordinates :
  isNaN lowest = false -> isNaN highest = false ->
  let finite := filter isFinite coordinates in
  isNaN (Math_min (lowest :: finite)) = false /\
  isNaN (Math_max (highest :: finite)) = false /\
  lessEq (Math_min (lowest :: finite)) lowest = true /\
  lessEq highest (Math_max (highest :: finite)) = true /\
  (forall x, In x coordinates -> isFinite x = true ->
     lessEq (Math_min (lowest :: finite)) x = true /\
     lessEq x (Math_max (highest :: finite)) = true).
Proof.
  intros Hlowest Hhighest finite.
  assert (Hmin : existsb isNaN (lowest :: finite) = false).
  { cbn [existsb]. rewrite Hlowest. apply finite_not_NaN. }
  assert (Hmax : existsb isNaN (highest :: finite) = false).
  { cbn [existsb]. rewrite Hhighest. apply finite_not_NaN. }
  destruct (Math_min_spec _ Hmin) as [Hnan1 Hall1].
  destruct (Math_max_spec _ Hmax) as [Hnan2 Hall2].
  repeat split; try assumption.
  - apply Hall1. left. reflexivity.
  - apply Hall2. left. reflexivity.
  - apply Hall1. right. apply filter_In. split; assumption.
  - apply Hall2. right. apply filter_In. split; assumption.
Qed.

Lemma hasExtents_iff scene :
  hasExtents scene = true <->
  isNaN (minX scene) = false /\ isNaN (maxX scene) = false /\
  isNaN (minY scene) = false /\ isNaN (maxY scene) = false.
Proof.
  unfold hasExtents. rewrite !andb_true_iff, !negb_true_iff. tauto.
Qed.

Lemma widens_refl scene : hasExtents scene = true -> widens scene scene = true.
Proof.
  intros H. apply hasExtents_iff in H as (H1 & H2 & H3 & H4).
  unfold widens. rewrite !lessEq_refl by assumption. reflexivity.
Qed.

Lemma widens_trans a b c : widens a b = true -> widens b c = true -> widens a c = true.
Proof.
  unfold widens. rewrite !andb_true_iff.
  intros [[[H1 H2] H3] H4] [[[K1 K2] K3] K4].
  repeat split; eapply lessEq_trans; eassumption.
Qed.

Lemma addPrimitive_spec scene markup xs ys :
  hasExtents scene = true ->
  let scene' := addPrimitive scene (markup, xs, ys) in
  hasExtents scene' = true /\ widens scene scene' = true /\
  (forall x, In x xs -> isFinite x = true ->
     lessEq (minX scene') x = true /\ lessEq x (maxX scene') = true) /\
  (forall y, In y ys -> isFinite y = true ->
     lessEq (minY scene') y = true /\ lessEq y (maxY scene') = true).
Proof.
  intros H scene'. apply hasExtents_iff in H as (H1 & H2 & H3 & H4).
  destruct (axis_spec (minX scene) (maxX scene) xs H1 H2) as (A1 & A2 & A3 & A4 & A5).
  destruct (axis_spec (minY scene) (maxY scene) ys H3 H4) as (B1 & B2 & B3 & B4 & B5).
  subst scene'. unfold addPrimitive.
  split; [apply hasExtents_iff; cbn; tauto |].
  split; [unfold widens; cbn; rewrite A3, A4, B3, B4; reflexivity |].
  split; [exact A5 | exact B5].
Qed.

Lemma withMarkup_widens scene markup :
  hasExtents scene = true ->
  hasExtents (withMarkup scene markup) = true /\
  widens scene (withMarkup scene markup) = true.
Proof. intros H. split; [exact H | exact (widens_refl scene H)]. Qed.

Lemma addSvg_widens scene svg :
  hasExtents scene = true ->
  hasExtents (fst (addSvg scene svg)) = true /\
  widens scene (fst (addSvg scene svg)) = true.
Proof.
  intros H.
  assert (Hsame : hasExtents scene = true /\ widens scene scene = true)
    by (split; [exact H | exact (widens_refl scene H)]).
  destruct svg as [[[markup xs] ys] | | record | text]; cbn [addSvg fst].
  - destruct (addPrimitive_spec scene markup xs ys H) as (Ha & Hb & _). split; assumption.
  - exact Hsame.
  - destruct (nth_error record 1) as [svg1 |]; [destruct (nth_error record 2) as [svg2 |] |];
      cbn [fst]; try (apply withMarkup_widens; exact H).
    match goal with
    | |- context [addPrimitive scene (?markup, ?xs, ?ys)] =>
        destruct (addPrimitive_spec scene markup xs ys H) as (Ha & Hb & _)
    end.
    split; assumption.
  - destruct text as [| svg0 rest]; cbn [fst]; [exact Hsame |].
    apply withMarkup_widens; exact H.
Qed.

Lemma tryBlock_widens entitySvgMap entity entityType vertices scene :
  hasExtents scene = true ->
  let scene' := fst (snd (tryBlock entitySvgMap entity entityType vertices scene)) in
  hasExtents scene' = true /\ widens scene scene' = true.
Proof.
  intros H.
  assert (Hsame : hasExtents scene = true /\ widens scene scene = true)
    by (split; [exact H | exact (widens_refl scene H)]).
  unfold tryBlock.
  destruct (member entitySvgMap entityType) as [entitySvg | name |].
  - destruct (entitySvg entity vertices) as [ds0 [svg | error]];
      cbn [bindE ret snd fst]; [apply addSvg_widens; exact H | exact Hsame].
  - destruct (callInherited name entity) as [svg | error];
      cbn [lift snd fst]; [apply addSvg_widens; exact H | exact Hsame].
  - exact Hsame.
Qed.

(** The running extents never shrink and never become NaN. *)
Lemma renderEntity_widens entitySvgMap entity entityType vertices scene ds scene' :
  renderEntity entitySvgMap entity entityType vertices scene = (ds, Return scene') ->
  hasExtents scene = true ->
  hasExtents scene' = true /\ widens scene scene' = true.
Proof.
  unfold renderEntity. intros Hrun Hscene.
  pose proof (tryBlock_widens entitySvgMap entity entityType vertices scene Hscene) as Htry.
  destruct (tryBlock entitySvgMap entity entityType vertices scene)
    as [ds0 [scene0 [[] | error]]]; cbn in Hrun, Htry; injection Hrun as _ <-; exact Htry.
Qed.

Lemma renderAll_widens entitySvgMap groups :
  forall scene ds scene',
    renderAll entitySvgMap groups scene = (ds, Return scene') ->
    hasExtents scene = true ->
    hasExtents scene' = true /\ widens scene scene' = true.
Proof.
  induction groups as [| [[entity entityType] vertices] rest IH];
    intros scene ds scene' Hrun Hscene; cbn [renderAll] in Hrun.
  - injection Hrun as _ <-. split; [exact Hscene | apply widens_refl; exact Hscene].
  - destruct (renderEntity_returns entitySvgMap entity entityType vertices scene)
      as (ds1 & scene1 & H1).
    rewrite H1 in Hrun. cbn [bindE] in Hrun.
    destruct (renderAll entitySvgMap rest scene1) as [ds2 [scene2 | error]] eqn:H2;
      [| discriminate].
    injection Hrun as _ <-.
    destruct (renderEntity_widens _ _ _ _ _ _ _ H1 Hscene) as [Ha Hb].
    destruct (IH _ _ _ H2 Ha) as [Hc Hd].
    split; [exact Hc | exact (widens_trans _ _ _ Hb Hd)].
Qed.

(** X15.  The running extents enclose what was rendered.  When the loop of
    [entitiesSvg] ends, every finite coordinate that the interpreter of a
    dispatched entity returned lies between the minimum and the maximum of
    its axis ([minX] and [minY] are the corner of the bounding box that is
    returned): entities rendered later never narrow the extents, and no
    coordinate turns them into NaN. *)
Theorem extents_enclose_rendered_coordinates
    (entitySvgMap : list (string * EntitySvg)) (entities : list DxfRecord)
    (ds : list Diagnostic) (scene : Scene) (entity : DxfRecord) (entityType : string)
    (vertices : list DxfRecord) (entitySvg : EntitySvg) (ds' : list Diagnostic)
    (markup : string) (xs ys : list number) :
  entitiesLoop entitySvgMap O entities emptyScene = (ds, Return scene) ->
  In (entity, entityType, vertices) (dispatched O entities) ->
  lookup entitySvgMap entityType = Some entitySvg ->
  entitySvg entity vertices = (ds', Return (Some (markup, xs, ys))) ->
  (forall x, In x xs -> isFinite x = true ->
     lessEq (minX scene) x = true /\ lessEq x (maxX scene) = true) /\
  (forall y, In y ys -> isFinite y = true ->
     lessEq (minY scene) y = true /\ lessEq y (maxY scene) = true).
Proof.
  intros Hrun Hin Hmap Hsvg.
  rewrite entitiesLoop_renderAll in Hrun.
  destruct (in_split _ _ Hin) as (before & after & Hsplit).
  rewrite Hsplit, renderAll_app in Hrun.
  destruct (renderAll_returns entitySvgMap before emptyScene) as (ds1 & scene1 & H1).
  rewrite H1 in Hrun. cbn [bindE renderAll] in Hrun.
  destruct (renderAll_widens _ _ _ _ _ H1 eq_refl) as [Hext1 _].
  assert (H2 : renderEntity entitySvgMap entity entityType vertices scene1 =
               (ds', Return (addPrimitive scene1 (markup, xs, ys)))).
  { rewrite (renderEntity_own _ _ _ _ _ _ Hmap). cbn. rewrite Hsvg. cbn.
    rewrite app_nil_r. reflexivity. }
  rewrite H2 in Hrun. cbn [bindE] in Hrun.
  destruct (addPrimitive_spec scene1 markup xs ys Hext1) as (Hext2 & _ & HX & HY).
  destruct (renderAll entitySvgMap after (addPrimitive scene1 (markup, xs, ys)))
    as [ds3 [scene3 | error]] eqn:H3; [| destruct ds1; discriminate].
  assert (scene3 = scene) by (destruct ds1; injection Hrun as _ ->; reflexivity).
  subst scene3.
  destruct (renderAll_widens _ _ _ _ _ H3 Hext2) as [_ Hwide].
  unfold widens in Hwide. rewrite !andb_true_iff in Hwide.
  destruct Hwide as [[[W1 W2] W3] W4].
  split.
  - intros x Hx Hfin. destruct (HX x Hx Hfin) as [Ha Hb].
    split; [exact (lessEq_trans _ _ _ W1 Ha) | exact (lessEq_trans _ _ _ Hb W2)].
  - intros y Hy Hfin. destruct (HY y Hy Hfin) as [Ha Hb].
    split; [exact (lessEq_trans _ _ _ W3 Ha) | exact (lessEq_trans _ _ _ Hb W4)].
Qed.

(** Of three lines, the second of which is corrupt, the ends of the third,
    (3,-4) and (5,-8), lie within the extents 0..10 and -8..0. *)
Lemma extents_enclose_rendered_coordinates_witness :
  entitiesLoop
    (entitySvgMapAt Samples.barePlatform 0 Samples.noEntities Samples.hashColors) O
    [Samples.line_0_10; Samples.corruptLine; Samples.line_3_5] emptyScene =
  ([errorOccurred "Error: group code 10 is invalid (2000000)" Samples.corruptLine],
   Return
     {| s := jsx "line" [("data-5", PString "1A"); ("stroke", PString "currentColor");
                         ("x2", PNumber (ofZ 10))] +++
             jsx "line" [("data-5", PString "1C"); ("stroke", PString "currentColor");
                         ("x1", PNumber (ofZ 3)); ("y1", PNumber (ofZ (-4)));
                         ("x2", PNumber (ofZ 5)); ("y2", PNumber (ofZ (-8)))];
        minX := zero; maxX := ofZ 10; minY := ofZ (-8); maxY := negZero |}) /\
  (lessEq zero (ofZ 3) = true /\ lessEq (ofZ 3) (ofZ 10) = true) /\
  (lessEq (ofZ (-8)) (ofZ (-4)) = true /\ lessEq (ofZ (-4)) negZero = true).
Proof.
  assert (Hrun :
    entitiesLoop
      (entitySvgMapAt Samples.barePlatform 0 Samples.noEntities Samples.hashColors) O
      [Samples.line_0_10; Samples.corruptLine; Samples.line_3_5] emptyScene =
    ([errorOccurred "Error: group code 10 is invalid (2000000)" Samples.corruptLine],
     Return
       {| s := jsx "line" [("data-5", PString "1A"); ("stroke", PString "currentColor");
                           ("x2", PNumber (ofZ 10))] +++
               jsx "line" [("data-5", PString "1C"); ("stroke", PString "currentColor");
                           ("x1", PNumber (ofZ 3)); ("y1", PNumber (ofZ (-4)));
                           ("x2", PNumber (ofZ 5)); ("y2", PNumber (ofZ (-8)))];
          minX := zero; maxX := ofZ 10; minY := ofZ (-8); maxY := negZero |}))
    by (vm_compute; reflexivity).
  split; [exact Hrun |].
  destruct (extents_enclose_rendered_coordinates _ _ _ _
              Samples.line_3_5 "LINE" [] _ [] _ [ofZ 3; ofZ 5] [ofZ (-4); ofZ (-8)]
              Hrun
              ltac:(vm_compute; right; right; left; reflexivity)
              eq_refl
              ltac:(vm_compute; reflexivity)) as [HX HY].
  split.
  - exact (HX (ofZ 3) ltac:(left; reflexivity) eq_refl).
  - exact (HY (ofZ (-4)) ltac:(left; reflexivity) eq_refl).
Defined.

(** ** Polylines *)

Lemma sliceButLast_app a b :
  b <> "" -> sliceButLast (a +++ b) = a +++ sliceButLast b.
Proof.
  intros Hb. induction a as [| c a IH]; [reflexivity |].
  cbn [append sliceButLast]. rewrite IH.
  destruct (a +++ b) eqn:E; [| reflexivity].
  destruct a; [contradiction | discriminate E].
Qed.

Lemma sliceButLast_items (items : list string) :
  sliceButLast (fold_right (fun item rest => item +++ " " +++ rest) "" items) =
  join " " items.
Proof.
  induction items as [| item items IH]; [reflexivity |].
  cbn [fold_right]. destruct items as [| item' items'].
  - cbn [fold_right join]. rewrite sliceButLast_app by discriminate.
    cbn. apply string_app_empty_r.
  - rewrite sliceButLast_app.
    + rewrite sliceButLast_app.
      * rewrite IH. reflexivity.
      * cbn [fold_right]. destruct item'; discriminate.
    + cbn. discriminate.
Qed.

(** The loop of [polylinePoints] from the index [List.length xs0] on. *)
Lemma polylinePoints_loop xs ys :
  List.length xs = List.length ys ->
  forall xs0 ys0 points,
    List.length xs0 = List.length ys0 ->
    fold_left
      (fun points i =>
         points +++ elementToString (xs0 ++ xs) i +++ "," +++
         elementToString (ys0 ++ ys) i +++ " ")
      (seq (List.length xs0) (List.length xs)) points =
    points +++
    fold_right (fun item rest => item +++ " " +++ rest) "" (map pointText (combine xs ys)).
Proof.
  revert ys. induction xs as [| x xs IH]; intros ys Hlen xs0 ys0 points Hlen0.
  - cbn. symmetry. apply string_app_empty_r.
  - destruct ys as [| y ys]; [discriminate Hlen |].
    injection Hlen as Hlen.
    cbn [List.length seq fold_left combine map fold_right].
    assert (Hx : elementToString (xs0 ++ x :: xs) (List.length xs0) = numberToString x).
    { unfold elementToString.
      rewrite nth_error_app2, Nat.sub_diag by apply Nat.le_refl. reflexivity. }
    assert (Hy : elementToString (ys0 ++ y :: ys) (List.length xs0) = numberToString y).
    { unfold elementToString. rewrite Hlen0.
      rewrite nth_error_app2, Nat.sub_diag by apply Nat.le_refl. reflexivity. }
    rewrite Hx, Hy.
    replace (xs0 ++ x :: xs) with ((xs0 ++ [x]) ++ xs) by (rewrite <- app_assoc; reflexivity).
    replace (ys0 ++ y :: ys) with ((ys0 ++ [y]) ++ ys) by (rewrite <- app_assoc; reflexivity).
    replace (S (List.length xs0)) with (List.length (xs0 ++ [x]))
      by (rewrite length_app, Nat.add_comm; reflexivity).
    rewrite (IH ys Hlen (xs0 ++ [x]) (ys0 ++ [y]))
      by (rewrite !length_app, Hlen0; reflexivity).
    unfold pointText. cbn [fst snd]. rewrite !string_app_assoc. reflexivity.
Qed.

Lemma polylinePoints_joined (xs ys : list number) :
  List.length xs = List.length ys ->
  polylinePoints xs ys = join " " (map pointText (combine xs ys)).
Proof.
  intros Hlen. unfold polylinePoints.
  pose proof (polylinePoints_loop xs ys Hlen [] [] "" eq_refl) as Hloop.
  change (fold_left
            (fun points i =>
               points +++ elementToString xs i +++ "," +++ elementToString ys i +++ " ")
            (seq 0 (List.length xs)) "" =
          fold_right (fun item rest => item +++ " " +++ rest) ""
            (map pointText (combine xs ys))) in Hloop.
  rewrite Hloop. apply sliceButLast_items.
Qed.

(** X16.  For as many ordinates as abscissas, [polylinePoints] writes the
    points "x,y" in order, separated by single blanks: the blank that the
    loop writes after every point is removed after the last one only, and
    no character of a number is lost with it; without points the text is
    empty. *)
Theorem polyline_points_are_joined_pairs (xs ys : list number) :
  List.length xs = List.length ys ->
  polylinePoints xs ys = join " " (map pointText (combine xs ys)).
Proof. exact (polylinePoints_joined xs ys). Qed.

Lemma polyline_points_are_joined_pairs_witness :
  polylinePoints [ofZ 1; ofZ 2; ofZ 3] [zero; ofZ (-4); ofDyadic 1 (-1)] =
    "1,0 2,-4 3,0.5".
Proof.
  rewrite (polyline_points_are_joined_pairs
             [ofZ 1; ofZ 2; ofZ 3] [zero; ofZ (-4); ofDyadic 1 (-1)] eq_refl).
  vm_compute. reflexivity.
Defined.




(** X18.  [LWPOLYLINE] and [LEADER] read their coordinates without the
    numeric accessor: for every record they return a primitive and report
    nothing, whatever the values are, and the coordinates returned are all
    the values of the groups 10 and 20, the ordinates negated.  When the
    record has as many groups 20 as groups 10, the [points] attribute
    lists these pairs in order. *)
Theorem listed_coordinates_are_not_checked (dxf : Document) (options : Options)
    (entity : DxfRecord) (vertices : list DxfRecord) :
  List.length (getGroupCodeValues entity 10) = List.length (getGroupCodeValues entity 20) ->
  let points :=
    ("points", PString (join " " (map pointText (combine (listedXs entity) (listedYs entity)))))
  in
  Interpreters.LWPOLYLINE dxf options entity vertices =
    ([], Return (Some
       (jsx (polylineElement (Interpreters.flagsOf entity))
            (lineAttributes dxf options entity ++ [points]),
        listedXs entity, listedYs entity))) /\
  Interpreters.LEADER dxf options entity vertices =
    ([], Return (Some
       (jsx "polyline"
          (commonAttributes entity ++
           [points;
            ("stroke", PString (color dxf options entity));
            ("stroke-dasharray", ofOptionalString (strokeDasharray dxf options entity))]),
        listedXs entity, listedYs entity))).
Proof.
  intros Hlen points.
  assert (Hpoints : polylinePoints (listedXs entity) (listedYs entity) =
                    join " " (map pointText (combine (listedXs entity) (listedYs entity)))).
  { apply polylinePoints_joined. unfold listedXs, listedYs.
    rewrite !length_map. exact Hlen. }
  unfold Interpreters.LWPOLYLINE, Interpreters.LEADER, polylineElement, ret.
  fold (listedXs entity). fold (listedYs entity). cbv zeta. rewrite Hpoints.
  split; [| reflexivity].
  destruct (negb (bitAnd (Interpreters.flagsOf entity) (ofZ 1) =? 0)); reflexivity.
Qed.

(** A lightweight polyline from (0,0) to (2000000,1): the abscissa beyond
    the bound of the numeric accessor is rendered and returned. *)
Lemma listed_coordinates_are_not_checked_witness :
  Interpreters.LWPOLYLINE Samples.noEntities Samples.hashColors Cases.wideLwpolyline [] =
    ([], Return (Some
       (jsx "polyline"
          [("stroke", PString "currentColor"); ("points", PString "0,0 2000000,-1")],
        [zero; ofZ 2000000], [negZero; ofZ (-1)]))).
Proof.
  destruct (listed_coordinates_are_not_checked Samples.noEntities Samples.hashColors
              Cases.wideLwpolyline [] eq_refl) as [H _].
  rewrite H. vm_compute. reflexivity.
Defined.

(** ** Hatches *)

Lemma findIndex_absent code record : hasNoCode code record = true ->
  forall rest,
    Interpreters.findIndex code (record ++ rest) =
    let i := Interpreters.findIndex code rest in
    if i <? 0 then -1 else Z.of_nat (List.length record) + i.
Proof.
  intros H rest. induction record as [| [c v] record IH].
  - cbn [app List.length Z.of_nat]. cbv zeta.
    destruct (Interpreters.findIndex code rest <? 0) eqn:E; [| reflexivity].
    revert E. clear. induction rest as [| [c v] rest IH]; intros E; [reflexivity |].
    cbn [Interpreters.findIndex] in *. destruct (c =? code); [discriminate E |].
    destruct (Interpreters.findIndex code rest <? 0) eqn:E'; [reflexivity |].
    apply Z.ltb_lt in E. apply Z.ltb_ge in E'. lia.
  - cbn [hasNoCode forallb fst] in H. apply andb_true_iff in H as [Hc H].
    apply negb_true_iff in Hc.
    cbn [app Interpreters.findIndex]. rewrite Hc, (IH H). cbv zeta.
    destruct (Interpreters.findIndex code rest <? 0) eqn:E; [reflexivity |].
    apply Z.ltb_ge in E.
    assert (Hpos : (Z.of_nat (List.length record) + Interpreters.findIndex code rest <? 0)
                   = false) by (apply Z.ltb_ge; lia).
    rewrite Hpos. cbn [List.length]. lia.
Qed.

Lemma findIndex_found code value rest :
  Interpreters.findIndex code ((code, value) :: rest) = 0.
Proof. cbn [Interpreters.findIndex]. rewrite Z.eqb_refl. reflexivity. Qed.

(** The local [paths] of [HATCH]: from the first group 92 up to the first
    group 97. *)
Lemma hatch_paths before opening middle closing after :
  hasNoCode 92 before = true ->
  hasNoCode 97 before = true ->
  hasNoCode 97 middle = true ->
  let entity := before ++ (92, opening) :: middle ++ (97, closing) :: after in
  slice (Interpreters.findIndex 92 entity) (Interpreters.findIndex 97 entity) entity =
  (92, opening) :: middle.
Proof.
  intros H92 H97 Hmiddle entity.
  assert (Hstart : Interpreters.findIndex 92 entity = Z.of_nat (List.length before)).
  { unfold entity. rewrite (findIndex_absent 92 before H92), findIndex_found.
    cbv zeta. cbn [Z.ltb Z.compare]. lia. }
  assert (Hstop : Interpreters.findIndex 97 entity =
                  Z.of_nat (List.length before) + (1 + Z.of_nat (List.length middle))).
  { unfold entity. rewrite (findIndex_absent 97 before H97). cbv zeta.
    change ((92, opening) :: middle ++ (97, closing) :: after)
      with (((92, opening) :: middle) ++ (97, closing) :: after).
    rewrite (findIndex_absent 97 ((92, opening) :: middle)),  findIndex_found
      by (cbn [hasNoCode forallb fst Z.eqb Pos.eqb negb andb]; exact Hmiddle).
    cbv zeta. cbn [Z.ltb Z.compare List.length].
    destruct (Z.of_nat (S (List.length middle)) + 0 <? 0) eqn:E;
      [apply Z.ltb_lt in E; lia |].
    lia. }
  rewrite Hstart, Hstop. unfold slice.
  assert (Hlen : Z.of_nat (List.length entity) =
                 Z.of_nat (List.length before) + 1 + Z.of_nat (List.length middle) + 1 +
                 Z.of_nat (List.length after)).
  { unfold entity. rewrite length_app. cbn [List.length]. rewrite length_app.
    cbn [List.length]. unfold DxfRecord, GroupCode in *. lia. }
  rewrite Hlen. unfold DxfRecord, GroupCode in *.
  destruct (Z.of_nat (List.length before) <? 0) eqn:E1; [apply Z.ltb_lt in E1; lia |].
  destruct (Z.of_nat (List.length before) + (1 + Z.of_nat (List.length middle)) <? 0) eqn:E2;
    [apply Z.ltb_lt in E2; lia |].
  rewrite !Z.min_l by lia.
  replace (Z.of_nat (List.length before) + (1 + Z.of_nat (List.length middle)) -
           Z.of_nat (List.length before))
    with (Z.of_nat (S (List.length middle))) by lia.
  rewrite !Nat2Z.id. unfold entity.
  rewrite skipn_app, skipn_all, Nat.sub_diag. cbn [app skipn].
  change ((92, opening) :: middle ++ (97, closing) :: after)
    with (((92, opening) :: middle) ++ (97, closing) :: after).
  change (S (List.length middle)) with (List.length ((92, opening) :: middle)).
  rewrite firstn_app, firstn_all, Nat.sub_diag. cbn [firstn]. apply app_nil_r.
Qed.

Lemma getGroupCodeValues_cons_other code c v record :
  (c =? code) = false ->
  getGroupCodeValues ((c, v) :: record) code = getGroupCodeValues record code.
Proof. intros H. unfold getGroupCodeValues. cbn [filter fst]. rewrite H. reflexivity. Qed.

(** X19.  [HATCH] reads the coordinates of its boundary only.  For a
    record with a group 92, a later group 97 and no other group of either
    code before them, the path and the coordinates that the interpreter
    returns are those of the groups 10, 11, 20 and 21 between the two
    markers; points listed before the first marker (the elevation) or
    after the second (the seeds) take no part, and no value is rejected. *)
Theorem hatch_reads_its_boundary_only (dxf : Document) (options : Options)
    (before middle after : DxfRecord) (opening closing : string)
    (vertices : list DxfRecord) :
  hasNoCode 92 before = true ->
  hasNoCode 97 before = true ->
  hasNoCode 97 middle = true ->
  let entity := before ++ (92, opening) :: middle ++ (97, closing) :: after in
  let x1s := map stringToNumber (getGroupCodeValues middle 10) in
  let y1s := map (fun s => neg (stringToNumber s)) (getGroupCodeValues middle 20) in
  let x2s := map stringToNumber (getGroupCodeValues middle 11) in
  let y2s := map (fun s => neg (stringToNumber s)) (getGroupCodeValues middle 21) in
  Interpreters.HATCH dxf options entity vertices =
    ([], Return (Some
       (jsx "path"
          (commonAttributes entity ++
           [("d", PString (Interpreters.HATCH_d x1s y1s x2s y2s));
            ("fill", PString (color dxf options entity));
            ("fill-opacity", PString ".3")]),
        x1s ++ x2s, y1s ++ y2s))).
Proof.
  intros H92 H97 Hmiddle entity x1s y1s x2s y2s.
  pose proof (hatch_paths before opening middle closing after H92 H97 Hmiddle) as Hpaths.
  cbv zeta in Hpaths. fold entity in Hpaths.
  unfold Interpreters.HATCH. cbv zeta. rewrite Hpaths.
  rewrite !getGroupCodeValues_cons_other by reflexivity.
  reflexivity.
Qed.

(** A hatch with the elevation point (9,9), one edge from (1,1) to (5,1)
    and the seed point (7,7): only the edge is drawn and returned. *)
Lemma hatch_reads_its_boundary_only_witness :
  Interpreters.HATCH Samples.noEntities Samples.hashColors Cases.hatch [] =
    ([], Return (Some
       (jsx "path" [("d", PString "M1 -1L5 -1"); ("fill", PString "currentColor");
                    ("fill-opacity", PString ".3")],
        [ofZ 1; ofZ 5], [ofZ (-1); ofZ (-1)]))).
Proof.
  pose proof (hatch_reads_its_boundary_only Samples.noEntities Samples.hashColors
                [(0, "HATCH"); (10, "9"); (20, "9")]
                [(10, "1"); (20, "1"); (11, "5"); (21, "1")]
                [(10, "7"); (20, "7")] "1" "0" [] eq_refl eq_refl eq_refl) as H.
  cbv zeta in H.
  change ([(0, "HATCH"); (10, "9"); (20, "9")] ++
          (92, "1") :: [(10, "1"); (20, "1"); (11, "5"); (21, "1")] ++
          (97, "0") :: [(10, "7"); (20, "7")]) with Cases.hatch in H.
  rewrite H. vm_compute. reflexivity.
Defined.

Lemma fold_left_keeps_head (edge : nat -> string) (indices : list nat) :
  forall c d,
    exists rest,
      fold_left (fun d i => d +++ edge i) indices (String c d) = String c rest.
Proof.
  induction indices as [| i indices IH]; intros c d; cbn [fold_left].
  - exists d. reflexivity.
  - cbn [append]. apply IH.
Qed.

(** X20.  The path data that [HATCH] writes is empty, when the boundary has
    no group 10, or begins with a move: the first edge never continues a
    path that does not exist, whatever its coordinates. *)
Theorem hatch_path_begins_with_a_move (x1s y1s x2s y2s : list number) :
  (x1s = [] /\ Interpreters.HATCH_d x1s y1s x2s y2s = "") \/
  (exists rest, Interpreters.HATCH_d x1s y1s x2s y2s = String "M" rest).
Proof.
  destruct x1s as [| x1 x1s]; [left; split; reflexivity |].
  right. unfold Interpreters.HATCH_d. cbn [List.length seq fold_left append].
  assert (Hfirst : exists rest,
            Interpreters.HATCH_edge (x1 :: x1s) y1s x2s y2s 0 = String "M" rest).
  { unfold Interpreters.HATCH_edge. cbn [nth_error Nat.eqb strictEqOptional andb].
    destruct (match x2s with [] => None | x :: _ => Some x end) as [x2 |];
      [destruct (negb (truthy x2)) |]; eexists; reflexivity. }
  destruct Hfirst as [rest ->]. apply fold_left_keeps_head.
Qed.

(** ** Dimension styles *)

Lemma overridesLoop_block pairs rest :
  closesBlock rest = true ->
  forall result,
    overridesLoop (overrideGroups pairs ++ rest) result =
      Return (rev (overrideBindings pairs) ++ result).
Proof.
  intros Hrest. induction pairs as [| [key [code value]] pairs IH]; intros result.
  - cbn [overrideGroups flat_map app overrideBindings map rev].
    destruct rest as [| [code value] rest]; [reflexivity |].
    cbn [closesBlock] in Hrest. cbn [overridesLoop]. rewrite Hrest. reflexivity.
  - cbn [overrideGroups flat_map app overrideBindings map rev fst snd overridesLoop].
    cbn [Z.eqb Pos.eqb].
    change (flat_map (fun pair => [(1070, fst pair); snd pair]) pairs)
      with (overrideGroups pairs).
    rewrite IH. rewrite <- app_assoc. reflexivity.
Qed.

(** The groups before the first group 1000 play no part in the search for
    the style overrides. *)
Lemma overrides_skip before rest :
  hasNoCode 1000 before = true ->
  collectDimensionStyleOverrides (before ++ rest) = collectDimensionStyleOverrides rest.
Proof.
  intros H. induction before as [| [code value] before IH]; [reflexivity |].
  cbn [hasNoCode forallb fst] in H. apply andb_true_iff in H as [Hcode H].
  cbn [app collectDimensionStyleOverrides].
  apply negb_true_iff in Hcode. rewrite Hcode. cbn [andb]. exact (IH H).
Qed.

(** X21.  The style overrides of a dimension are read from its DSTYLE
    block: after the marker (a group 1000 that reads DSTYLE once trimmed)
    and the opening group 1002, every group 1070 gives a key and the group
    that follows it, whatever its code, the value, up to the next group
    1002 or the end of the record; the bindings are returned with the
    last one first, so that a key set twice has its later value. *)
Theorem style_overrides_are_read_from_the_block (before : DxfRecord)
    (marker opening : string) (pairs : list (string * GroupCode)) (rest : DxfRecord) :
  hasNoCode 1000 before = true ->
  trim marker = "DSTYLE" ->
  trim opening = "{" ->
  closesBlock rest = true ->
  collectDimensionStyleOverrides
    (before ++ (1000, marker) :: (1002, opening) :: overrideGroups pairs ++ rest) =
  Return (Some (rev (overrideBindings pairs))).
Proof.
  intros Hbefore Hmarker Hopening Hrest.
  rewrite (overrides_skip _ _ Hbefore).
  cbn [collectDimensionStyleOverrides]. rewrite Hmarker, Hopening.
  cbn [Z.eqb Pos.eqb String.eqb Ascii.eqb Bool.eqb andb].
  rewrite (overridesLoop_block pairs rest Hrest). cbn [bind]. rewrite app_nil_r.
  reflexivity.
Qed.

(** The overrides of three decimals (the value sits in a group 1070
    itself) and a text height of 2.5, and the styles that result. *)
Lemma style_overrides_are_read_from_the_block_witness :
  collectDimensionStyleOverrides (Cases.dimension "0") =
    Return (Some [(ofZ 140, "2.5"); (ofZ 271, "3")]) /\
  collectDimensionStyles Samples.noEntities (Cases.dimension "0") =
    Return {| DIMSCALE := ofZ 1; DIMTP := NaN; DIMTM := NaN; DIMTOL := zero;
              DIMTXT := ofDyadic 5 (-1); DIMLFAC := ofZ 1; DIMCLRT := NaN;
              DIMDEC := ofZ 3 |}.
Proof.
  split.
  - pose proof (style_overrides_are_read_from_the_block
                  [(0, "DIMENSION"); (11, "1"); (21, "2"); (70, "0")] "DSTYLE" "{"
                  [("271", (1070, "3")); ("140", (1040, "2.5"))] [(1002, "}")]
                  eq_refl eq_refl eq_refl eq_refl) as H.
    vm_compute in H. vm_compute. exact H.
  - vm_compute. reflexivity.
Defined.

(** X22.  A dimension without a group 1000, in a document without tables
    and without header, has the built-in styles: scale 1, no tolerances,
    text height 1, length factor 1, no text colour and four decimals. *)
Theorem default_dimension_styles (dxf : Document) (dimension : DxfRecord) :
  hasNoCode 1000 dimension = true ->
  TABLES dxf = None ->
  HEADER dxf = None ->
  collectDimensionStyles dxf dimension = Return defaultDimStyles.
Proof.
  intros Hdimension Htables Hheader. unfold collectDimensionStyles.
  pose proof (overrides_skip dimension [] Hdimension) as Hnone.
  rewrite app_nil_r in Hnone. rewrite Hnone. cbn [collectDimensionStyleOverrides bind].
  unfold dimensionStyle, findDimensionStyle, headerVariable.
  rewrite Htables, Hheader. reflexivity.
Qed.

Lemma default_dimension_styles_witness :
  collectDimensionStyles Samples.noEntities [(0, "DIMENSION"); (3, "STANDARD")] =
    Return defaultDimStyles.
Proof.
  exact (default_dimension_styles Samples.noEntities [(0, "DIMENSION"); (3, "STANDARD")]
           eq_refl eq_refl eq_refl).
Defined.

(** X23.  A dimension whose record ends with the DSTYLE marker, the
    opening group missing, is not rendered: the search for the style
    overrides reads past the end of the record, and [DIMENSION] throws the
    TypeError before it reads anything else. *)
Theorem truncated_style_marker_throws (platform : Platform) (dxf : Document)
    (options : Options) (parseDxfMTextContent : string -> list MTextContent)
    (resolveFont : option (Font -> option Font)) (before : DxfRecord) (marker : string)
    (vertices : list DxfRecord) :
  hasNoCode 1000 before = true ->
  trim marker = "DSTYLE" ->
  Interpreters.DIMENSION platform dxf options parseDxfMTextContent resolveFont
    (before ++ [(1000, marker)]) vertices =
  ([], Throw (undefinedProperty "0")).
Proof.
  intros Hbefore Hmarker. unfold Interpreters.DIMENSION, collectDimensionStyles.
  rewrite (overrides_skip _ _ Hbefore). cbn [collectDimensionStyleOverrides].
  rewrite Hmarker. reflexivity.
Qed.

Lemma truncated_style_marker_throws_witness :
  Interpreters.DIMENSION Samples.barePlatform Samples.noEntities Samples.hashColors
    Cases.plainText None
    [(0, "DIMENSION"); (11, "2000000"); (1000, " DSTYLE")] [] =
  ([], Throw "TypeError: Cannot read properties of undefined (reading '0')").
Proof.
  exact (truncated_style_marker_throws Samples.barePlatform Samples.noEntities
           Samples.hashColors Cases.plainText None
           [(0, "DIMENSION"); (11, "2000000")] " DSTYLE" [] eq_refl eq_refl).
Defined.

Lemma reads_small_dimension_types t :
  0 <= t < 256 -> readsDimensionType t = true.
Proof.
  intros Ht.
  assert (Hall : forallb (fun n => readsDimensionType (Z.of_nat n)) (seq 0 256) = true)
    by (vm_compute; reflexivity).
  rewrite forallb_forall in Hall.
  specialize (Hall (Z.to_nat t)). rewrite Z2Nat.id in Hall by lia.
  apply Hall. apply in_seq. lia.
Qed.

(** X24.  The sub-types of a dimension that are not rendered are reported
    and omitted, without a fault.  For a dimension whose style collection
    and text position (groups 11 and 21) are read, and whose group 70 is
    the numeral of a type [t] below 256: when the three low bits of [t]
    are 2 or 5 (angular), [DIMENSION] reports "Angular dimension cannot be
    rendered yet." with the record and returns nothing; when they are 7,
    it reports "Unknown dimension type." and returns nothing. *)
Theorem unsupported_dimension_is_reported (platform : Platform) (dxf : Document)
    (options : Options) (parseDxfMTextContent : string -> list MTextContent)
    (resolveFont : option (Font -> option Font)) (entity : DxfRecord)
    (vertices : list DxfRecord) (dimStyles : DimStyles) (tx ty : number) (t : Z) :
  collectDimensionStyles dxf entity = Return dimStyles ->
  dollar_number entity 11 None = Return tx ->
  dollar_number entity 21 None = Return ty ->
  getGroupCodeValue entity 70 = Some (stringOfZ t) ->
  0 <= t < 256 ->
  let rendering :=
    Interpreters.DIMENSION platform dxf options parseDxfMTextContent resolveFont
      entity vertices in
  (t mod 8 = 2 \/ t mod 8 = 5 -> rendering = ([angularDimension entity], Return None)) /\
  (t mod 8 = 7 -> rendering = ([unknownDimension entity], Return None)).
Proof.
  intros Hstyles Htx Hty Htype Ht rendering. subst rendering.
  pose proof (reads_small_dimension_types t Ht) as Hreads.
  unfold readsDimensionType in Hreads.
  assert (Hsame : dollar_number entity 70 (Some zero) =
                  dollar_number [(70, stringOfZ t)] 70 (Some zero)).
  { unfold dollar_number. rewrite Htype. reflexivity. }
  destruct (dollar_number [(70, stringOfZ t)] 70 (Some zero)) as [dimensionType | e];
    [| discriminate Hreads].
  apply Z.eqb_eq in Hreads.
  unfold Interpreters.DIMENSION. rewrite Hstyles, Htx, Hty, Hsame.
  cbn [lift bind bindE app]. rewrite Hreads.
  split; [intros [-> | ->] | intros ->]; reflexivity.
Qed.

(** An angular dimension (type 2) and a dimension of the type 39, whose
    low bits are 7. *)
Lemma unsupported_dimension_is_reported_witness :
  Interpreters.DIMENSION Samples.barePlatform Samples.noEntities Samples.hashColors
    Cases.plainText None (Cases.dimension "2") [] =
    ([angularDimension (Cases.dimension "2")], Return None) /\
  Interpreters.DIMENSION Samples.barePlatform Samples.noEntities Samples.hashColors
    Cases.plainText None (Cases.dimension "39") [] =
    ([unknownDimension (Cases.dimension "39")], Return None).
Proof.
  split.
  - destruct (unsupported_dimension_is_reported Samples.barePlatform Samples.noEntities
                Samples.hashColors Cases.plainText None (Cases.dimension "2") []
                {| DIMSCALE := ofZ 1; DIMTP := NaN; DIMTM := NaN; DIMTOL := zero;
                   DIMTXT := ofDyadic 5 (-1); DIMLFAC := ofZ 1; DIMCLRT := NaN;
                   DIMDEC := ofZ 3 |}
                (ofZ 1) (ofZ 2) 2
                ltac:(vm_compute; reflexivity) ltac:(vm_compute; reflexivity)
                ltac:(vm_compute; reflexivity) eq_refl ltac:(lia)) as [H _].
    apply H. left. reflexivity.
  - destruct (unsupported_dimension_is_reported Samples.barePlatform Samples.noEntities
                Samples.hashColors Cases.plainText None (Cases.dimension "39") []
                {| DIMSCALE := ofZ 1; DIMTP := NaN; DIMTM := NaN; DIMTOL := zero;
                   DIMTXT := ofDyadic 5 (-1); DIMLFAC := ofZ 1; DIMCLRT := NaN;
                   DIMDEC := ofZ 3 |}
                (ofZ 1) (ofZ 2) 39
                ltac:(vm_compute; reflexivity) ltac:(vm_compute; reflexivity)
                ltac:(vm_compute; reflexivity) eq_refl ltac:(lia)) as [_ H].
    apply H. reflexivity.
Defined.

(** ** Multi-line text *)

Lemma MTEXT_content_plain resolveFont content restContents :
  isSwitch content = false ->
  MTEXT_content resolveFont content restContents =
  MTEXT_content resolveFont content "" +++ restContents.
Proof.
  intros H. destruct content as [text | contents | format]; cbn [MTEXT_content].
  - rewrite string_app_assoc. reflexivity.
  - rewrite string_app_assoc. reflexivity.
  - cbn [isSwitch] in H.
    destruct (format_S format) as [[[numerator separator] denominator] |].
    + rewrite string_app_assoc. reflexivity.
    + destruct (format_f format) as [[| c f] |]; try discriminate H;
        (destruct (format_Q format) as [Q |]; [rewrite H |]; reflexivity).
Qed.

Lemma MTEXT_content_sequence resolveFont contents restContents :
  MTEXT_content resolveFont (Sequence contents) restContents =
  MTEXT_contents contents resolveFont +++ restContents.
Proof.
  cbn [MTEXT_content]. f_equal.
  induction contents as [| content contents IH]; [reflexivity |].
  cbn [MTEXT_contents]. rewrite IH. reflexivity.
Qed.

(** X25.  The tokens of a multi-line text are laid out from left to right.
    Tokens that are no font switch and no oblique angle (text, stacked
    fractions, nested sequences, other formatting) are written one after
    the other, before the markup of what follows them; and a nested
    sequence is laid out on its own, so that a switch inside it ends with
    the sequence and does not reach the tokens after it. *)
Theorem text_tokens_are_laid_out_in_order (resolveFont : option (Font -> option Font))
    (before after : list MTextContent) :
  forallb (fun content => negb (isSwitch content)) before = true ->
  MTEXT_contents (before ++ after) resolveFont =
    MTEXT_contents before resolveFont +++ MTEXT_contents after resolveFont /\
  (forall contents,
     MTEXT_contents (Sequence contents :: after) resolveFont =
       MTEXT_contents contents resolveFont +++ MTEXT_contents after resolveFont).
Proof.
  intros H. split; [| intros contents; apply MTEXT_content_sequence].
  induction before as [| content before IH]; [reflexivity |].
  cbn [forallb] in H. apply andb_true_iff in H as [Hcontent H].
  apply negb_true_iff in Hcontent.
  cbn [app MTEXT_contents]. rewrite (IH H).
  rewrite (MTEXT_content_plain _ _ (_ +++ _) Hcontent).
  rewrite (MTEXT_content_plain _ _ (MTEXT_contents before resolveFont) Hcontent).
  rewrite string_app_assoc. reflexivity.
Qed.

(** A text, the fraction 1/2, a switch to Arial bold and a text; and the
    same switch inside a sequence. *)
Lemma text_tokens_are_laid_out_in_order_witness :
  MTEXT_contents ([Text "x="; Cases.half] ++ [Cases.arialBold; Text "y"]) None =
    "x=" +++
    jsx "tspan"
      [("children",
        PArray [jsx "tspan" [("dy", PString "-.5em"); ("children", PString "1")];
                jsx "tspan" [("dy", PString "1em"); ("dx", PString "-0.5em");
                             ("children", PString "2")]])] +++
    jsx "tspan" [("font-family", PString "Arial"); ("font-weight", PNumber (ofZ 700));
                 ("children", PString "y")] /\
  MTEXT_contents [Sequence [Cases.arialBold; Text "a"]; Text "b"] None =
    jsx "tspan" [("font-family", PString "Arial"); ("font-weight", PNumber (ofZ 700));
                 ("children", PString "a")] +++ "b".
Proof.
  destruct (text_tokens_are_laid_out_in_order None [Text "x="; Cases.half]
              [Cases.arialBold; Text "y"] eq_refl) as [H1 _].
  destruct (text_tokens_are_laid_out_in_order None [] [Text "b"] eq_refl) as [_ H2].
  split.
  - rewrite H1. vm_compute. reflexivity.
  - rewrite (H2 [Cases.arialBold; Text "a"]). vm_compute. reflexivity.
Defined.

(** X26.  The attachment codes 1 to 9 of a multi-line text are the cells
    of a grid of three rows and three columns: the row gives the baseline
    (top, middle, bottom) and the column the anchor (start, which is left
    out, middle, end). *)
Theorem attachment_point_is_row_and_column (row column : Z) :
  0 <= row < 3 ->
  0 <= column < 3 ->
  MTEXT_attachmentPoint (Some (stringOfZ (3 * row + column + 1))) =
    (attachmentRow row, attachmentColumn column).
Proof.
  intros Hrow Hcolumn.
  assert (Hr : row = 0 \/ row = 1 \/ row = 2) by lia.
  assert (Hc : column = 0 \/ column = 1 \/ column = 2) by lia.
  destruct Hr as [-> | [-> | ->]]; destruct Hc as [-> | [-> | ->]];
    vm_compute; reflexivity.
Qed.

(** The code 6: middle row, last column. *)
Lemma attachment_point_is_row_and_column_witness :
  MTEXT_attachmentPoint (Some "6") = (Some "central", Some "end").
Proof.
  exact (attachment_point_is_row_and_column 1 2 ltac:(lia) ltac:(lia)).
Defined.

(** ** Tables *)

Lemma slice_middle {A : Type} (pre cur rest : list A) :
  slice (Z.of_nat (List.length pre)) (Z.of_nat (List.length pre + List.length cur))
        (pre ++ cur ++ rest) = cur.
Proof.
  unfold slice. rewrite !length_app.
  destruct (Z.of_nat (List.length pre) <? 0) eqn:E1; [apply Z.ltb_lt in E1; lia |].
  destruct (Z.of_nat (List.length pre + List.length cur) <? 0) eqn:E2;
    [apply Z.ltb_lt in E2; lia |].
  rewrite !Z.min_l by lia.
  replace (Z.of_nat (List.length pre + List.length cur) - Z.of_nat (List.length pre))
    with (Z.of_nat (List.length cur)) by lia.
  rewrite !Nat2Z.id.
  rewrite skipn_app, skipn_all, Nat.sub_diag. cbn [app skipn].
  rewrite firstn_app, firstn_all, Nat.sub_diag. cbn [firstn]. apply app_nil_r.
Qed.

(** The loop that cuts a record into cells, from the index after the
    current cell on, gives the runs of the groups that are left. *)
Lemma cellsLoop_runs (entity : DxfRecord) :
  forall rest pre cur cells,
    entity = pre ++ cur ++ rest ->
    Table.cellsLoop entity (seq (List.length pre + List.length cur) (List.length rest))
      (Z.of_nat (List.length pre)) cells =
    cells ++ runs cur rest.
Proof.
  induction rest as [| [code value] rest IH]; intros pre cur cells Hentity.
  - cbn [List.length seq Table.cellsLoop runs]. f_equal. f_equal.
    subst entity. rewrite app_nil_r.
    pose proof (slice_middle pre cur []) as H. rewrite app_nil_r in H.
    rewrite length_app, Nat2Z.inj_add. rewrite Nat2Z.inj_add in H. exact H.
  - cbn [List.length seq Table.cellsLoop runs].
    assert (Hnth : nth_error entity (List.length pre + List.length cur) = Some (code, value)).
    { subst entity. rewrite app_assoc, nth_error_app2 by (rewrite length_app; lia).
      rewrite length_app, Nat.sub_diag. reflexivity. }
    rewrite Hnth. destruct (code =? 171) eqn:Ecode.
    + assert (Hcell : slice (Z.of_nat (List.length pre))
                        (Z.of_nat (List.length pre + List.length cur)) entity = cur).
      { subst entity. apply slice_middle. }
      rewrite Hcell.
      replace (S (List.length pre + List.length cur))
        with (List.length (pre ++ cur) + List.length [(code, value)])%nat
        by (rewrite length_app; cbn [List.length]; lia).
      replace (List.length pre + List.length cur)%nat with (List.length (pre ++ cur))
        by (rewrite length_app; reflexivity).
      rewrite (IH (pre ++ cur) [(code, value)])
        by (subst entity; rewrite <- app_assoc; reflexivity).
      rewrite <- app_assoc. reflexivity.
    + replace (S (List.length pre + List.length cur))
        with (List.length pre + List.length (cur ++ [(code, value)]))%nat
        by (rewrite length_app; cbn [List.length]; lia).
      apply IH. subst entity. rewrite <- app_assoc. reflexivity.
Qed.

Lemma runs_body body : hasNoCode 171 body = true ->
  forall current rest, runs current (body ++ rest) = runs (current ++ body) rest.
Proof.
  intros H. induction body as [| [code value] body IH]; intros current rest.
  - rewrite app_nil_r. reflexivity.
  - cbn [hasNoCode forallb fst] in H. apply andb_true_iff in H as [Hcode H].
    apply negb_true_iff in Hcode. cbn [app runs]. rewrite Hcode.
    rewrite (IH H). rewrite <- app_assoc. reflexivity.
Qed.

Lemma runs_cells cells :
  forallb (fun cell => hasNoCode 171 (snd cell)) cells = true ->
  forall value body,
    hasNoCode 171 body = true ->
    runs [(171, value)] (body ++ flat_map cellGroups cells) =
    ((171, value) :: body) :: map cellGroups cells.
Proof.
  induction cells as [| [value' body'] cells IH]; intros Hcells value body Hbody.
  - cbn [flat_map map]. rewrite (runs_body body Hbody). reflexivity.
  - cbn [forallb snd] in Hcells. apply andb_true_iff in Hcells as [Hbody' Hcells].
    rewrite (runs_body body Hbody).
    cbn [flat_map map cellGroups fst snd app runs Z.eqb Pos.eqb].
    f_equal. exact (IH Hcells value' body' Hbody').
Qed.

Lemma cellsOf_from_marker before value rest :
  hasNoCode 171 before = true ->
  Table.cellsOf (before ++ (171, value) :: rest) = runs [(171, value)] rest.
Proof.
  intros Hbefore. unfold Table.cellsOf. cbv zeta.
  rewrite (findIndex_absent 171 before Hbefore), findIndex_found.
  cbv zeta. cbn [Z.ltb Z.compare]. rewrite Z.add_0_r, length_app. cbn [List.length].
  etransitivity;
    [| exact (cellsLoop_runs (before ++ (171, value) :: rest) rest before [(171, value)] []
                eq_refl)].
  f_equal. unfold DxfRecord, GroupCode in *.
  f_equal; cbn [List.length]; lia.
Qed.

(** X27.  [ACAD_TABLE] cuts its record into cells at the groups 171: for a
    record made of groups without a code 171 followed by one or more
    cells, each a group 171 and the groups up to the next one, the local
    [cells] holds exactly these cells, in order; nothing of the record
    before the first marker belongs to a cell. *)
Theorem table_cells_start_at_each_marker (before : DxfRecord)
    (cell : string * DxfRecord) (cells : list (string * DxfRecord)) :
  hasNoCode 171 before = true ->
  forallb (fun cell => hasNoCode 171 (snd cell)) (cell :: cells) = true ->
  Table.cellsOf (before ++ flat_map cellGroups (cell :: cells)) =
    map cellGroups (cell :: cells).
Proof.
  intros Hbefore Hcells. destruct cell as [value body].
  cbn [forallb snd] in Hcells. apply andb_true_iff in Hcells as [Hbody Hcells].
  cbn [flat_map map cellGroups fst snd app].
  rewrite (cellsOf_from_marker before value _ Hbefore).
  apply runs_cells; assumption.
Qed.

(** A table of two rows and two columns, whose second cell holds a
    block. *)
Lemma table_cells_start_at_each_marker_witness :
  Table.cellsOf Cases.table =
    [[(171, "1"); (1, "a")]; [(171, "2")]; [(171, "1"); (1, "c"); (173, "1")];
     [(171, "1"); (1, "d")]].
Proof.
  exact (table_cells_start_at_each_marker
           [(0, "ACAD_TABLE"); (10, "5"); (20, "5"); (141, "2"); (141, "3");
            (142, "10"); (142, "20")]
           ("1", [(1, "a")])
           [("2", []); ("1", [(1, "c"); (173, "1")]); ("1", [(1, "d")])]
           eq_refl eq_refl).
Defined.

Lemma cellSvg_reports options parseDxfMTextContent resolveFont entity xs ys
    lineColor textColor state cell :
  exists state',
    Table.cellSvg options parseDxfMTextContent resolveFont entity xs ys lineColor
      textColor state cell =
    (if isBlockCell cell then [blockCell entity cell] else [], Return state').
Proof.
  unfold Table.cellSvg, isBlockCell.
  destruct state as [[s xi] yi]. cbv zeta.
  destruct (optionEqb (dollar_trim cell 171) "2");
    cbn [bindE warn ret app];
    destruct (S xi =? List.length xs - 1)%nat; eexists; reflexivity.
Qed.

Lemma cellsSvg_reports options parseDxfMTextContent resolveFont entity xs ys
    lineColor textColor cells :
  forall state,
    exists state',
      Table.cellsSvg options parseDxfMTextContent resolveFont entity xs ys lineColor
        textColor cells state =
      (map (blockCell entity) (filter isBlockCell cells), Return state').
Proof.
  induction cells as [| cell cells IH]; intros state.
  - exists state. reflexivity.
  - cbn [Table.cellsSvg filter].
    destruct (cellSvg_reports options parseDxfMTextContent resolveFont
                entity xs ys lineColor textColor state cell) as [state1 ->].
    cbn [bindE]. destruct (IH state1) as [state2 ->]. exists state2.
    destruct (isBlockCell cell); reflexivity.
Qed.

(** X28.  [ACAD_TABLE] reports every cell that holds a block (a cell whose
    group 171 reads 2 once trimmed) exactly once, in the order of the
    cells, with the table and the cell, and reports nothing else; this is
    so whether the table is then returned or rejected because its position
    (groups 10 and 20) is not within the bound, since the position is read
    last. *)
Theorem block_cells_are_reported (dxf : Document) (options : Options)
    (parseDxfMTextContent : string -> list MTextContent)
    (resolveFont : option (Font -> option Font)) (entity : DxfRecord)
    (vertices : list DxfRecord) :
  fst (Table.ACAD_TABLE dxf options parseDxfMTextContent resolveFont entity vertices) =
  map (blockCell entity) (filter isBlockCell (Table.cellsOf entity)).
Proof.
  unfold Table.ACAD_TABLE. cbv zeta.
  match goal with
  | |- context [Table.cellsSvg ?o ?p ?r ?e ?xs ?ys ?lc ?tc ?cells ?st] =>
      destruct (cellsSvg_reports o p r e xs ys lc tc cells st) as [[[s xi] yi] ->]
  end.
  cbn [bindE lift].
  destruct (dollar_number entity 10 None) as [x | error]; cbn [bindE];
    [| rewrite app_nil_r; reflexivity].
  destruct (dollar_number entity 20 None) as [y | error]; cbn [bind bindE ret];
    rewrite !app_nil_r; reflexivity.
Qed.
